(** * Sports commentary generator: analyzer, generator and snapshot validator

    A shallow embedding of [src/commentary/analyzer.py],
    [src/commentary/generator.py] and [src/utils/validators.py], of the
    voice profiles and statistics of [src/speech/synthesizer.py] and of the
    prompt of [src/api/groq_client.py].

    Conventions of the embedding.
    - The snapshots and analyses that the code passes around as [Dict] are
      dictionaries of dynamically typed values ([value]); an operation applied
      to a value of the wrong type raises the exception Python raises.
    - A Python [dict] with string keys is an insertion-ordered association
      list; lookup takes the first binding of a key.
    - A Python [int] is a [Z].  A Python [float] is an exact rational ([Q]);
      infinities, NaN and binary rounding error are outside the model.
      The conversion of an [int] beyond the largest float, and a quotient of
      two [int]s beyond it, are the [OverflowError] that Python raises.
      [round(x, n)] is rounding to the nearest multiple of [10^-n], ties to
      even; the code rounds the binary float, which at a tie of the exact
      value lies to one side of it.
    - A Python [str] is a [string] of the code points 0 to 255.  On these,
      [str.isdigit()], [str.isspace()] and [int()] are Python's, with the
      superscript digits, the no-break space and the default limit of 4300
      digits; [str.lower()] maps the ASCII letters.  [str()] of an [int] is
      its decimal numeral; the same limit on that conversion is left out.
    - A raised exception is the [Err] case of [result]; statements of the
      source are sequenced with the bind of that monad.
    - Instance attributes mutated by a method ([previous_stats],
      [last_used_patterns]) are threaded explicitly: the method returns its
      result together with the new instance.
    - [random.uniform] is replaced by the sequence of its results, an
      argument of the call.
    - Library functions and methods that the modules use but do not define
      ([datetime.strptime], [float] on a string, the printed form of floats
      and containers, and the methods that [_assess_game_situation] and
      [_fill_template] call on [self] without the classes defining them) are
      variables of the section: every statement holds for all of them.  So
      is the HTTP exchange of [GroqClient.generate_commentary].
    - Calls of the logger have no part in the results and are left out. *)

From Stdlib Require Import List String Ascii Bool ZArith QArith Qround Qabs Lia.
From Stdlib Require Import DecimalString Sorted Permutation Lqa.
Import ListNotations.

Set Warnings "-register-all".

Open Scope string_scope.
Open Scope Z_scope.

(** ** Exceptions and the error monad *)

Inductive exn : Type :=
| KeyError (key : string)
| IndexError
| TypeError
| ValueError
| AttributeError
| ZeroDivisionError
| OverflowError
| ValidationError (msg : string).

Inductive result (A : Type) : Type :=
| Ok (a : A)
| Err (e : exn).

Arguments Ok {A} a.
Arguments Err {A} e.

Definition bind {A B : Type} (m : result A) (k : A -> result B) : result B :=
  match m with
  | Ok a => k a
  | Err e => Err e
  end.

Notation "x <- m ;; k" := (bind m (fun x => k))
  (at level 61, m at next level, right associativity).

(** A method that may update the attributes [S] of its instance: it returns
    its result, or the exception it raised, together with the instance as the
    method left it.  An exception does not undo the updates made before it. *)
Definition method (S A : Type) : Type := S -> result A * S.

Definition m_ret {S A : Type} (a : A) : method S A := fun s => (Ok a, s).

Definition m_bind {S A B : Type} (m : method S A) (k : A -> method S B)
  : method S B :=
  fun s =>
    match m s with
    | (Ok a, s') => k a s'
    | (Err e, s') => (Err e, s')
    end.

(** A call that reads the instance and leaves it as it is. *)
Definition m_read {S A : Type} (f : S -> result A) : method S A :=
  fun s => (f s, s).

(** An assignment to the attributes. *)
Definition m_write {S : Type} (f : S -> S) : method S unit :=
  fun s => (Ok tt, f s).

(** [try: body except Exception as e: handler e] *)
Definition m_try {S A : Type} (body : method S A) (handler : exn -> method S A)
  : method S A :=
  fun s =>
    match body s with
    | (Ok a, s') => (Ok a, s')
    | (Err e, s') => handler e s'
    end.

Notation "x <~ m ;; k" := (m_bind m (fun x => k))
  (at level 61, m at next level, right associativity).

(** ** Python values *)

Inductive value : Type :=
| VNone
| VBool (b : bool)
| VInt (z : Z)
| VFloat (q : Q)
| VStr (s : string)
| VList (l : list value)
| VDict (d : list (string * value))
| VMoment (timestamp event_type : value) (importance : Q)
          (description teams_involved : value)
          (score_change momentum_shift : bool).

Definition dict : Type := list (string * value).

(** ** Strings *)

Module Str.

(** [s.lower()], on the ASCII letters. *)
Definition lower_ascii (a : ascii) : ascii :=
  let n := nat_of_ascii a in
  if (65 <=? n)%nat && (n <=? 90)%nat then ascii_of_nat (n + 32) else a.

Fixpoint lower (s : string) : string :=
  match s with
  | EmptyString => EmptyString
  | String a r => String (lower_ascii a) (lower r)
  end.

(** [needle in hay] for two strings. *)
Fixpoint contains (needle hay : string) : bool :=
  prefix needle hay ||
  match hay with
  | EmptyString => false
  | String _ r => contains needle r
  end.

(** [s.split(c)] for a one-character separator. *)
Fixpoint split (c : ascii) (s : string) : list string :=
  match s with
  | EmptyString => [EmptyString]
  | String a r =>
      if Ascii.eqb a c then EmptyString :: split c r
      else match split c r with
           | h :: t => String a h :: t
           | [] => [String a EmptyString]
           end
  end.

Definition is_digit (a : ascii) : bool :=
  let n := nat_of_ascii a in (48 <=? n)%nat && (n <=? 57)%nat.

Fixpoint all_digits (s : string) : bool :=
  match s with
  | EmptyString => true
  | String a r => is_digit a && all_digits r
  end.

(** The characters for which [str.isdigit()] holds, among the code points 0
    to 255: the decimal digits and the superscripts two, three and one
    (178, 179, 185), which [int()] does not read. *)
Definition is_digit_or_superscript (a : ascii) : bool :=
  let n := nat_of_ascii a in
  is_digit a || (n =? 178)%nat || (n =? 179)%nat || (n =? 185)%nat.

Fixpoint all_digits_or_superscripts (s : string) : bool :=
  match s with
  | EmptyString => true
  | String a r => is_digit_or_superscript a && all_digits_or_superscripts r
  end.

(** [s.isdigit()]: at least one character, and all of them digits in the
    sense of [str.isdigit()]. *)
Definition isdigit (s : string) : bool :=
  match s with
  | EmptyString => false
  | _ => all_digits_or_superscripts s
  end.

(** The characters for which [str.isspace()] holds, among the code points 0
    to 255: tab to carriage return, the four separators 28 to 31, the
    space, next line (133) and the no-break space (160). *)
Definition is_space (a : ascii) : bool :=
  let n := nat_of_ascii a in
  ((9 <=? n)%nat && (n <=? 13)%nat) || ((28 <=? n)%nat && (n <=? 32)%nat) ||
  (n =? 133)%nat || (n =? 160)%nat.

(** The characters that [int()] skips at both ends of its argument: those
    of [str.isspace()] without the separators 28 to 31. *)
Definition is_int_space (a : ascii) : bool :=
  let n := nat_of_ascii a in
  ((9 <=? n)%nat && (n <=? 13)%nat) || (n =? 32)%nat ||
  (n =? 133)%nat || (n =? 160)%nat.

(** The argument of [int()] without the whitespace at its ends. *)
Fixpoint lstrip (s : string) : string :=
  match s with
  | String a r => if is_int_space a then lstrip r else s
  | EmptyString => EmptyString
  end.

Fixpoint rev_onto (s acc : string) : string :=
  match s with
  | EmptyString => acc
  | String a r => rev_onto r (String a acc)
  end.

Definition rev (s : string) : string := rev_onto s EmptyString.

Definition strip (s : string) : string := rev (lstrip (rev (lstrip s))).

Definition digit_value (a : ascii) : Z := Z.of_nat (nat_of_ascii a - 48).

(** The digits of a decimal literal, most significant first; a single
    underscore is allowed between two digits.  [after_digit] tells whether
    the previous character was a digit. *)
Fixpoint digits_value (s : string) (after_digit : bool) (acc : Z) : option Z :=
  match s with
  | EmptyString => if after_digit then Some acc else None
  | String a r =>
      if is_digit a then digits_value r true (10 * acc + digit_value a)
      else if Ascii.eqb a "_"%char && after_digit then
             match r with
             | String b _ => if is_digit b then digits_value r false acc else None
             | EmptyString => None
             end
           else None
  end.

(** The number of decimal digits in [s]. *)
Fixpoint count_digits (s : string) : nat :=
  match s with
  | EmptyString => O
  | String a r => if is_digit a then S (count_digits r) else count_digits r
  end.

(** The longest literal that [int()] converts: the default of
    [sys.get_int_max_str_digits()]. *)
Definition max_str_digits : nat := 4300.

(** [int(s)] in base ten.  A literal of more than [max_str_digits] digits is
    a [ValueError], as is a malformed one. *)
Definition to_int (s : string) : result Z :=
  let body := strip s in
  let parsed :=
    match body with
    | String "-" r => option_map Z.opp (digits_value r false 0)
    | String "+" r => digits_value r false 0
    | _ => digits_value body false 0
    end in
  if (max_str_digits <? count_digits body)%nat then Err ValueError
  else match parsed with
       | Some z => Ok z
       | None => Err ValueError
       end.

(** [str(z)] for an integer. *)
Definition of_int (z : Z) : string := NilZero.string_of_int (Z.to_int z).

(** [s[:n]]: the first [n] characters, or all but the last [-n] ones. *)
Definition slice_to (s : string) (n : Z) : string :=
  if n <? 0
  then substring 0 (Z.to_nat (Z.of_nat (String.length s) + n)) s
  else substring 0 (Z.to_nat n) s.

End Str.

(** ** Built-in operations on values *)

Module Py.

(** *** Dictionaries *)

Fixpoint lookup (k : string) (d : dict) : option value :=
  match d with
  | [] => None
  | (k', v) :: r => if String.eqb k k' then Some v else lookup k r
  end.

(** [k in d] *)
Definition has_key (k : string) (d : dict) : bool :=
  match lookup k d with Some _ => true | None => false end.

(** [d.get(k, default)] *)
Definition get (d : dict) (k : string) (default : value) : value :=
  match lookup k d with Some v => v | None => default end.

(** [d[k]] *)
Definition item (d : dict) (k : string) : result value :=
  match lookup k d with Some v => Ok v | None => Err (KeyError k) end.

Definition keys (d : dict) : list string := map fst d.
Definition values (d : dict) : list value := map snd d.

(** *** Attribute and item access on an arbitrary value *)

(** [v[k]] for a string key [k]. *)
Definition subscript (v : value) (k : string) : result value :=
  match v with
  | VDict d => item d k
  | _ => Err TypeError
  end.

(** [v.get(k, default)] *)
Definition get_method (v : value) (k : string) (default : value) : result value :=
  match v with
  | VDict d => Ok (get d k default)
  | _ => Err AttributeError
  end.

(** [v.values()] *)
Definition values_method (v : value) : result (list value) :=
  match v with
  | VDict d => Ok (values d)
  | _ => Err AttributeError
  end.

(** [v.items()] *)
Definition items_method (v : value) : result (list (string * value)) :=
  match v with
  | VDict d => Ok d
  | _ => Err AttributeError
  end.

(** [v.lower()] *)
Definition lower_method (v : value) : result string :=
  match v with
  | VStr s => Ok (Str.lower s)
  | _ => Err AttributeError
  end.

(** [v.split(":")] *)
Definition split_method (v : value) (c : ascii) : result (list string) :=
  match v with
  | VStr s => Ok (Str.split c s)
  | _ => Err AttributeError
  end.

Fixpoint chars (s : string) : list value :=
  match s with
  | EmptyString => []
  | String a r => VStr (String a EmptyString) :: chars r
  end.

(** The elements a [for] loop over [v] visits. *)
Definition iter (v : value) : result (list value) :=
  match v with
  | VList l => Ok l
  | VDict d => Ok (map VStr (keys d))
  | VStr s => Ok (chars s)
  | _ => Err TypeError
  end.

(** *** Numbers *)

Definition Z_of_bool (b : bool) : Z := if b then 1 else 0.

Definition as_num (v : value) : option Q :=
  match v with
  | VBool b => Some (inject_Z (Z_of_bool b))
  | VInt z => Some (inject_Z z)
  | VFloat q => Some q
  | _ => None
  end.

Definition as_int (v : value) : option Z :=
  match v with
  | VBool b => Some (Z_of_bool b)
  | VInt z => Some z
  | _ => None
  end.

Definition Qltb (x y : Q) : bool := negb (Qle_bool y x).

(** [min(a, b)] on two floats: [b] when it is smaller, else [a]. *)
Definition fmin (a b : Q) : Q := if Qltb b a then b else a.

(** The least magnitude that rounds to [2 ** 1024] or more and so is beyond
    the largest float. *)
Definition float_limit : Z := 2 ^ 1024 - 2 ^ 970.

Definition too_large (q : Q) : bool :=
  Qle_bool (inject_Z float_limit) (Qabs q).

(** Whether [v] is of type [int] (or [bool]). *)
Definition is_int (v : value) : bool :=
  match as_int v with Some _ => true | None => false end.

Definition both_int (a b : value) : bool := is_int a && is_int b.

(** Whether one of two numbers is an [int] beyond the largest float while
    the other is a [float]: the conversion of the [int], which precedes the
    arithmetic, is then an [OverflowError]. *)
Definition unconvertible (a b : value) : bool :=
  match as_int a, as_int b with
  | Some x, None => too_large (inject_Z x)
  | None, Some y => too_large (inject_Z y)
  | _, _ => false
  end.

(** [a / b].  Between two [int]s the division is exact before it is
    rounded, and overflows only when the quotient is too large; an [int]
    beside a [float] is converted first. *)
Definition truediv (a b : value) : result Q :=
  match as_num a, as_num b with
  | Some x, Some y =>
      if unconvertible a b then Err OverflowError
      else if Qeq_bool y 0 then Err ZeroDivisionError
      else if both_int a b && too_large (x / y) then Err OverflowError
      else Ok (Qred (x / y))
  | _, _ => Err TypeError
  end.

(** [x / y] on two floats. *)
Definition fdiv (x y : Q) : result Q :=
  if Qeq_bool y 0 then Err ZeroDivisionError else Ok (Qred (x / y)).

(** [a - b]: exact between two [int]s; an [int] beside a [float] is
    converted first. *)
Definition sub (a b : value) : result value :=
  match as_int a, as_int b with
  | Some x, Some y => Ok (VInt (x - y))
  | _, _ =>
      match as_num a, as_num b with
      | Some x, Some y =>
          if unconvertible a b then Err OverflowError
          else Ok (VFloat (Qred (x - y)))
      | _, _ => Err TypeError
      end
  end.

(** [abs(v)] *)
Definition abs (v : value) : result value :=
  match v with
  | VBool b => Ok (VInt (Z_of_bool b))
  | VInt z => Ok (VInt (Z.abs z))
  | VFloat q => Ok (VFloat (Qabs q))
  | _ => Err TypeError
  end.

(** The integer nearest to [x], ties to the even one. *)
Definition round_half_even (x : Q) : Z :=
  let f := Qfloor x in
  match (x - inject_Z f ?= 1 # 2)%Q with
  | Lt => f
  | Gt => f + 1
  | Eq => if Z.even f then f else f + 1
  end.

(** [round(x, ndigits)] on a float. *)
Definition round (x : Q) (ndigits : nat) : Q :=
  let scale := Z.pow 10 (Z.of_nat ndigits) in
  Qred (Qmake (round_half_even (x * inject_Z scale)) (Z.to_pos scale)).

(** *** Truth value, equality and ordering *)

(** [bool(v)] *)
Definition truthy (v : value) : bool :=
  match v with
  | VNone => false
  | VBool b => b
  | VInt z => negb (z =? 0)
  | VFloat q => negb (Qeq_bool q 0)
  | VStr s => negb (String.eqb s EmptyString)
  | VList l => match l with [] => false | _ => true end
  | VDict d => match d with [] => false | _ => true end
  | VMoment _ _ _ _ _ _ _ => true
  end.

(** [a == b].  Numbers compare by value across [bool], [int] and [float];
    dictionaries compare regardless of the order of their keys. *)
Fixpoint eq (a b : value) {struct a} : bool :=
  match a with
  | VNone => match b with VNone => true | _ => false end
  | VBool x =>
      match as_num b with
      | Some y => Qeq_bool (inject_Z (Z_of_bool x)) y
      | None => false
      end
  | VInt x =>
      match as_num b with
      | Some y => Qeq_bool (inject_Z x) y
      | None => false
      end
  | VFloat x =>
      match as_num b with
      | Some y => Qeq_bool x y
      | None => false
      end
  | VStr s => match b with VStr t => String.eqb s t | _ => false end
  | VList l =>
      match b with
      | VList l' =>
          (fix go (xs ys : list value) {struct xs} : bool :=
             match xs, ys with
             | [], [] => true
             | x :: xs', y :: ys' => eq x y && go xs' ys'
             | _, _ => false
             end) l l'
      | _ => false
      end
  | VDict d =>
      match b with
      | VDict d' =>
          Nat.eqb (List.length d) (List.length d') &&
          (fix go (kvs : list (string * value)) {struct kvs} : bool :=
             match kvs with
             | [] => true
             | (k, v) :: r =>
                 match lookup k d' with
                 | Some w => eq v w
                 | None => false
                 end && go r
             end) d
      | _ => false
      end
  | VMoment ts ty imp de te sc ms =>
      match b with
      | VMoment ts' ty' imp' de' te' sc' ms' =>
          eq ts ts' && eq ty ty' && Qeq_bool imp imp' && eq de de' &&
          eq te te' && Bool.eqb sc sc' && Bool.eqb ms ms'
      | _ => false
      end
  end.

(** Three-way comparison behind [<], [<=], [>] and [>=]: numbers by value,
    strings and lists lexicographically; any other pair is a [TypeError]. *)
Fixpoint cmp (a b : value) {struct a} : result comparison :=
  match a with
  | VStr s =>
      match b with
      | VStr t => Ok (String.compare s t)
      | _ => Err TypeError
      end
  | VList l =>
      match b with
      | VList l' =>
          (fix go (xs ys : list value) {struct xs} : result comparison :=
             match xs, ys with
             | [], [] => Ok Eq
             | [], _ :: _ => Ok Lt
             | _ :: _, [] => Ok Gt
             | x :: xs', y :: ys' => if eq x y then go xs' ys' else cmp x y
             end) l l'
      | _ => Err TypeError
      end
  | _ =>
      match as_num a, as_num b with
      | Some x, Some y => Ok (x ?= y)%Q
      | _, _ => Err TypeError
      end
  end.

Definition gt (a b : value) : result bool :=
  c <- cmp a b ;; Ok (match c with Gt => true | _ => false end).

Definition ge (a b : value) : result bool :=
  c <- cmp a b ;; Ok (match c with Lt => false | _ => true end).

Definition lt (a b : value) : result bool :=
  c <- cmp a b ;; Ok (match c with Lt => true | _ => false end).

(** [max(items, key=key)]: the first item whose key no later item exceeds;
    an empty argument is a [ValueError]. *)
Fixpoint max_from {A : Type} (key : A -> value) (best : A) (rest : list A)
  : result A :=
  match rest with
  | [] => Ok best
  | x :: r =>
      b <- gt (key x) (key best) ;;
      max_from key (if b then x else best) r
  end.

Definition max_by {A : Type} (key : A -> value) (items : list A) : result A :=
  match items with
  | [] => Err ValueError
  | x :: r => max_from key x r
  end.

(** [x in xs] for a list of strings. *)
Definition str_in (x : string) (xs : list string) : bool :=
  existsb (String.eqb x) xs.

(** [k in v] for a string [k]: a key of a dictionary, a substring of a
    string, an element of a list. *)
Definition contains (k : string) (v : value) : result bool :=
  match v with
  | VDict d => Ok (has_key k d)
  | VStr s => Ok (Str.contains k s)
  | VList l => Ok (existsb (eq (VStr k)) l)
  | _ => Err TypeError
  end.

End Py.

(** ** Analyzer data *)

(** The [GameMoment] dataclass. *)
Record GameMoment : Type := mkGameMoment {
  timestamp : value;
  event_type : value;
  importance : Q;  (* 0.0 to 1.0 *)
  description : value;
  teams_involved : value;
  score_change : bool;
  momentum_shift : bool
}.

Definition moment_value (m : GameMoment) : value :=
  VMoment (timestamp m) (event_type m) (importance m) (description m)
          (teams_involved m) (score_change m) (momentum_shift m).

(** The attributes of a [GameAnalyzer] instance. *)
Record GameAnalyzer : Type := mkGameAnalyzer {
  previous_stats : option dict;
  momentum_threshold : Q;
  significant_events : list (string * Q)
}.

(** ** Generator data *)

(** The [CommentaryTemplate] dataclass. *)
Record CommentaryTemplate : Type := mkCommentaryTemplate {
  pattern : string;
  conditions : list (string * Q);  (* condition -> minimum threshold *)
  style : string;
  priority : Z
}.

(** The attributes of a [CommentaryGenerator] instance. *)
Record CommentaryGenerator : Type := mkCommentaryGenerator {
  templates : list CommentaryTemplate;
  last_used_patterns : list string;
  max_pattern_memory : nat
}.

(** ** Speech synthesizer data and bookkeeping

    The parts of [src/speech/synthesizer.py] that do not talk to the speech
    service: the voice profiles and the synthesis statistics. *)

Module Speech.

(** The attributes of a [VoiceProfile]. *)
Record VoiceProfile : Type := mkVoiceProfile {
  voice_name : string;
  style : string;
  rate : Q;
  pitch : Q
}.

(** The dictionary [self.stats]. *)
Record Stats : Type := mkStats {
  total_synthesized : Z;
  errors : Z;
  average_duration : Q
}.

(** The attributes of a [SpeechSynthesizer] that its bookkeeping methods
    read and write. *)
Record SpeechSynthesizer : Type := mkSpeechSynthesizer {
  voice_profiles : list (string * VoiceProfile);
  stats : Stats
}.

(** The voice profiles and statistics that [SpeechSynthesizer.__init__]
    sets. *)
Definition SpeechSynthesizer_init : SpeechSynthesizer :=
  {| voice_profiles :=
       [ ("excited",
          {| voice_name := "en-US-ChristopherNeural"; style := "excited";
             rate := 1.1; pitch := 2 |});
         ("neutral",
          {| voice_name := "en-US-GuyNeural"; style := "neutral";
             rate := 1.0; pitch := 0 |});
         ("analytical",
          {| voice_name := "en-US-RogerNeural"; style := "analytical";
             rate := 0.9; pitch := -1 |}) ];
     stats := {| total_synthesized := 0; errors := 0; average_duration := 0 |} |}.

Fixpoint lookup_profile (k : string) (profiles : list (string * VoiceProfile))
  : option VoiceProfile :=
  match profiles with
  | [] => None
  | (k', p) :: rest => if String.eqb k k' then Some p else lookup_profile k rest
  end.

(** The profiles after the attributes of the profile stored under [k] have
    been assigned; the profile object is shared with the dictionary. *)
Fixpoint store_profile (k : string) (p : VoiceProfile)
  (profiles : list (string * VoiceProfile)) : list (string * VoiceProfile) :=
  match profiles with
  | [] => []
  | (k', p') :: rest =>
      if String.eqb k k' then (k', p) :: rest
      else (k', p') :: store_profile k p rest
  end.

(** [max(a, b)] on two floats: [b] when it is larger, else [a]. *)
Definition fmax (a b : Q) : Q := if Py.Qltb a b then b else a.

(** [SpeechSynthesizer.update_voice_profile]; with a string and floats for
    arguments nothing in its [try] raises. *)
Definition update_voice_profile (style0 : string) (voice_name0 : option string)
  (rate0 pitch0 : option Q) : method SpeechSynthesizer bool :=
  fun self =>
    match lookup_profile style0 (voice_profiles self) with
    | None => (Ok false, self)
    | Some profile =>
        let profile :=
          match voice_name0 with
          | Some name =>
              if negb (String.eqb name EmptyString)
              then {| voice_name := name; style := style profile;
                      rate := rate profile; pitch := pitch profile |}
              else profile
          | None => profile
          end in
        let profile :=
          match rate0 with
          | Some r =>
              {| voice_name := voice_name profile; style := style profile;
                 rate := fmax 0.5 (Py.fmin 2.0 r); pitch := pitch profile |}
          | None => profile
          end in
        let profile :=
          match pitch0 with
          | Some p =>
              {| voice_name := voice_name profile; style := style profile;
                 rate := rate profile;
                 pitch := fmax (-12) (Py.fmin 12 p) |}
          | None => profile
          end in
        (Ok true,
         {| voice_profiles := store_profile style0 profile (voice_profiles self);
            stats := stats self |})
    end.

Definition set_stats (s : Stats) (self : SpeechSynthesizer) : SpeechSynthesizer :=
  {| voice_profiles := voice_profiles self; stats := s |}.

(** [SpeechSynthesizer._update_stats] *)
Definition _update_stats (success : bool) (duration : Z)
  : method SpeechSynthesizer unit :=
  _ <~ m_write (fun self =>
         set_stats {| total_synthesized := total_synthesized (stats self) + 1;
                      errors := errors (stats self);
                      average_duration := average_duration (stats self) |}
                   self) ;;
  _ <~ (if negb success
        then m_write (fun self =>
               set_stats {| total_synthesized := total_synthesized (stats self);
                            errors := errors (stats self) + 1;
                            average_duration := average_duration (stats self) |}
                         self)
        else m_ret tt) ;;
  (* Update average duration *)
  if success && (0 <? duration)
  then
    fun self =>
      let total := total_synthesized (stats self) in
      let current_total :=
        (average_duration (stats self) * inject_Z (total - 1))%Q in
      let new_total := (current_total + inject_Z duration)%Q in
      match Py.fdiv new_total (inject_Z total) with
      | Ok average =>
          (Ok tt,
           set_stats {| total_synthesized := total;
                        errors := errors (stats self);
                        average_duration := average |}
                     self)
      | Err e => (Err e, self)
      end
  else m_ret tt.

(** [SpeechSynthesizer.get_synthesis_stats] *)
Definition get_synthesis_stats : method SpeechSynthesizer Stats :=
  m_read (fun self => Ok (stats self)).

(** *** Vocabulary of the statements about the synthesizer *)

(** The arguments of one call of [update_voice_profile]. *)
Record update : Type := mkUpdate {
  to_style : string;
  new_voice_name : option string;
  new_rate : option Q;
  new_pitch : option Q
}.

(** The synthesizer after one call, and after a sequence of calls. *)
Definition after_update (self : SpeechSynthesizer) (u : update)
  : SpeechSynthesizer :=
  snd (update_voice_profile (to_style u) (new_voice_name u) (new_rate u)
         (new_pitch u) self).

Definition after_updates (us : list update) (self : SpeechSynthesizer)
  : SpeechSynthesizer :=
  fold_left after_update us self.

(** The rate lies in [0.5, 2.0] and the pitch in [-12, 12]. *)
Definition within_bounds (p : VoiceProfile) : Prop :=
  (0.5 <= rate p /\ rate p <= 2.0 /\ -12 <= pitch p /\ pitch p <= 12)%Q.

(** The profiles are stored under their own style and are within bounds. *)
Definition well_formed (profiles : list (string * VoiceProfile)) : Prop :=
  Forall (fun kp => style (snd kp) = fst kp /\ within_bounds (snd kp)) profiles.

(** One call of [_update_stats] per synthesis, in order; each synthesis is
    given by its success flag and its duration. *)
Fixpoint record_all (calls : list (bool * Z)) : method SpeechSynthesizer unit :=
  match calls with
  | [] => m_ret tt
  | (success, duration) :: rest =>
      _ <~ _update_stats success duration ;; record_all rest
  end.

Definition failures (calls : list (bool * Z)) : nat :=
  List.length (filter (fun c => negb (fst c)) calls).

Definition total_duration (calls : list (bool * Z)) : Z :=
  fold_right Z.add 0%Z (map snd calls).

End Speech.

(** ** Groq client data *)

(** The attributes of a [GroqClient] other than its HTTP session. *)
Record GroqClient : Type := mkGroqClient {
  api_key : string;
  base_url : string;
  headers : dict
}.

Section Commentary.

(** Whether [datetime.strptime(s, '%Y-%m-%d %H:%M:%S')] accepts [s]. *)
Variable strptime_accepts : string -> bool.

(** Python's [float(s)] on a string, restricted to the strings that denote
    a finite number. *)
Variable float_of_string : string -> result Q.

(** Python's [str(v)] on the floats, containers and dataclass instances,
    whose printed form is not spelled out here. *)
Variable repr_value : value -> string.

(** Methods that [GameAnalyzer._assess_game_situation] calls on [self] and
    that the class body in [analyzer.py] does not define. *)
Variable _calculate_criticality : Z -> value -> result value.
Variable _determine_game_phase : Z -> result value.
Variable _generate_situation_context : dict -> result value.

(** Methods that [CommentaryGenerator._fill_template] calls on [self] and
    that the class body in [generator.py] does not define. *)
Variable _get_team_action : dict -> result value.
Variable _get_intensity_descriptor : value -> result value.
Variable _get_key_statistic : value -> result value.
Variable _get_stat_type : value -> result value.
Variable _analyze_statistic : value -> result value.

(** The exchange with the Groq service in [GroqClient.generate_commentary]:
    [self.session.post(endpoint, headers=..., json=...)], then
    [raise_for_status()] and [json()] on the response.  It gives the decoded
    body, or the exception that one of the three raises. *)
Variable session_post : string -> dict -> dict -> result value.

(** [float(v)]; an [int] beyond the largest float is an [OverflowError]. *)
Definition py_float (v : value) : result Q :=
  match v with
  | VStr s => float_of_string s
  | VInt z =>
      if Py.too_large (inject_Z z) then Err OverflowError else Ok (inject_Z z)
  | _ => match Py.as_num v with
         | Some q => Ok q
         | None => Err TypeError
         end
  end.

(** [str(v)] *)
Definition py_str (v : value) : string :=
  match v with
  | VNone => "None"
  | VBool true => "True"
  | VBool false => "False"
  | VInt z => Str.of_int z
  | VStr s => s
  | _ => repr_value v
  end.

(** *** [GameAnalyzer] *)

(** [GameAnalyzer.__init__] *)
Definition GameAnalyzer_init : GameAnalyzer :=
  {| previous_stats := None;
     momentum_threshold := 0.6;
     significant_events :=
       [ ("score_change", 0.8%Q);
         ("possession_change", 0.4%Q);
         ("timeout", 0.5%Q);
         ("injury", 0.7%Q);
         ("penalty", 0.6%Q) ] |}.

Fixpoint lookup_weight (k : string) (table : list (string * Q)) : option Q :=
  match table with
  | [] => None
  | (k', w) :: r => if String.eqb k k' then Some w else lookup_weight k r
  end.

(** [GameAnalyzer._calculate_event_importance] *)
Definition _calculate_event_importance (self : GameAnalyzer) (event : value)
  : result Q :=
  ty <- Py.subscript event "type" ;;
  key <- Py.lower_method ty ;;
  let base_importance :=
    match lookup_weight key (significant_events self) with
    | Some w => w
    | None => 0.3%Q
    end in
  has_time <- Py.contains "time_remaining" event ;;
  base_importance <-
    (if has_time : bool then
       tr <- Py.subscript event "time_remaining" ;;
       t <- py_float tr ;;
       let time_factor := Py.fmin 1.0 (1.5 - t / 3600)%Q in
       Ok (base_importance * (1 + time_factor))%Q
     else Ok base_importance) ;;
  Ok (Py.fmin 1.0 base_importance).

(** The body of the loop of [_identify_key_moments] for one event: the
    moment to append, if any. *)
Definition key_moment_of (self : GameAnalyzer) (event : value)
  : result (option GameMoment) :=
  importance <- _calculate_event_importance self event ;;
  if Qle_bool (momentum_threshold self) importance then
    ts <- Py.subscript event "timestamp" ;;
    ty <- Py.subscript event "type" ;;
    de <- Py.subscript event "description" ;;
    te <- Py.subscript event "teams" ;;
    ty' <- Py.subscript event "type" ;;
    lowered <- Py.lower_method ty' ;;
    Ok (Some {| timestamp := ts;
                event_type := ty;
                importance := importance;
                description := de;
                teams_involved := te;
                score_change := Str.contains "score" lowered;
                momentum_shift := Py.Qltb 0.7 importance |})
  else Ok None.

(** The list [key_moments] as the loop leaves it, in event order. *)
Fixpoint collect_key_moments (self : GameAnalyzer) (events : list value)
  : result (list GameMoment) :=
  match events with
  | [] => Ok []
  | event :: rest =>
      m <- key_moment_of self event ;;
      ms <- collect_key_moments self rest ;;
      Ok (match m with Some x => x :: ms | None => ms end)
  end.

(** [sorted(ms, key=lambda x: x.importance, reverse=True)]: a stable sort,
    larger importance first. *)
Fixpoint insert_desc (m : GameMoment) (sorted : list GameMoment)
  : list GameMoment :=
  match sorted with
  | [] => [m]
  | h :: t =>
      if Qle_bool (importance h) (importance m) then m :: h :: t
      else h :: insert_desc m t
  end.

Definition sorted_desc (ms : list GameMoment) : list GameMoment :=
  fold_right insert_desc [] ms.

(** [GameAnalyzer._identify_key_moments] *)
Definition _identify_key_moments (self : GameAnalyzer) (stats : dict)
  : result (list GameMoment) :=
  events <- Py.iter (Py.get stats "recent_events" (VList [])) ;;
  key_moments <- collect_key_moments self events ;;
  Ok (sorted_desc key_moments).

Definition bump (by_home : bool) (delta : Q) (m : Q * Q) : Q * Q :=
  if by_home then (fst m + delta, snd m - delta)%Q
  else (fst m - delta, snd m + delta)%Q.

(** The loop of [_calculate_momentum] over the recent scoring plays; the
    pair is [(home_momentum, away_momentum)]. *)
Fixpoint scoring_trend (stats : dict) (recent_scores : list value)
  (m : Q * Q) : result (Q * Q) :=
  match recent_scores with
  | [] => Ok m
  | score :: rest =>
      team <- Py.subscript score "team" ;;
      home_team <- Py.item stats "home_team" ;;
      scoring_trend stats rest (bump (Py.eq team home_team) 0.1 m)
  end.

Definition possession_bonus (stats : dict) (m : Q * Q) : result (Q * Q) :=
  if Py.has_key "possession" stats then
    possession <- Py.item stats "possession" ;;
    home_team <- Py.item stats "home_team" ;;
    if Py.eq possession home_team
    then Ok (fst m + 0.05, snd m)%Q
    else Ok (fst m, snd m + 0.05)%Q
  else Ok m.

(** [not self.previous_stats] *)
Definition no_previous (self : GameAnalyzer) : bool :=
  match previous_stats self with
  | None => true
  | Some d => negb (Py.truthy (VDict d))
  end.

(** [GameAnalyzer._calculate_momentum] *)
Definition _calculate_momentum (self : GameAnalyzer) (stats : dict)
  : result dict :=
  if no_previous self then
    Ok [("home", VFloat 0.5); ("away", VFloat 0.5)]
  else
    recent_scores <- Py.iter (Py.get stats "recent_scores" (VList [])) ;;
    m <- scoring_trend stats recent_scores (0.5, 0.5)%Q ;;
    m <- possession_bonus stats m ;;
    let home_momentum := fst m in
    let away_momentum := snd m in
    (* Normalize values between 0 and 1 *)
    let total := (home_momentum + away_momentum)%Q in
    home <- Py.fdiv home_momentum total ;;
    away <- Py.fdiv away_momentum total ;;
    Ok [("home", VFloat (Py.round home 2)); ("away", VFloat (Py.round away 2))].

(** [GameAnalyzer._calculate_efficiency] *)
Definition _calculate_efficiency (stats : dict) (team : string) : result Q :=
  let attempts := Py.get stats (team ++ "_attempts") (VInt 1) in  (* Avoid division by zero *)
  let successes := Py.get stats (team ++ "_successes") (VInt 0) in
  ratio <- Py.truediv successes attempts ;;
  Ok (Py.round ratio 3).

(** [GameAnalyzer._calculate_pressure] *)
Definition _calculate_pressure (stats : dict) (team : string) : result Q :=
  ratio <- Py.truediv (Py.get stats (team ++ "_pressure") (VInt 0)) (VInt 100) ;;
  Ok (Py.fmin 1.0 ratio).

(** [GameAnalyzer._calculate_defense] *)
Definition _calculate_defense (stats : dict) (team : string) : result Q :=
  ratio <- Py.truediv (Py.get stats (team ++ "_defense") (VInt 0)) (VInt 100) ;;
  Ok (Py.fmin 1.0 ratio).

Definition team_performance (stats : dict) (team : string) : result value :=
  efficiency <- _calculate_efficiency stats team ;;
  pressure <- _calculate_pressure stats team ;;
  defense <- _calculate_defense stats team ;;
  Ok (VDict [("efficiency", VFloat efficiency);
             ("pressure", VFloat pressure);
             ("defense", VFloat defense)]).

(** [GameAnalyzer._analyze_performance] *)
Definition _analyze_performance (stats : dict) : result dict :=
  home <- team_performance stats "home" ;;
  away <- team_performance stats "away" ;;
  Ok [("home", home); ("away", away)].

(** [GameAnalyzer._parse_time_remaining] *)
Definition _parse_time_remaining (time_str : value) : result Z :=
  parts <- Py.split_method time_str ":" ;;
  minutes <- match nth_error parts 0 with
             | Some p => Str.to_int p
             | None => Err IndexError
             end ;;
  seconds <- match nth_error parts 1 with
             | Some p => Str.to_int p
             | None => Err IndexError
             end ;;
  Ok (minutes * 60 + seconds).

(** [GameAnalyzer._assess_game_situation] *)
Definition _assess_game_situation (stats : dict) : result dict :=
  game_time <- Py.item stats "game_time" ;;
  time_remaining <- _parse_time_remaining game_time ;;
  home_score <- Py.item stats "home_score" ;;
  away_score <- Py.item stats "away_score" ;;
  difference <- Py.sub home_score away_score ;;
  score_difference <- Py.abs difference ;;
  criticality <- _calculate_criticality time_remaining score_difference ;;
  phase <- _determine_game_phase time_remaining ;;
  context <- _generate_situation_context stats ;;
  Ok [("criticality", criticality); ("phase", phase); ("context", context)].

(** [GameAnalyzer.analyze_game_state] *)
Definition analyze_game_state (current_stats : dict)
  : method GameAnalyzer dict :=
  key_moments <~ m_read (fun self => _identify_key_moments self current_stats) ;;
  momentum <~ m_read (fun self => _calculate_momentum self current_stats) ;;
  performance_metrics <~ m_read (fun _ => _analyze_performance current_stats) ;;
  game_situation <~ m_read (fun _ => _assess_game_situation current_stats) ;;
  let analysis :=
    [("key_moments", VList (map moment_value key_moments));
     ("momentum", VDict momentum);
     ("performance_metrics", VDict performance_metrics);
     ("game_situation", VDict game_situation)] in
  _ <~ m_write (fun self =>
                  {| previous_stats := Some current_stats;
                     momentum_threshold := momentum_threshold self;
                     significant_events := significant_events self |}) ;;
  m_ret analysis.

(** *** [CommentaryGenerator] *)

(** [CommentaryGenerator._load_templates] *)
Definition _load_templates : list CommentaryTemplate :=
  [ {| pattern := "{team} {action} as they {momentum_description}";
       conditions := [("momentum", 0.7%Q)];
       style := "neutral";
       priority := 1 |};
    {| pattern := "What a {intensity} performance by {team}! {key_stat}";
       conditions := [("performance", 0.8%Q)];
       style := "excited";
       priority := 2 |};
    {| pattern := "Looking at the numbers, {team}'s {stat_type} shows {analysis}";
       conditions := [("efficiency", 0.6%Q)];
       style := "analytical";
       priority := 1 |} ].

(** [CommentaryGenerator.__init__] *)
Definition CommentaryGenerator_init : CommentaryGenerator :=
  {| templates := _load_templates;
     last_used_patterns := [];
     max_pattern_memory := 5 |}.

(** [any(p.get('efficiency', 0) >= threshold for p in performances)] *)
Fixpoint any_efficiency (threshold : Q) (performances : list value)
  : result bool :=
  match performances with
  | [] => Ok false
  | p :: rest =>
      efficiency <- Py.get_method p "efficiency" (VInt 0) ;;
      reached <- Py.ge efficiency (VFloat threshold) ;;
      if reached : bool then Ok true else any_efficiency threshold rest
  end.

(** [CommentaryGenerator._check_condition] *)
Definition _check_condition (analysis : dict) (condition : string)
  (threshold : Q) : result bool :=
  if String.eqb condition "momentum" then
    vals <- Py.values_method (Py.get analysis "momentum" (VDict [])) ;;
    momentum <- Py.max_by (fun v => v) vals ;;
    Py.ge momentum (VFloat threshold)
  else if String.eqb condition "performance" then
    performances <-
      Py.values_method (Py.get analysis "performance_metrics" (VDict [])) ;;
    any_efficiency threshold performances
  else if String.eqb condition "efficiency" then
    performances <-
      Py.values_method (Py.get analysis "performance_metrics" (VDict [])) ;;
    any_efficiency threshold performances
  else Ok false.

(** [all(self._check_condition(analysis, c, t) for c, t in conditions.items())] *)
Fixpoint all_conditions (analysis : dict) (conds : list (string * Q))
  : result bool :=
  match conds with
  | [] => Ok true
  | (condition, threshold) :: rest =>
      met <- _check_condition analysis condition threshold ;;
      if met : bool then all_conditions analysis rest else Ok false
  end.

(** The loop of [_filter_templates] over the templates [ts]. *)
Fixpoint filter_loop (self : CommentaryGenerator) (analysis : dict)
  (wanted : string) (ts : list CommentaryTemplate)
  : result (list CommentaryTemplate) :=
  match ts with
  | [] => Ok []
  | template :: rest =>
      if negb (String.eqb (style template) wanted) then
        filter_loop self analysis wanted rest
      else
        conditions_met <- all_conditions analysis (conditions template) ;;
        kept <- filter_loop self analysis wanted rest ;;
        if conditions_met &&
           negb (Py.str_in (pattern template) (last_used_patterns self))
        then Ok (template :: kept)
        else Ok kept
  end.

(** [CommentaryGenerator._filter_templates] *)
Definition _filter_templates (self : CommentaryGenerator) (analysis : dict)
  (wanted : string) : result (list CommentaryTemplate) :=
  filter_loop self analysis wanted (templates self).

(** The list [weighted_templates]; [uniform i] is what the [i]-th call of
    [random.uniform(0.8, 1.2)] returns. *)
Fixpoint weigh (ts : list CommentaryTemplate) (uniform : nat -> Q) (i : nat)
  : list (CommentaryTemplate * Q) :=
  match ts with
  | [] => []
  | template :: rest =>
      (template, inject_Z (priority template) * uniform i)%Q
        :: weigh rest uniform (S i)
  end.

(** [max(weighted, key=lambda x: x[1])], the first of the heaviest. *)
Definition heaviest (first : CommentaryTemplate * Q)
  (rest : list (CommentaryTemplate * Q)) : CommentaryTemplate * Q :=
  fold_left (fun best x => if Py.Qltb (snd best) (snd x) then x else best)
            rest first.

(** [CommentaryGenerator._select_template] *)
Definition _select_template (ts : list CommentaryTemplate)
  (uniform : nat -> Q) : option CommentaryTemplate :=
  match weigh ts uniform 0 with
  | [] => None
  | first :: rest => Some (fst (heaviest first rest))
  end.

(** [CommentaryGenerator._generate_fallback_commentary] *)
Definition _generate_fallback_commentary (analysis : dict) : string :=
  let score :=
    py_str (Py.get analysis "home_score" (VInt 0)) ++ "-" ++
    py_str (Py.get analysis "away_score" (VInt 0)) in
  "The game continues with a score of " ++ score ++ ".".

(** [CommentaryGenerator._get_leading_team] *)
Definition _get_leading_team (analysis : dict) : result value :=
  let home_score := Py.get analysis "home_score" (VInt 0) in
  let away_score := Py.get analysis "away_score" (VInt 0) in
  home_leads <- Py.gt home_score away_score ;;
  if home_leads : bool then Ok (Py.get analysis "home_team" (VStr "Home team"))
  else
    away_leads <- Py.gt away_score home_score ;;
    if away_leads : bool
    then Ok (Py.get analysis "away_team" (VStr "Away team"))
    else Ok (Py.get analysis "home_team" (VStr "Home team")).  (* Default to home team if tied *)

(** [CommentaryGenerator._describe_momentum] *)
Definition _describe_momentum (momentum : value) : result string :=
  if negb (Py.truthy momentum) then Ok "continue to play"
  else
    items <- Py.items_method momentum ;;
    leading <- Py.max_by snd items ;;
    let leading_team := fst leading in
    momentum_value <- Py.subscript momentum leading_team ;;
    dominant <- Py.gt momentum_value (VFloat 0.8) ;;
    if dominant : bool then Ok "dominate the game"
    else
      controlling <- Py.gt momentum_value (VFloat 0.6) ;;
      if controlling : bool then Ok "maintain control" else Ok "push forward".

(** [str.format] with the entries of [context] as keyword arguments, for
    patterns whose replacement fields are plain names, as all patterns of
    the catalog are: doubled braces are literal braces, a field without a
    name or with a number refers to a positional argument, of which there is
    none.  Conversions, format specifications and attribute or index access
    inside a field are not modelled; a pattern that uses them is treated as
    malformed.  [field] is the part of the field name read so far, when
    inside braces. *)
Fixpoint format_fields (context : dict) (s : string) (field : option string)
  : result string :=
  match s with
  | EmptyString =>
      match field with
      | None => Ok EmptyString
      | Some _ => Err ValueError
      end
  | String a r =>
      match field with
      | None =>
          if Ascii.eqb a "{" then
            match r with
            | String "{" r' =>
                out <- format_fields context r' None ;; Ok (String "{" out)
            | _ => format_fields context r (Some EmptyString)
            end
          else if Ascii.eqb a "}" then
            match r with
            | String "}" r' =>
                out <- format_fields context r' None ;; Ok (String "}" out)
            | _ => Err ValueError
            end
          else out <- format_fields context r None ;; Ok (String a out)
      | Some name =>
          if Ascii.eqb a "}" then
            v <- (if Str.all_digits name then Err IndexError
                  else Py.item context name) ;;
            out <- format_fields context r None ;;
            Ok (py_str v ++ out)
          else if Str.contains (String a EmptyString) "{!:.[" then
            Err ValueError
          else format_fields context r (Some (name ++ String a EmptyString))
      end
  end.

(** [CommentaryGenerator._fill_template] *)
Definition _fill_template (template : CommentaryTemplate) (analysis : dict)
  : result string :=
  let momentum := Py.get analysis "momentum" (VDict []) in
  let performance := Py.get analysis "performance_metrics" (VDict []) in
  let situation := Py.get analysis "game_situation" (VDict []) in
  team <- _get_leading_team analysis ;;
  action <- _get_team_action analysis ;;
  momentum_description <- _describe_momentum momentum ;;
  intensity <- _get_intensity_descriptor performance ;;
  key_stat <- _get_key_statistic performance ;;
  stat_type <- _get_stat_type performance ;;
  analysed <- _analyze_statistic performance ;;
  let context :=
    [("team", team);
     ("action", action);
     ("momentum_description", VStr momentum_description);
     ("intensity", intensity);
     ("key_stat", key_stat);
     ("stat_type", stat_type);
     ("analysis", analysed)] in
  format_fields context (pattern template) None.

(** [self.last_used_patterns.append(p)] *)
Definition remember (p : string) (self : CommentaryGenerator)
  : CommentaryGenerator :=
  {| templates := templates self;
     last_used_patterns := last_used_patterns self ++ [p];
     max_pattern_memory := max_pattern_memory self |}.

(** [if len(self.last_used_patterns) > self.max_pattern_memory:
       self.last_used_patterns.pop(0)] *)
Definition forget_oldest (self : CommentaryGenerator) : CommentaryGenerator :=
  if (max_pattern_memory self <? List.length (last_used_patterns self))%nat
  then {| templates := templates self;
          last_used_patterns := tl (last_used_patterns self);
          max_pattern_memory := max_pattern_memory self |}
  else self.

(** [CommentaryGenerator.generate_commentary] *)
Definition generate_commentary (analysis : dict) (wanted : string)
  (max_length : Z) (uniform : nat -> Q) : method CommentaryGenerator string :=
  m_try
    (relevant_templates <~
       m_read (fun self => _filter_templates self analysis wanted) ;;
     match _select_template relevant_templates uniform with
     | None => m_ret (_generate_fallback_commentary analysis)
     | Some selected_template =>
         commentary <~
           m_read (fun _ => _fill_template selected_template analysis) ;;
         (* Update pattern memory *)
         _ <~ m_write (remember (pattern selected_template)) ;;
         _ <~ m_write forget_oldest ;;
         m_ret (Str.slice_to commentary max_length)
     end)
    (fun _ => m_ret (_generate_fallback_commentary analysis)).

(** *** [validate_game_data] *)

Inductive pytype : Type := Tstr | Tint | Tfloat.

(** [isinstance(v, ty)]; a [bool] is an [int]. *)
Definition isinstance1 (v : value) (ty : pytype) : bool :=
  match ty, v with
  | Tstr, VStr _ => true
  | Tint, VInt _ => true
  | Tint, VBool _ => true
  | Tfloat, VFloat _ => true
  | _, _ => false
  end.

(** [isinstance(v, tys)] for a tuple of types. *)
Definition isinstance (v : value) (tys : list pytype) : bool :=
  existsb (isinstance1 v) tys.

Definition required_fields : list (string * list pytype) :=
  [ ("game_id", [Tstr]);
    ("timestamp", [Tstr]);
    ("home_team", [Tstr]);
    ("away_team", [Tstr]);
    ("home_score", [Tint; Tfloat]);
    ("away_score", [Tint; Tfloat]);
    ("period", [Tint; Tstr]);
    ("game_time", [Tstr]) ].

Definition class_repr (name : string) : string := "<class '" ++ name ++ "'>".

Definition pytype_repr (ty : pytype) : string :=
  class_repr (match ty with Tstr => "str" | Tint => "int" | Tfloat => "float" end).

(** The printed form of the second argument of [isinstance]. *)
Definition expected_repr (tys : list pytype) : string :=
  match tys with
  | [ty] => pytype_repr ty
  | _ => "(" ++ String.concat ", " (map pytype_repr tys) ++ ")"
  end.

(** The printed form of [type(v)]. *)
Definition type_repr (v : value) : string :=
  class_repr
    (match v with
     | VNone => "NoneType"
     | VBool _ => "bool"
     | VInt _ => "int"
     | VFloat _ => "float"
     | VStr _ => "str"
     | VList _ => "list"
     | VDict _ => "dict"
     | VMoment _ _ _ _ _ _ _ => "src.commentary.analyzer.GameMoment"
     end).

(** The loop over [required_fields.items()]. *)
Fixpoint check_fields (data : dict) (fields : list (string * list pytype))
  : result unit :=
  match fields with
  | [] => Ok tt
  | (field, expected_type) :: rest =>
      match Py.lookup field data with
      | None => Err (ValidationError ("Missing required field: " ++ field))
      | Some v =>
          if isinstance v expected_type then check_fields data rest
          else Err (ValidationError
                      ("Invalid type for " ++ field ++ ": expected " ++
                       expected_repr expected_type ++ ", got " ++ type_repr v))
      end
  end.

(** [minutes, seconds = game_time.split(':')] *)
Definition unpack2 (parts : list string) : result (string * string) :=
  match parts with
  | [minutes; seconds] => Ok (minutes, seconds)
  | _ => Err ValueError
  end.

Definition require (holds : bool) (msg : string) : result unit :=
  if holds then Ok tt else Err (ValidationError msg).

(** Validate timestamp format *)
Definition check_timestamp (data : dict) : result unit :=
  ts <- Py.item data "timestamp" ;;
  match ts with
  | VStr s =>
      require (strptime_accepts s)
              "Invalid timestamp format. Expected: YYYY-MM-DD HH:MM:SS"
  | _ => Err TypeError
  end.

(** Validate score values *)
Definition check_scores (data : dict) : result unit :=
  home_score <- Py.item data "home_score" ;;
  home_negative <- Py.lt home_score (VInt 0) ;;
  negative <- (if home_negative : bool then Ok true
               else away_score <- Py.item data "away_score" ;;
                    Py.lt away_score (VInt 0)) ;;
  require (negb negative) "Scores cannot be negative".

(** Validate game time format (MM:SS) *)
Definition check_game_time (data : dict) : result unit :=
  game_time <- Py.item data "game_time" ;;
  has_colon <- Py.contains ":" game_time ;;
  _ <- require has_colon "Invalid game time format. Expected: MM:SS" ;;
  parts <- Py.split_method game_time ":" ;;
  ms <- unpack2 parts ;;
  let minutes := fst ms in
  let seconds := snd ms in
  _ <- require (Str.isdigit minutes && Str.isdigit seconds)
               "Game time must contain valid numbers" ;;
  s <- Str.to_int seconds ;;
  require (negb (60 <=? s)) "Seconds must be less than 60".

(** [validate_game_data]; the handler of its [try] logs the
    [ValidationError] and raises it again. *)
Definition validate_game_data (data : dict) : result bool :=
  _ <- check_fields data required_fields ;;
  _ <- check_timestamp data ;;
  _ <- check_scores data ;;
  _ <- check_game_time data ;;
  Ok true.

(** [data[k] = v] *)
Fixpoint set_item (k : string) (v : value) (data : dict) : dict :=
  match data with
  | [] => [(k, v)]
  | (k', v') :: rest =>
      if String.eqb k k' then (k, v) :: rest
      else (k', v') :: set_item k v rest
  end.

(** *** [validate_config] *)

Fixpoint all_space (s : string) : bool :=
  match s with
  | EmptyString => true
  | String a r => Str.is_space a && all_space r
  end.

(** [s.isspace()]: at least one character, and all of them whitespace. *)
Definition isspace (s : string) : bool :=
  match s with
  | EmptyString => false
  | _ => all_space s
  end.

(** [_is_valid_api_key] *)
Definition _is_valid_api_key (key : value) : bool :=
  match key with
  | VStr s => (32 <=? String.length s)%nat && negb (isspace s)
  | _ => false
  end.

Definition valid_regions : list string :=
  ["eastus"; "eastus2"; "westus"; "westus2"; "northeurope";
   "westeurope"; "southeastasia"; "eastasia"].

(** [_is_valid_azure_region] *)
Definition _is_valid_azure_region (region : value) : result bool :=
  lowered <- Py.lower_method region ;;
  Ok (Py.str_in lowered valid_regions).

Definition required_settings : list (string * list pytype) :=
  [ ("GROQ_API_KEY", [Tstr]);
    ("AZURE_SPEECH_KEY", [Tstr]);
    ("AZURE_SPEECH_REGION", [Tstr]);
    ("GAME_STATS_API_KEY", [Tstr]) ].

(** The loop over [required_settings.items()]. *)
Fixpoint check_settings (config : dict) (settings : list (string * list pytype))
  : result unit :=
  match settings with
  | [] => Ok tt
  | (setting, expected_type) :: rest =>
      match Py.lookup setting config with
      | None => Err (ValidationError ("Missing required setting: " ++ setting))
      | Some v =>
          if negb (isinstance v expected_type) then
            Err (ValidationError
                   ("Invalid type for " ++ setting ++ ": expected " ++
                    expected_repr expected_type ++ ", got " ++ type_repr v))
          else if negb (Py.truthy v) then
            Err (ValidationError
                   ("Empty value for required setting: " ++ setting))
          else check_settings config rest
      end
  end.

(** Validate API keys format *)
Fixpoint check_api_keys (config : dict) (keys : list string) : result unit :=
  match keys with
  | [] => Ok tt
  | key :: rest =>
      v <- Py.item config key ;;
      _ <- require (_is_valid_api_key v) ("Invalid format for " ++ key) ;;
      check_api_keys config rest
  end.

(** [validate_config]; the handler of its [try] logs the [ValidationError]
    and raises it again. *)
Definition validate_config (config : dict) : result bool :=
  _ <- check_settings config required_settings ;;
  _ <- check_api_keys config
         ["GROQ_API_KEY"; "AZURE_SPEECH_KEY"; "GAME_STATS_API_KEY"] ;;
  (* Validate Azure region *)
  region <- Py.item config "AZURE_SPEECH_REGION" ;;
  valid <- _is_valid_azure_region region ;;
  _ <- require valid "Invalid Azure region format" ;;
  Ok true.

(** *** [GroqClient] *)

(** [GroqClient.__init__] *)
Definition GroqClient_init (key : string) : GroqClient :=
  {| api_key := key;
     base_url := "https://api.groq.com/v1";
     headers := [ ("Authorization", VStr ("Bearer " ++ key));
                  ("Content-Type", VStr "application/json") ] |}.

Definition newline : string := String (ascii_of_nat 10) EmptyString.

(** [v[:3]].  A dictionary refuses the slice with [TypeError] up to
    Python 3.11. *)
Definition first_three (v : value) : result value :=
  match v with
  | VList l => Ok (VList (firstn 3 l))
  | VStr s => Ok (VStr (Str.slice_to s 3))
  | _ => Err TypeError
  end.

(** [v[0]]; a decoded JSON object has string keys only. *)
Definition first_item (v : value) : result value :=
  match v with
  | VList (x :: _) => Ok x
  | VList [] => Err IndexError
  | VStr (String c _) => Ok (VStr (String c EmptyString))
  | VStr EmptyString => Err IndexError
  | VDict _ => Err (KeyError "0")
  | _ => Err TypeError
  end.

(** The values of [play["description"] for play in plays], in order. *)
Fixpoint descriptions (plays : list value) : result (list value) :=
  match plays with
  | [] => Ok []
  | play :: rest =>
      d <- Py.subscript play "description" ;;
      ds <- descriptions rest ;;
      Ok (d :: ds)
  end.

(** The items of a sequence handed to [str.join], which must be strings. *)
Fixpoint join_items (items : list value) : result (list string) :=
  match items with
  | [] => Ok []
  | VStr s :: rest => ss <- join_items rest ;; Ok (s :: ss)
  | _ :: _ => Err TypeError
  end.

(** [sep.join(items)], the items having been produced already. *)
Definition join (sep : string) (items : list value) : result string :=
  ss <- join_items items ;; Ok (String.concat sep ss).

Definition style_instructions : dict :=
  [ ("excited",
     VStr "Provide energetic and enthusiastic commentary about this moment");
    ("neutral",
     VStr "Provide balanced and objective commentary about the current situation");
    ("analytical",
     VStr "Analyze the strategic implications of the current game situation") ].

(** [GroqClient._create_commentary_prompt] *)
Definition _create_commentary_prompt (game_stats : dict) (style : string)
  : result string :=
  (* Format game stats into a natural language prompt *)
  game_time <- Py.item game_stats "game_time" ;;
  home_team <- Py.item game_stats "home_team" ;;
  home_score <- Py.item game_stats "home_score" ;;
  away_team <- Py.item game_stats "away_team" ;;
  away_score <- Py.item game_stats "away_score" ;;
  let game_situation :=
    "Game situation: " ++ py_str game_time ++ " remaining, " ++
    "Score: " ++ py_str home_team ++ " " ++ py_str home_score ++ " - " ++
    py_str away_team ++ " " ++ py_str away_score in
  shown <- first_three (Py.get game_stats "recent_plays" (VList [])) ;;
  plays <- Py.iter shown ;;
  items <- descriptions plays ;;
  joined <- join " " items ;;
  let recent_plays := "Recent plays: " ++ joined in
  instruction <- Py.item style_instructions style ;;
  Ok (game_situation ++ newline ++ recent_plays ++ newline ++ newline ++
      py_str instruction).

(** The [json] argument of the request. *)
Definition payload (prompt : string) (max_tokens : Z) : dict :=
  [ ("model", VStr "mixtral-8x7b-32768");
    ("messages",
     VList
       [ VDict [ ("role", VStr "system");
                 ("content",
                  VStr "You are an experienced sports commentator known for engaging and accurate commentary.") ];
         VDict [ ("role", VStr "user"); ("content", VStr prompt) ] ]);
    ("max_tokens", VInt max_tokens);
    ("temperature", VFloat 0.7) ].

(** [GroqClient.generate_commentary] *)
Definition GroqClient_generate_commentary (self : GroqClient)
  (game_stats : dict) (style : string) (max_tokens : Z) : result value :=
  let endpoint := base_url self ++ "/chat/completions" in
  (* Create a prompt based on game statistics and desired style *)
  prompt <- _create_commentary_prompt game_stats style ;;
  match
    (body <- session_post endpoint (headers self) (payload prompt max_tokens) ;;
     choices <- Py.subscript body "choices" ;;
     choice <- first_item choices ;;
     message <- Py.subscript choice "message" ;;
     Py.subscript message "content")
  with
  | Ok content => Ok content
  | Err _ => Ok VNone
  end.

(** *** Vocabulary of the statements *)

(** An analyzer whose threshold and weight table are the ones [__init__]
    sets; no method assigns them afterwards. *)
Definition configured (self : GameAnalyzer) : Prop :=
  momentum_threshold self = momentum_threshold GameAnalyzer_init /\
  significant_events self = significant_events GameAnalyzer_init.

(** The base weight of an event type, as the specification tabulates it. *)
Definition base_weight (ty : string) : Q :=
  if String.eqb ty "score_change" then 0.8
  else if String.eqb ty "possession_change" then 0.4
  else if String.eqb ty "timeout" then 0.5
  else if String.eqb ty "injury" then 0.7
  else if String.eqb ty "penalty" then 0.6
  else 0.3.

(** The time-urgency multiplier of the specification. *)
Definition time_urgency (seconds_remaining : Q) : Q :=
  1 + Py.fmin 1.0 (1.5 - seconds_remaining / 3600).



(** [raises self stats e]: one of the four computations of
    [analyze_game_state], the earlier ones having returned, raises [e]. *)
Inductive raises (self : GameAnalyzer) (stats : dict) (e : exn) : Prop :=
| raises_in_key_moments :
    _identify_key_moments self stats = Err e ->
    raises self stats e
| raises_in_momentum (km : list GameMoment) :
    _identify_key_moments self stats = Ok km ->
    _calculate_momentum self stats = Err e ->
    raises self stats e
| raises_in_performance (km : list GameMoment) (mo : dict) :
    _identify_key_moments self stats = Ok km ->
    _calculate_momentum self stats = Ok mo ->
    _analyze_performance stats = Err e ->
    raises self stats e
| raises_in_situation (km : list GameMoment) (mo pm : dict) :
    _identify_key_moments self stats = Ok km ->
    _calculate_momentum self stats = Ok mo ->
    _analyze_performance stats = Ok pm ->
    _assess_game_situation stats = Err e ->
    raises self stats e.

(** The template a call of [generate_commentary] renders and the text it
    renders it to; [None] when the call falls back. *)
Definition rendering (self : CommentaryGenerator) (analysis : dict)
  (wanted : string) (uniform : nat -> Q) : option (CommentaryTemplate * string) :=
  match _filter_templates self analysis wanted with
  | Ok relevant_templates =>
      match _select_template relevant_templates uniform with
      | Some selected_template =>
          match _fill_template selected_template analysis with
          | Ok commentary => Some (selected_template, commentary)
          | Err _ => None
          end
      | None => None
      end
  | Err _ => None
  end.

(** *** Sample inputs *)

Definition base_snapshot : dict :=
  [("game_id", VStr "game-1");
   ("timestamp", VStr "2024-01-01 20:00:00");
   ("home_team", VStr "Lions");
   ("away_team", VStr "Bears");
   ("home_score", VInt 21);
   ("away_score", VInt 14);
   ("period", VInt 4);
   ("game_time", VStr "05:00")].

(** An analyzer that has already analysed [previous]. *)
Definition analyzer_after (previous : dict) : GameAnalyzer :=
  {| previous_stats := Some previous;
     momentum_threshold := momentum_threshold GameAnalyzer_init;
     significant_events := significant_events GameAnalyzer_init |}.

Definition home_scoring_play : value := VDict [("team", VStr "Lions")].

(** A snapshot that lists six scoring plays of the home team. *)
Definition six_home_scores : dict :=
  (base_snapshot ++ [("recent_scores", VList (repeat home_scoring_play 6))])%list.

(** A snapshot that records zero attempts and zero successes of the home team. *)
Definition zero_attempts : dict :=
  (base_snapshot ++ [("home_attempts", VInt 0); ("home_successes", VInt 0)])%list.

(** An event two and a half hours and more from the end. *)
Definition early_score_event : value :=
  VDict [("type", VStr "score_change");
         ("timestamp", VStr "2024-01-01 10:00:00");
         ("description", VStr "Touchdown");
         ("teams", VList [VStr "Lions"]);
         ("time_remaining", VInt 36000)].

(** A change of possession fifty minutes from the end. *)
Definition possession_event : value :=
  VDict [("type", VStr "Possession_Change"); ("time_remaining", VInt 3000)].

Definition scores_21_14 : dict :=
  [("home_score", VInt 21);
   ("away_score", VInt 14);
   ("home_team", VStr "Lions");
   ("away_team", VStr "Bears")].

(** The arguments of one call of [generate_commentary], with the values that
    [random.uniform] returns during the call. *)
Record call : Type := mkCall {
  call_analysis : dict;
  call_style : string;
  call_max_length : Z;
  call_uniform : nat -> Q
}.

Definition generate (c : call) : method CommentaryGenerator string :=
  generate_commentary (call_analysis c) (call_style c) (call_max_length c)
                      (call_uniform c).

Definition rendering_of (self : CommentaryGenerator) (c : call)
  : option (CommentaryTemplate * string) :=
  rendering self (call_analysis c) (call_style c) (call_uniform c).

(** The generator after a sequence of calls, first call first. *)
Fixpoint after_calls (calls : list call) (self : CommentaryGenerator)
  : CommentaryGenerator :=
  match calls with
  | [] => self
  | c :: rest => after_calls rest (snd (generate c self))
  end.

(** [p] is in the history [h] with at most [n] entries after it. *)
Definition recent (n : nat) (p : string) (h : list string) : Prop :=
  exists older newer, h = (older ++ p :: newer)%list /\ (List.length newer <= n)%nat.

(** The pattern memory holds no more than it is configured to. *)
Definition bounded (self : CommentaryGenerator) : Prop :=
  (List.length (last_used_patterns self) <= max_pattern_memory self)%nat.

(** A missing method as the source has it: looking it up on the instance
    raises [AttributeError]. *)
Definition undefined_method {A : Type} (_ : A) : result value :=
  Err AttributeError.

(** A stand-in for a missing method, returning a fixed phrase. *)
Definition phrase (s : string) {A : Type} (_ : A) : result value :=
  Ok (VStr s).

Definition sample_criticality (time_remaining : Z) (score_difference : value)
  : result value :=
  Ok (VFloat 0.5).

Definition sample_strptime (s : string) : bool :=
  String.eqb s "2024-01-01 20:00:00".

Definition sample_float_of_string (s : string) : result Q :=
  Err ValueError.

Definition sample_repr (v : value) : string := "...".



(** The analysis of [base_snapshot] when the missing methods return
    [0.5], ["late"] and ["one-score game"]. *)
Definition base_snapshot_analysis : dict :=
  [("key_moments", VList []);
   ("momentum", VDict [("home", VFloat 0.5); ("away", VFloat 0.5)]);
   ("performance_metrics",
    VDict [("home", VDict [("efficiency", VFloat 0); ("pressure", VFloat 0);
                           ("defense", VFloat 0)]);
           ("away", VDict [("efficiency", VFloat 0); ("pressure", VFloat 0);
                           ("defense", VFloat 0)])]);
   ("game_situation",
    VDict [("criticality", VFloat 0.5); ("phase", VStr "late");
           ("context", VStr "one-score game")])].

(** The first template of the catalog. *)
Definition neutral_template : CommentaryTemplate :=
  {| pattern := "{team} {action} as they {momentum_description}";
     conditions := [("momentum", 0.7%Q)];
     style := "neutral";
     priority := 1 |}.

(** An analysis in which the home team has the momentum. *)
Definition home_in_control : dict :=
  [("momentum", VDict [("home", VFloat 0.9); ("away", VFloat 0.1)]);
   ("home_score", VInt 21);
   ("away_score", VInt 14);
   ("home_team", VStr "Lions");
   ("away_team", VStr "Bears")].

Definition neutral_call : call :=
  {| call_analysis := home_in_control;
     call_style := "neutral";
     call_max_length := 150;
     call_uniform := fun _ => 1%Q |}.

(** The last of six templates of one style. *)
Definition sixth_template : CommentaryTemplate :=
  {| pattern := "{team} six"; conditions := []; style := "neutral";
     priority := 1 |}.

(** A generator whose [templates] were replaced by six templates of one
    style without conditions, enough to fill the pattern memory. *)
Definition six_template_generator : CommentaryGenerator :=
  {| templates :=
       (map (fun p => {| pattern := p; conditions := []; style := "neutral";
                         priority := 1 |})
            ["{team} one"; "{team} two"; "{team} three"; "{team} four";
             "{team} five"] ++ [sixth_template])%list;
     last_used_patterns := [];
     max_pattern_memory := 5 |}.

(** *** Vocabulary of the statements about the performance metrics *)

(** What [min(1.0, v / 100)] comes to for a counter [v] that is the number
    [c]: an [OverflowError] for an [int] whose hundredth is beyond the
    largest float, and otherwise a rating that is [c / 100] up to a counter
    of 100 and 1 from there on. *)
Definition capped_percentage (v : value) (c : Q) (r : result Q) : Prop :=
  if Py.is_int v && Py.too_large (c / 100)
  then r = Err OverflowError
  else exists p : Q,
         r = Ok p /\
         (p <= 1)%Q /\ ((0 <= c)%Q -> (0 <= p)%Q) /\
         ((c <= 100)%Q -> (p == c / 100)%Q) /\ ((100 <= c)%Q -> (p == 1)%Q).

(** *** Vocabulary of the validation statements *)

(** The message [validate_game_data] reports for a required field taken on
    its own, if the field is missing or has the wrong type. *)
Definition field_problem (data : dict) (field : string * list pytype)
  : option string :=
  match Py.lookup (fst field) data with
  | None => Some ("Missing required field: " ++ fst field)
  | Some v =>
      if isinstance v (snd field) then None
      else Some ("Invalid type for " ++ fst field ++ ": expected " ++
                 expected_repr (snd field) ++ ", got " ++ type_repr v)
  end.

(** A clock that [validate_game_data] accepts: minutes, one colon and
    seconds, where both satisfy [str.isdigit()] and [int()] reads the
    seconds as less than 60. *)
Definition valid_clock (s : string) : Prop :=
  exists minutes seconds k,
    s = minutes ++ ":" ++ seconds /\
    Str.isdigit minutes = true /\
    Str.isdigit seconds = true /\
    Str.to_int seconds = Ok k /\
    k < 60.

(** What [validate_game_data] requires of a snapshot. *)
Definition valid_snapshot (data : dict) : Prop :=
  Forall (fun field => field_problem data field = None) required_fields /\
  (exists ts, Py.lookup "timestamp" data = Some (VStr ts) /\
              strptime_accepts ts = true) /\
  (exists hv av h a,
     Py.lookup "home_score" data = Some hv /\ Py.as_num hv = Some h /\
     Py.lookup "away_score" data = Some av /\ Py.as_num av = Some a /\
     (0 <= h)%Q /\ (0 <= a)%Q) /\
  (exists s, Py.lookup "game_time" data = Some (VStr s) /\ valid_clock s).

(** *** Vocabulary of the selection statements *)

(** The weight [_select_template] gives the [i]-th candidate. *)
Definition weight_of (uniform : nat -> Q) (i : nat) (t : CommentaryTemplate) : Q :=
  (inject_Z (priority t) * uniform i)%Q.

(** [b], at index [i] of [l], is the first of the heaviest entries of [l]. *)
Definition first_heaviest {A : Type} (l : list (A * Q)) (i : nat) (b : A * Q)
  : Prop :=
  nth_error l i = Some b /\
  forall j x, nth_error l j = Some x ->
    (snd x <= snd b)%Q /\ ((j < i)%nat -> (snd x < snd b)%Q).

(** Whether [_filter_templates] keeps a template: its style is the wanted
    one, all its conditions hold, and its pattern is not remembered. *)
Definition candidate (self : CommentaryGenerator) (analysis : dict)
  (wanted : string) (t : CommentaryTemplate) : bool :=
  String.eqb (style t) wanted &&
  match all_conditions analysis (conditions t) with
  | Ok met => met
  | Err _ => false
  end &&
  negb (Py.str_in (pattern t) (last_used_patterns self)).

(** The number a value stands for, 0 for a value that is no number. *)
Definition number_of (v : value) : Q :=
  match Py.as_num v with Some q => q | None => 0 end.

(** An API key that [_is_valid_api_key] accepts: at least 32 characters, not
    all of them whitespace. *)
Definition valid_key (s : string) : Prop :=
  (32 <= String.length s)%nat /\ all_space s = false.

(** What [validate_config] requires of a configuration. *)
Definition valid_config (config : dict) : Prop :=
  exists groq azure region stats : string,
    Py.lookup "GROQ_API_KEY" config = Some (VStr groq) /\
    Py.lookup "AZURE_SPEECH_KEY" config = Some (VStr azure) /\
    Py.lookup "AZURE_SPEECH_REGION" config = Some (VStr region) /\
    Py.lookup "GAME_STATS_API_KEY" config = Some (VStr stats) /\
    valid_key groq /\ valid_key azure /\ valid_key stats /\
    In (Str.lower region) valid_regions.

(** *** Further sample inputs *)

(** A snapshot that lists two scoring plays of the home team. *)
Definition two_home_scores : dict :=
  (base_snapshot ++ [("recent_scores", VList (repeat home_scoring_play 2))])%list.

(** A snapshot with a scoring play that names no team. *)
Definition play_without_team : dict :=
  (base_snapshot ++ [("recent_scores", VList [VDict []])])%list.

(** A snapshot with the counters of the home team. *)
Definition home_counters : dict :=
  (base_snapshot ++
   [("home_attempts", VInt 3); ("home_successes", VInt 2);
    ("home_pressure", VInt 250); ("home_defense", VInt 40)])%list.

(** The superscript two, character 178. *)
Definition superscript_two : ascii := ascii_of_nat 178.

(** A snapshot whose clock has a superscript digit for minutes. *)
Definition superscript_clock : dict :=
  set_item "game_time" (VStr (String superscript_two ":05")) base_snapshot.

(** A snapshot with counters of the home team beyond the largest float. *)
Definition huge_counters : dict :=
  (base_snapshot ++
   [("home_pressure", VInt (10 ^ 400)); ("home_successes", VInt (10 ^ 400))])%list.

(** A snapshot with an [int] home score beyond the largest float and a
    [float] away score. *)
Definition huge_score : dict :=
  set_item "home_score" (VInt (10 ^ 400))
    (set_item "away_score" (VFloat 0.5) base_snapshot).

(** A configuration whose first key is 32 no-break spaces. *)
Definition blank_key_config : dict :=
  [("GROQ_API_KEY", VStr (string_of_list_ascii (repeat (ascii_of_nat 160) 32)));
   ("AZURE_SPEECH_KEY", VStr "0123456789abcdef0123456789abcdef");
   ("AZURE_SPEECH_REGION", VStr "WestEurope");
   ("GAME_STATS_API_KEY", VStr "0123456789abcdef0123456789abcdef")].

(** A snapshot whose timestamp is a number. *)
Definition numeric_timestamp : dict :=
  [("game_id", VStr "game-1"); ("timestamp", VInt 5)].

(** The penalty of [two_events]. *)
Definition penalty_event : dict :=
  [("type", VStr "penalty");
   ("timestamp", VStr "2024-01-01 19:58:00");
   ("description", VStr "Holding");
   ("teams", VList [VStr "Bears"])].

(** The second template of the catalog. *)
Definition excited_template : CommentaryTemplate :=
  {| pattern := "What a {intensity} performance by {team}! {key_stat}";
     conditions := [("performance", 0.8%Q)];
     style := "excited";
     priority := 2 |}.

(** A snapshot with four recent plays, the last of them without a
    description. *)
Definition four_plays : dict :=
  (base_snapshot ++
   [("recent_plays",
     VList [VDict [("description", VStr "Kickoff.")];
            VDict [("description", VStr "First down.")];
            VDict [("description", VStr "Touchdown!")];
            VDict []])])%list.

(** ** Facts about the built-in operations *)

Example split_clock : Str.split ":" "75:00" = ["75"; "00"].
Proof. reflexivity. Qed.

Example split_without_separator : Str.split ":" "7500" = ["7500"].
Proof. reflexivity. Qed.

Example to_int_padded : Str.to_int " +1_000 " = Ok 1000.
Proof. reflexivity. Qed.

Example to_int_doubled_underscore : Str.to_int "1__0" = Err ValueError.
Proof. reflexivity. Qed.

Example to_int_no_break_space :
  Str.to_int (String (ascii_of_nat 160) "5") = Ok 5.
Proof. reflexivity. Qed.

Example to_int_separator :
  Str.to_int (String (ascii_of_nat 28) "5") = Err ValueError.
Proof. reflexivity. Qed.

Example isdigit_superscript :
  Str.isdigit (String (ascii_of_nat 178) "") = true /\
  Str.to_int (String (ascii_of_nat 178) "") = Err ValueError.
Proof. split; reflexivity. Qed.

Example to_int_too_long :
  Str.to_int (string_of_list_ascii (repeat "1"%char 4300)) = Ok ((10 ^ 4300 - 1) / 9) /\
  Str.to_int (string_of_list_ascii (repeat "1"%char 4301)) = Err ValueError.
Proof. split; vm_compute; reflexivity. Qed.

Example isspace_no_break_space :
  Str.is_space (ascii_of_nat 160) = true /\ Str.is_space (ascii_of_nat 133) = true.
Proof. split; reflexivity. Qed.

Example truediv_overflow :
  Py.truediv (VInt (10 ^ 400)) (VInt 1) = Err OverflowError /\
  Py.truediv (VInt (10 ^ 400)) (VInt 100) = Err OverflowError /\
  Py.truediv (VInt (10 ^ 400)) (VFloat 0) = Err OverflowError /\
  Py.truediv (VInt (10 ^ 400)) (VInt 0) = Err ZeroDivisionError.
Proof. repeat split; vm_compute; reflexivity. Qed.

Example truediv_large_ints :
  Py.truediv (VInt (10 ^ 400)) (VInt (10 ^ 399)) = Ok 10%Q.
Proof. vm_compute. reflexivity. Qed.

Example sub_overflow :
  Py.sub (VInt (10 ^ 400)) (VFloat 0.5) = Err OverflowError.
Proof. vm_compute. reflexivity. Qed.

Example slice_to_negative : Str.slice_to "commentary" (-6) = "comm".
Proof. reflexivity. Qed.

Example round_tie_to_even : (Py.round 0.125 2 == 0.12)%Q.
Proof. reflexivity. Qed.

Example round_two_thirds : (Py.round (2 # 3) 3 == 0.667)%Q.
Proof. reflexivity. Qed.

Example eq_across_numbers : Py.eq (VBool true) (VFloat 1.0) = true.
Proof. reflexivity. Qed.

Example eq_dicts_any_order :
  Py.eq (VDict [("a", VInt 1); ("b", VInt 2)])
        (VDict [("b", VInt 2); ("a", VInt 1)]) = true.
Proof. reflexivity. Qed.

Example cmp_number_with_string : Py.gt (VInt 1) (VStr "0") = Err TypeError.
Proof. reflexivity. Qed.

Example max_of_nothing : Py.max_by (fun v : value => v) [] = Err ValueError.
Proof. reflexivity. Qed.

Lemma bind_ok {A B : Type} (m : result A) (k : A -> result B) (b : B) :
  bind m k = Ok b -> exists a, m = Ok a /\ k a = Ok b.
Proof.
  destruct m as [a | e]; simpl; intros H; [eauto | discriminate].
Qed.

Lemma Qltb_lt (x y : Q) : Py.Qltb x y = true <-> (x < y)%Q.
Proof.
  unfold Py.Qltb. rewrite negb_true_iff. split.
  - intros H. apply Qnot_le_lt. intros Hle.
    apply Qle_bool_iff in Hle. congruence.
  - intros H. destruct (Qle_bool y x) eqn:E; [ | reflexivity].
    apply Qle_bool_iff in E. exfalso. exact (Qlt_not_le _ _ H E).
Qed.

Lemma Qltb_ge (x y : Q) : Py.Qltb x y = false <-> (y <= x)%Q.
Proof.
  unfold Py.Qltb. rewrite negb_false_iff. apply Qle_bool_iff.
Qed.

Lemma fmin_le_l (a b : Q) : (Py.fmin a b <= a)%Q.
Proof.
  unfold Py.fmin. destruct (Py.Qltb b a) eqn:E.
  - apply Qlt_le_weak, Qltb_lt, E.
  - apply Qle_refl.
Qed.

Lemma fmin_le_r (a b : Q) : (Py.fmin a b <= b)%Q.
Proof.
  unfold Py.fmin. destruct (Py.Qltb b a) eqn:E.
  - apply Qle_refl.
  - apply Qltb_ge, E.
Qed.

Lemma fmin_glb (a b c : Q) : (c <= a)%Q -> (c <= b)%Q -> (c <= Py.fmin a b)%Q.
Proof.
  unfold Py.fmin. destruct (Py.Qltb b a); auto.
Qed.

(** ** Event importance *)

Lemma lookup_weight_init (k : string) :
  match lookup_weight k (significant_events GameAnalyzer_init) with
  | Some w => w
  | None => 0.3%Q
  end = base_weight k.
Proof.
  unfold base_weight. simpl.
  repeat match goal with
         | |- context [String.eqb k ?s] => destruct (String.eqb k s)
         end; reflexivity.
Qed.

Lemma base_weight_pos (k : string) : (0 < base_weight k)%Q.
Proof.
  unfold base_weight.
  repeat match goal with
         | |- context [String.eqb k ?s] => destruct (String.eqb k s)
         end; reflexivity.
Qed.

Lemma time_urgency_nonneg (t : Q) : (t <= 9000)%Q -> (0 <= time_urgency t)%Q.
Proof.
  intros Ht. unfold time_urgency.
  assert (H : (-1 <= Py.fmin 1.0 (1.5 - t / 3600))%Q).
  { apply fmin_glb; [discriminate | ]. unfold Qdiv.
    setoid_replace (/ 3600)%Q with (1 # 3600)%Q by reflexivity. lra. }
  lra.
Qed.

Lemma lower_method_ok (v : value) (s : string) :
  Py.lower_method v = Ok s -> exists ty, v = VStr ty /\ s = Str.lower ty.
Proof.
  destruct v; simpl; intros H; try discriminate.
  injection H as <-. eauto.
Qed.

(** C4, as amended.  For an analyzer configured by [__init__], the importance
    of an event is [min(1.0, w * u)]: [w] is the base weight of the
    lower-cased event type (unknown types weigh 0.3) and [u] is
    [1 + min(1.0, 1.5 - seconds_remaining / 3600)] when the event carries
    [time_remaining], and 1 otherwise.  It never exceeds 1; it is at least 0
    when the event carries no [time_remaining] or one of at most 9000. *)
Theorem event_importance_formula (self : GameAnalyzer) (event : value) (v : Q) :
  configured self ->
  _calculate_event_importance self event = Ok v ->
  exists ty : string,
    Py.subscript event "type" = Ok (VStr ty) /\
    (v <= 1)%Q /\
    ((Py.contains "time_remaining" event = Ok false /\
      v = Py.fmin 1.0 (base_weight (Str.lower ty)) /\
      (0 <= v)%Q)
     \/
     (exists (tr : value) (t : Q),
        Py.subscript event "time_remaining" = Ok tr /\
        py_float tr = Ok t /\
        v = Py.fmin 1.0 (base_weight (Str.lower ty) * time_urgency t) /\
        ((t <= 9000)%Q -> (0 <= v)%Q))).
Proof.
  intros [_ Hev] H. unfold _calculate_event_importance in H.
  apply bind_ok in H as (tyv & Hty & H).
  apply bind_ok in H as (key & Hkey & H).
  apply lower_method_ok in Hkey as (ty & -> & ->).
  rewrite Hev, lookup_weight_init in H.
  apply bind_ok in H as (has_time & Hhas & H).
  apply bind_ok in H as (w & Hw & H).
  injection H as <-.
  exists ty. split; [exact Hty | ].
  split; [apply Qle_trans with 1.0%Q; [apply fmin_le_l | discriminate] | ].
  destruct has_time.
  - right.
    apply bind_ok in Hw as (tr & Htr & Hw).
    apply bind_ok in Hw as (t & Ht & Hw).
    injection Hw as <-.
    exists tr, t. repeat split; auto.
    intros Hle. apply fmin_glb; [discriminate | ].
    apply Qmult_le_0_compat.
    + apply Qlt_le_weak, base_weight_pos.
    + apply time_urgency_nonneg, Hle.
  - left. injection Hw as <-. repeat split; auto.
    apply fmin_glb; [discriminate | ].
    apply Qlt_le_weak, base_weight_pos.
Qed.

(** ** Key moments *)










(** ** [analyze_game_state] *)

(** C5.  When one of the computations of [analyze_game_state] raises, the
    call raises that same exception and the analyzer, its previous snapshot
    included, is as it was before the call. *)
Theorem analyze_error_leaves_previous
  (stats : dict) (self : GameAnalyzer) (e : exn) :
  raises self stats e ->
  analyze_game_state stats self = (Err e, self).
Proof.
  unfold analyze_game_state, m_bind, m_read.
  intros [H1 | km H1 H2 | km mo H1 H2 H3 | km mo pm H1 H2 H3 H4];
    rewrite H1; try rewrite H2; try rewrite H3; try rewrite H4; reflexivity.
Qed.

Lemma analyze_error_inv (stats : dict) (self self' : GameAnalyzer) (e : exn) :
  analyze_game_state stats self = (Err e, self') ->
  self' = self /\ raises self stats e.
Proof.
  unfold analyze_game_state, m_bind, m_read, m_write, m_ret.
  destruct (_identify_key_moments self stats) as [km | e1] eqn:H1.
  2: { intros H. injection H as <- <-. split; [reflexivity | ].
       apply raises_in_key_moments, H1. }
  destruct (_calculate_momentum self stats) as [mo | e2] eqn:H2.
  2: { intros H. injection H as <- <-. split; [reflexivity | ].
       eapply raises_in_momentum; eassumption. }
  destruct (_analyze_performance stats) as [pm | e3] eqn:H3.
  2: { intros H. injection H as <- <-. split; [reflexivity | ].
       eapply raises_in_performance; eassumption. }
  destruct (_assess_game_situation stats) as [gs | e4] eqn:H4.
  2: { intros H. injection H as <- <-. split; [reflexivity | ].
       eapply raises_in_situation; eassumption. }
  discriminate.
Qed.

Lemma analyze_ok_inv (stats : dict) (self self' : GameAnalyzer) (analysis : dict) :
  analyze_game_state stats self = (Ok analysis, self') ->
  previous_stats self' = Some stats /\
  exists km mo pm gs,
    _identify_key_moments self stats = Ok km /\
    _calculate_momentum self stats = Ok mo /\
    _analyze_performance stats = Ok pm /\
    _assess_game_situation stats = Ok gs /\
    analysis = [("key_moments", VList (map moment_value km));
                ("momentum", VDict mo);
                ("performance_metrics", VDict pm);
                ("game_situation", VDict gs)].
Proof.
  unfold analyze_game_state, m_bind, m_read, m_write, m_ret.
  destruct (_identify_key_moments self stats) as [km | ]; [ | discriminate].
  destruct (_calculate_momentum self stats) as [mo | ]; [ | discriminate].
  destruct (_analyze_performance stats) as [pm | ]; [ | discriminate].
  destruct (_assess_game_situation stats) as [gs | ]; [ | discriminate].
  intros H. injection H as <- <-. split; [reflexivity | ].
  exists km, mo, pm, gs. repeat split; reflexivity.
Qed.

(** ** [generate_commentary] *)

Lemma generate_commentary_cases (analysis : dict) (wanted : string)
  (max_length : Z) (uniform : nat -> Q) (self : CommentaryGenerator) :
  generate_commentary analysis wanted max_length uniform self =
  match rendering self analysis wanted uniform with
  | Some (t, text) =>
      (Ok (Str.slice_to text max_length), forget_oldest (remember (pattern t) self))
  | None => (Ok (_generate_fallback_commentary analysis), self)
  end.
Proof.
  unfold generate_commentary, rendering, m_try, m_bind, m_read, m_write, m_ret.
  destruct (_filter_templates self analysis wanted) as [relevant | ];
    [ | reflexivity].
  destruct (_select_template relevant uniform) as [t | ]; [ | reflexivity].
  destruct (_fill_template t analysis); reflexivity.
Qed.

(** C10.  An analysis that [analyze_game_state] returns has exactly the keys
    [key_moments], [momentum], [performance_metrics] and [game_situation];
    the fallback sentence built from it, and so the text of every call of
    [generate_commentary] that falls back on it, reports the score 0-0. *)
Theorem fallback_on_analyzer_output
  (stats : dict) (self self' : GameAnalyzer) (analysis : dict) :
  analyze_game_state stats self = (Ok analysis, self') ->
  Py.keys analysis =
    ["key_moments"; "momentum"; "performance_metrics"; "game_situation"] /\
  _generate_fallback_commentary analysis =
    "The game continues with a score of 0-0." /\
  forall g wanted max_length uniform,
    rendering g analysis wanted uniform = None ->
    generate_commentary analysis wanted max_length uniform g =
    (Ok "The game continues with a score of 0-0.", g).
Proof.
  intros H. apply analyze_ok_inv in H as (_ & km & mo & pm & gs & _ & _ & _ & _ & ->).
  split; [reflexivity | ]. split; [reflexivity | ].
  intros g wanted max_length uniform Hnone.
  rewrite generate_commentary_cases, Hnone. reflexivity.
Qed.

Lemma generate_commentary_returns (analysis : dict) (wanted : string)
  (max_length : Z) (uniform : nat -> Q) (self : CommentaryGenerator) :
  exists text, fst (generate_commentary analysis wanted max_length uniform self) = Ok text.
Proof.
  rewrite generate_commentary_cases.
  destruct (rendering self analysis wanted uniform) as [[t text] | ];
    simpl; eauto.
Qed.

(** C2, at an input on which the claim fails.  With an empty analysis, style
    [neutral] and [max_length] 10 the call falls back, whatever the random
    draws, and returns the whole fallback sentence, which is 39 characters
    long; the pattern memory is untouched. *)
Theorem fallback_ignores_max_length (uniform : nat -> Q) :
  generate_commentary [] "neutral" 10 uniform CommentaryGenerator_init =
    (Ok "The game continues with a score of 0-0.", CommentaryGenerator_init) /\
  String.length (_generate_fallback_commentary []) = 39%nat.
Proof.
  split; reflexivity.
Qed.

Lemma cmp_numbers (a b : value) (x y : Q) :
  Py.as_num a = Some x -> Py.as_num b = Some y -> Py.cmp a b = Ok (x ?= y)%Q.
Proof.
  intros Ha Hb.
  destruct a; simpl in Ha; try discriminate; simpl; rewrite Hb;
    injection Ha as <-; reflexivity.
Qed.

(** C9.  When both scores are numbers, [_get_leading_team] returns the away
    team if the away score is the higher one and the home team otherwise, a
    tie included; a missing score counts as 0 and a missing name reads
    ["Home team"] or ["Away team"]. *)
Theorem leading_team_has_higher_score (analysis : dict) (h a : Q) :
  Py.as_num (Py.get analysis "home_score" (VInt 0)) = Some h ->
  Py.as_num (Py.get analysis "away_score" (VInt 0)) = Some a ->
  _get_leading_team analysis =
  Ok (if Py.Qltb h a
      then Py.get analysis "away_team" (VStr "Away team")
      else Py.get analysis "home_team" (VStr "Home team")).
Proof.
  intros Hh Ha. unfold _get_leading_team, Py.gt.
  rewrite (cmp_numbers _ _ _ _ Hh Ha), (cmp_numbers _ _ _ _ Ha Hh). simpl.
  destruct (h ?= a)%Q eqn:E.
  - apply Qeq_alt in E.
    assert (E' : (a ?= h)%Q = Eq) by (apply Qeq_alt; symmetry; exact E).
    rewrite E'. simpl.
    assert (Hge : Py.Qltb h a = false)
      by (apply Qltb_ge; rewrite E; apply Qle_refl).
    rewrite Hge. reflexivity.
  - apply Qlt_alt in E.
    assert (E' : (a ?= h)%Q = Gt) by (apply Qgt_alt; exact E).
    rewrite E'. simpl.
    assert (Hlt : Py.Qltb h a = true) by (apply Qltb_lt; exact E).
    rewrite Hlt. reflexivity.
  - apply Qgt_alt in E. simpl.
    assert (Hge : Py.Qltb h a = false)
      by (apply Qltb_ge, Qlt_le_weak; exact E).
    rewrite Hge. reflexivity.
Qed.

(** ** Momentum and efficiency at the failing inputs *)

(** C1, at an input on which the claim fails.  After a first snapshot, a
    snapshot with six scoring plays of the home team gets momentum 1.1 for
    [home] and -0.1 for [away]. *)
Theorem momentum_after_six_home_scores :
  _calculate_momentum (analyzer_after base_snapshot) six_home_scores =
  Ok [("home", VFloat 1.1); ("away", VFloat (-0.1))].
Proof.
  vm_compute. reflexivity.
Qed.

(** C6, at an input on which the claim fails.  A snapshot that records zero
    attempts and zero successes for the home team makes
    [_calculate_efficiency] raise [ZeroDivisionError]; with both counters
    absent the efficiency is 0. *)
Theorem efficiency_with_zero_attempts :
  _calculate_efficiency zero_attempts "home" = Err ZeroDivisionError /\
  _calculate_efficiency base_snapshot "home" = Ok 0%Q.
Proof.
  split; vm_compute; reflexivity.
Qed.

(** ** Validation of the game clock *)

Lemma lookup_set_item_same (k : string) (v : value) (data : dict) :
  Py.lookup k (set_item k v data) = Some v.
Proof.
  induction data as [ | [k' v'] rest IH]; simpl.
  - rewrite String.eqb_refl. reflexivity.
  - destruct (String.eqb k k') eqn:E; simpl.
    + rewrite String.eqb_refl. reflexivity.
    + rewrite E. exact IH.
Qed.

Lemma lookup_set_item_other (k k' : string) (v : value) (data : dict) :
  String.eqb k' k = false ->
  Py.lookup k' (set_item k v data) = Py.lookup k' data.
Proof.
  intros Hne. induction data as [ | [k0 v0] rest IH]; simpl.
  - rewrite Hne. reflexivity.
  - destruct (String.eqb k k0) eqn:E; simpl.
    + apply String.eqb_eq in E. subst k0. rewrite Hne. reflexivity.
    + rewrite IH. reflexivity.
Qed.

Lemma item_set_item_other (k k' : string) (v : value) (data : dict) :
  String.eqb k' k = false ->
  Py.item (set_item k v data) k' = Py.item data k'.
Proof.
  intros Hne. unfold Py.item. rewrite lookup_set_item_other by exact Hne.
  reflexivity.
Qed.

Lemma check_fields_set_item (k : string) (v : value) (data : dict)
  (fields : list (string * list pytype)) :
  (forall tys, In (k, tys) fields -> isinstance v tys = true) ->
  check_fields data fields = Ok tt ->
  check_fields (set_item k v data) fields = Ok tt.
Proof.
  induction fields as [ | [field tys] rest IH]; simpl; intros Hty H;
    [reflexivity | ].
  destruct (String.eqb field k) eqn:E.
  - apply String.eqb_eq in E. subst field.
    rewrite lookup_set_item_same, (Hty tys) by (left; reflexivity).
    destruct (Py.lookup k data) as [v0 | ]; [ | discriminate].
    destruct (isinstance v0 tys); [ | discriminate].
    apply IH; [ | exact H]. intros tys' Hin. apply Hty. right. exact Hin.
  - rewrite lookup_set_item_other by exact E.
    destruct (Py.lookup field data) as [v0 | ]; [ | discriminate].
    destruct (isinstance v0 tys); [ | discriminate].
    apply IH; [ | exact H]. intros tys' Hin. apply Hty. right. exact Hin.
Qed.

Lemma game_time_is_a_string (s : string) (tys : list pytype) :
  In ("game_time", tys) required_fields -> isinstance (VStr s) tys = true.
Proof.
  simpl. intros H.
  repeat (destruct H as [H | H]; [inversion H; subst; reflexivity || discriminate | ]).
  contradiction.
Qed.

Lemma validate_with_game_time (data : dict) (s : string) :
  validate_game_data data = Ok true ->
  validate_game_data (set_item "game_time" (VStr s) data) =
  (_ <- check_game_time [("game_time", VStr s)] ;; Ok true).
Proof.
  unfold validate_game_data. intros H.
  apply bind_ok in H as ([] & Hfields & H).
  apply bind_ok in H as ([] & Hts & H).
  apply bind_ok in H as ([] & Hscores & _).
  rewrite (check_fields_set_item _ _ _ _ (game_time_is_a_string s) Hfields).
  unfold check_timestamp, check_scores, check_game_time in *.
  rewrite !item_set_item_other by reflexivity.
  rewrite Hts, Hscores. simpl.
  unfold Py.item. rewrite lookup_set_item_same. reflexivity.
Qed.

(** C8.  In a snapshot that passes validation, setting [game_time] to
    ["75:00"] still passes and that clock parses to 4500 seconds, while
    setting it to ["10:75"] raises the validation error for seconds of 60 or
    more. *)
Theorem clock_7500_accepted_1075_rejected (data : dict) :
  validate_game_data data = Ok true ->
  validate_game_data (set_item "game_time" (VStr "75:00") data) = Ok true /\
  _parse_time_remaining (VStr "75:00") = Ok 4500 /\
  validate_game_data (set_item "game_time" (VStr "10:75") data) =
    Err (ValidationError "Seconds must be less than 60").
Proof.
  intros H. rewrite !(validate_with_game_time _ _ H).
  repeat split; reflexivity.
Qed.

(** ** The pattern memory *)

Lemma generate_step (c : call) (self : CommentaryGenerator) :
  snd (generate c self) =
  match rendering_of self c with
  | Some (t, _) => forget_oldest (remember (pattern t) self)
  | None => self
  end.
Proof.
  unfold generate, rendering_of. rewrite generate_commentary_cases.
  destruct (rendering _ _ _ _) as [[t text] | ]; reflexivity.
Qed.

Lemma forget_remember_frame (p : string) (self : CommentaryGenerator) :
  templates (forget_oldest (remember p self)) = templates self /\
  max_pattern_memory (forget_oldest (remember p self)) = max_pattern_memory self.
Proof.
  unfold forget_oldest, remember. simpl.
  destruct (_ <? _)%nat; split; reflexivity.
Qed.

Lemma forget_remember_history (p : string) (self : CommentaryGenerator) :
  last_used_patterns (forget_oldest (remember p self)) =
  if (max_pattern_memory self <? S (List.length (last_used_patterns self)))%nat
  then tl (last_used_patterns self ++ [p])
  else (last_used_patterns self ++ [p])%list.
Proof.
  unfold forget_oldest, remember. simpl.
  rewrite length_app. simpl. rewrite Nat.add_1_r.
  destruct (_ <? _)%nat; reflexivity.
Qed.

Lemma generate_frame (c : call) (self : CommentaryGenerator) :
  templates (snd (generate c self)) = templates self /\
  max_pattern_memory (snd (generate c self)) = max_pattern_memory self.
Proof.
  rewrite generate_step.
  destruct (rendering_of self c) as [[t text] | ]; [ | split; reflexivity].
  apply forget_remember_frame.
Qed.

Lemma generate_bounded (c : call) (self : CommentaryGenerator) :
  bounded self -> bounded (snd (generate c self)).
Proof.
  unfold bounded. intros H.
  destruct (generate_frame c self) as [_ Hmax]. rewrite Hmax.
  rewrite generate_step.
  destruct (rendering_of self c) as [[t text] | ]; [ | exact H].
  rewrite forget_remember_history.
  destruct (Nat.ltb_spec (max_pattern_memory self)
                         (S (List.length (last_used_patterns self)))) as [Hlt | Hge].
  - destruct (last_used_patterns self) as [ | x h]; simpl in *.
    + lia.
    + rewrite length_app. simpl. lia.
  - rewrite length_app. simpl. lia.
Qed.

Lemma after_calls_invariant (calls : list call) :
  forall self,
    bounded self ->
    bounded (after_calls calls self) /\
    templates (after_calls calls self) = templates self /\
    max_pattern_memory (after_calls calls self) = max_pattern_memory self.
Proof.
  induction calls as [ | c rest IH]; simpl; intros self H.
  - repeat split; assumption.
  - destruct (generate_frame c self) as [Ht Hm].
    destruct (IH _ (generate_bounded c self H)) as (Hb & Ht' & Hm').
    repeat split; [exact Hb | congruence | congruence].
Qed.

Lemma init_bounded : bounded CommentaryGenerator_init.
Proof.
  unfold bounded. simpl. lia.
Qed.

Lemma str_in_In (x : string) (xs : list string) :
  Py.str_in x xs = true <-> In x xs.
Proof.
  unfold Py.str_in. rewrite existsb_exists. split.
  - intros (y & Hin & Heq). apply String.eqb_eq in Heq. subst. exact Hin.
  - intros Hin. exists x. split; [exact Hin | apply String.eqb_refl].
Qed.

Lemma filter_loop_excludes_history (self : CommentaryGenerator)
  (analysis : dict) (wanted : string) (ts : list CommentaryTemplate) :
  forall relevant,
    filter_loop self analysis wanted ts = Ok relevant ->
    forall t, In t relevant ->
      In t ts /\ ~ In (pattern t) (last_used_patterns self).
Proof.
  induction ts as [ | template rest IH]; simpl; intros relevant H t Hin.
  - injection H as <-. contradiction.
  - destruct (negb (String.eqb (style template) wanted)).
    + destruct (IH _ H t Hin). split; [right | ]; assumption.
    + apply bind_ok in H as (met & _ & H).
      apply bind_ok in H as (kept & Hkept & H).
      destruct (met && negb (Py.str_in (pattern template) (last_used_patterns self)))
        eqn:E; injection H as <-.
      * destruct Hin as [<- | Hin].
        -- split; [left; reflexivity | ].
           apply andb_true_iff in E as [_ E]. apply negb_true_iff in E.
           intros Habs. apply str_in_In in Habs. congruence.
        -- destruct (IH _ Hkept t Hin). split; [right | ]; assumption.
      * destruct (IH _ Hkept t Hin). split; [right | ]; assumption.
Qed.

Lemma recent_In (n : nat) (p : string) (h : list string) : recent n p h -> In p h.
Proof.
  intros (older & newer & -> & _). apply in_or_app. right. left. reflexivity.
Qed.

Lemma recent_after_remember (p : string) (self : CommentaryGenerator) :
  (0 < max_pattern_memory self)%nat ->
  recent 0 p (last_used_patterns (forget_oldest (remember p self))).
Proof.
  intros Hpos. rewrite forget_remember_history.
  destruct (Nat.ltb_spec (max_pattern_memory self)
                         (S (List.length (last_used_patterns self)))) as [Hlt | Hge].
  - destruct (last_used_patterns self) as [ | x h]; simpl in *; [lia | ].
    exists h, []. split; [reflexivity | simpl; lia].
  - exists (last_used_patterns self), []. split; [reflexivity | simpl; lia].
Qed.

Lemma recent_step (n : nat) (p : string) (c : call) (self : CommentaryGenerator) :
  bounded self ->
  (S n < max_pattern_memory self)%nat ->
  recent n p (last_used_patterns self) ->
  recent (S n) p (last_used_patterns (snd (generate c self))).
Proof.
  intros Hb Hn (older & newer & Hh & Hlen). rewrite generate_step.
  destruct (rendering_of self c) as [[t text] | ].
  - rewrite forget_remember_history, Hh.
    assert (Happ : ((older ++ p :: newer) ++ [pattern t]
                    = older ++ p :: (newer ++ [pattern t]))%list)
      by (rewrite <- app_assoc; reflexivity).
    rewrite Happ.
    destruct (Nat.ltb_spec (max_pattern_memory self)
                           (S (List.length (older ++ p :: newer)))) as [Hlt | Hge].
    + destruct older as [ | x older']; simpl in *; [lia | ].
      exists older', (newer ++ [pattern t])%list.
      split; [reflexivity | rewrite length_app; simpl; lia].
    + exists older, (newer ++ [pattern t])%list.
      split; [reflexivity | rewrite length_app; simpl; lia].
  - exists older, newer. split; [exact Hh | lia].
Qed.

Lemma recent_after_calls (later : list call) :
  forall (n : nat) (p : string) (self : CommentaryGenerator),
    bounded self ->
    (n + List.length later < max_pattern_memory self)%nat ->
    recent n p (last_used_patterns self) ->
    recent (n + List.length later) p (last_used_patterns (after_calls later self)).
Proof.
  induction later as [ | c rest IH]; simpl; intros n p self Hb Hn Hr.
  - rewrite Nat.add_0_r. exact Hr.
  - rewrite <- Nat.add_succ_comm.
    destruct (generate_frame c self) as [_ Hm].
    apply IH.
    + apply generate_bounded, Hb.
    + rewrite Hm. lia.
    + apply recent_step; [exact Hb | lia | exact Hr].
Qed.

(** C7.  Start from any generator [g] whose pattern memory is configured
    to 5 entries and holds no more than that, whatever its templates: a
    fresh generator, or one whose memory is full.  Make any calls [before];
    let the next call [c] render template [t]; then make fewer than five
    calls [later], and consider one more call [next].  The pattern memory
    never holds more than 5 entries; the call [c] appended the pattern of
    [t], dropping the oldest entry if the memory was full; no candidate of
    [next] has the pattern of [t]; and if [next] falls back, it leaves the
    generator as it found it. *)
Theorem pattern_memory_bounded_and_excluding
  (g : CommentaryGenerator)
  (before : list call) (c : call) (later : list call) (next : call)
  (t : CommentaryTemplate) (text : string) :
  let g0 := after_calls before g in
  let g1 := snd (generate c g0) in
  let g2 := after_calls later g1 in
  bounded g ->
  max_pattern_memory g = 5%nat ->
  rendering_of g0 c = Some (t, text) ->
  (List.length later < 5)%nat ->
  (List.length (last_used_patterns g2) <= 5)%nat /\
  last_used_patterns g1 =
    ((if (List.length (last_used_patterns g0) <? 5)%nat
      then last_used_patterns g0
      else tl (last_used_patterns g0)) ++ [pattern t])%list /\
  (forall relevant,
     _filter_templates g2 (call_analysis next) (call_style next) = Ok relevant ->
     ~ In (pattern t) (map pattern relevant)) /\
  (rendering_of g2 next = None -> snd (generate next g2) = g2).
Proof.
  intros g0 g1 g2 Hbounded Hmax Hrender Hlater.
  destruct (after_calls_invariant before _ Hbounded) as (Hb0 & _ & Hm0).
  fold g0 in Hb0, Hm0. rewrite Hmax in Hm0.
  assert (Hg1 : g1 = forget_oldest (remember (pattern t) g0)).
  { unfold g1. rewrite generate_step, Hrender. reflexivity. }
  assert (Hb1 : bounded g1) by (apply generate_bounded, Hb0).
  assert (Hm1 : max_pattern_memory g1 = 5%nat).
  { unfold g1. destruct (generate_frame c g0) as [_ ->]. exact Hm0. }
  destruct (after_calls_invariant later _ Hb1) as (Hb2 & _ & Hm2).
  fold g2 in Hb2, Hm2. rewrite Hm1 in Hm2.
  split; [ | split; [ | split]].
  - unfold bounded in Hb2. rewrite Hm2 in Hb2. exact Hb2.
  - rewrite Hg1, forget_remember_history, Hm0.
    unfold bounded in Hb0. rewrite Hm0 in Hb0.
    destruct (Nat.ltb_spec 5 (S (List.length (last_used_patterns g0))));
      destruct (Nat.ltb_spec (List.length (last_used_patterns g0)) 5);
      try lia; try reflexivity.
    destruct (last_used_patterns g0); simpl in *; [lia | reflexivity].
  - intros relevant Hfilter Hin.
    apply in_map_iff in Hin as (t' & Hpat & Hin).
    destruct (filter_loop_excludes_history _ _ _ _ _ Hfilter t' Hin) as [_ Hnot].
    apply Hnot. rewrite Hpat.
    apply (recent_In (0 + List.length later)).
    apply recent_after_calls; [exact Hb1 | rewrite Hm1; lia | ].
    rewrite Hg1. apply recent_after_remember. rewrite Hm0. lia.
  - intros Hnone. rewrite generate_step, Hnone. reflexivity.
Qed.

(** ** Rounding *)

Lemma round_half_even_error (y : Q) :
  (- (1 # 2) <= inject_Z (Py.round_half_even y) - y <= 1 # 2)%Q.
Proof.
  unfold Py.round_half_even.
  pose proof (Qfloor_le y) as Hlo.
  pose proof (Qlt_floor y) as Hhi.
  rewrite inject_Z_plus in Hhi. change (inject_Z 1) with 1%Q in Hhi.
  destruct (y - inject_Z (Qfloor y) ?= 1 # 2)%Q eqn:E.
  - apply Qeq_alt in E.
    destruct (Z.even (Qfloor y));
      [ | rewrite inject_Z_plus; change (inject_Z 1) with 1%Q]; lra.
  - apply Qlt_alt in E. lra.
  - apply Qgt_alt in E. rewrite inject_Z_plus.
    change (inject_Z 1) with 1%Q. lra.
Qed.

Lemma round_half_even_nonneg (y : Q) :
  (0 <= y)%Q -> (0 <= Py.round_half_even y)%Z.
Proof.
  intros Hy. unfold Py.round_half_even.
  assert (Hf : (0 <= Qfloor y)%Z).
  { change 0%Z with (Qfloor (inject_Z 0)). apply Qfloor_resp_le. exact Hy. }
  destruct (y - inject_Z (Qfloor y) ?= 1 # 2)%Q;
    [destruct (Z.even (Qfloor y)) | | ]; lia.
Qed.

Lemma round_half_even_upper (y : Q) (z : Z) :
  (y <= inject_Z z)%Q -> (Py.round_half_even y <= z)%Z.
Proof.
  intros Hy.
  pose proof (round_half_even_error y) as [_ Herr].
  assert (H : (inject_Z (Py.round_half_even y) < inject_Z (z + 1))%Q)
    by (rewrite inject_Z_plus; change (inject_Z 1) with 1%Q; lra).
  rewrite <- Zlt_Qlt in H. lia.
Qed.

Lemma round2_value (x : Q) :
  (Py.round x 2 == inject_Z (Py.round_half_even (x * 100)) / 100)%Q.
Proof.
  unfold Py.round. rewrite Qred_correct. apply Qmake_Qdiv.
Qed.

Lemma round3_value (x : Q) :
  (Py.round x 3 == inject_Z (Py.round_half_even (x * 1000)) / 1000)%Q.
Proof.
  unfold Py.round. rewrite Qred_correct. apply Qmake_Qdiv.
Qed.

Lemma round2_error (x : Q) : (- (1 # 200) <= Py.round x 2 - x <= 1 # 200)%Q.
Proof.
  rewrite round2_value.
  pose proof (round_half_even_error (x * 100)) as H.
  unfold Qdiv. setoid_replace (/ 100)%Q with (1 # 100)%Q by reflexivity. lra.
Qed.

Lemma round3_error (x : Q) : (- (1 # 2000) <= Py.round x 3 - x <= 1 # 2000)%Q.
Proof.
  rewrite round3_value.
  pose proof (round_half_even_error (x * 1000)) as H.
  unfold Qdiv. setoid_replace (/ 1000)%Q with (1 # 1000)%Q by reflexivity. lra.
Qed.

Lemma round2_unit_interval (x : Q) :
  (0 <= x <= 1)%Q -> (0 <= Py.round x 2 <= 1)%Q.
Proof.
  intros [Hlo Hhi]. rewrite round2_value.
  assert (H0 : (0 <= Py.round_half_even (x * 100))%Z)
    by (apply round_half_even_nonneg; lra).
  assert (H1 : (Py.round_half_even (x * 100) <= 100)%Z)
    by (apply round_half_even_upper; change (inject_Z 100) with 100%Q; lra).
  rewrite Zle_Qle in H0, H1. change (inject_Z 0) with 0%Q in H0.
  change (inject_Z 100) with 100%Q in H1.
  unfold Qdiv. setoid_replace (/ 100)%Q with (1 # 100)%Q by reflexivity. lra.
Qed.

(** ** Momentum *)

Lemma bind_err {A B : Type} (m : result A) (k : A -> result B) (e : exn) :
  bind m k = Err e -> m = Err e \/ exists a, m = Ok a /\ k a = Err e.
Proof.
  destruct m as [a | e']; simpl; intros H.
  - right. eauto.
  - left. injection H as ->. reflexivity.
Qed.

Lemma scoring_trend_sum (stats : dict) (scores : list value) :
  forall m m',
    scoring_trend stats scores m = Ok m' ->
    (fst m' + snd m' == fst m + snd m)%Q.
Proof.
  induction scores as [ | score rest IH]; simpl; intros m m' H.
  - injection H as <-. reflexivity.
  - apply bind_ok in H as (team & _ & H).
    apply bind_ok in H as (home_team & _ & H).
    rewrite (IH _ _ H). unfold bump.
    destruct (Py.eq team home_team); cbn [fst snd]; lra.
Qed.

Lemma scoring_trend_spread (stats : dict) (scores : list value) :
  forall m m',
    scoring_trend stats scores m = Ok m' ->
    (fst m - (1 # 10) * inject_Z (Z.of_nat (List.length scores)) <= fst m'
     <= fst m + (1 # 10) * inject_Z (Z.of_nat (List.length scores)))%Q.
Proof.
  induction scores as [ | score rest IH]; intros m m' H.
  - simpl in H. injection H as <-. simpl. change (inject_Z 0) with 0%Q. lra.
  - simpl in H.
    apply bind_ok in H as (team & _ & H).
    apply bind_ok in H as (home_team & _ & H).
    apply IH in H. clear IH.
    change (List.length (score :: rest)) with (S (List.length rest)).
    rewrite Nat2Z.inj_succ. unfold Z.succ. rewrite inject_Z_plus.
    change (inject_Z 1) with 1%Q.
    remember (inject_Z (Z.of_nat (List.length rest))) as n eqn:Hn. clear Hn.
    unfold bump in H. destruct (Py.eq team home_team); cbn [fst snd] in H; lra.
Qed.

Lemma possession_bonus_cases (stats : dict) (m m' : Q * Q) :
  possession_bonus stats m = Ok m' ->
  m' = m \/
  m' = (fst m + 0.05, snd m)%Q \/
  m' = (fst m, snd m + 0.05)%Q.
Proof.
  unfold possession_bonus. destruct (Py.has_key "possession" stats).
  - intros H.
    apply bind_ok in H as (possession & _ & H).
    apply bind_ok in H as (home_team & _ & H).
    destruct (Py.eq possession home_team); injection H as <-; auto.
  - intros H. injection H as <-. auto.
Qed.

Lemma fdiv_ok (x y q : Q) :
  Py.fdiv x y = Ok q -> ~ (y == 0)%Q /\ (q == x / y)%Q.
Proof.
  unfold Py.fdiv. destruct (Qeq_bool y 0) eqn:E; [discriminate | ].
  intros H. assert (Hq : q = Qred (x / y)) by congruence. subst q. split.
  - intros Hy. apply Qeq_bool_iff in Hy. congruence.
  - apply Qred_correct.
Qed.

(** The momentum pair before and after normalisation, for an analyzer that
    has a previous snapshot. *)
Lemma momentum_shape (self : GameAnalyzer) (stats : dict) (m : dict) :
  _calculate_momentum self stats = Ok m ->
  no_previous self = false ->
  exists scores raw total,
    Py.iter (Py.get stats "recent_scores" (VList [])) = Ok scores /\
    ((total == 1)%Q \/ (total == 1.05)%Q) /\
    (fst raw + snd raw == total)%Q /\
    ((1 # 2) - (1 # 10) * inject_Z (Z.of_nat (List.length scores)) <= fst raw)%Q /\
    ((1 # 2) - (1 # 10) * inject_Z (Z.of_nat (List.length scores)) <= snd raw)%Q /\
    m = [("home", VFloat (Py.round (Qred (fst raw / total)) 2));
         ("away", VFloat (Py.round (Qred (snd raw / total)) 2))].
Proof.
  unfold _calculate_momentum. intros H Hprev. rewrite Hprev in H.
  apply bind_ok in H as (scores & Hscores & H).
  apply bind_ok in H as (m1 & Htrend & H).
  apply bind_ok in H as (m2 & Hbonus & H).
  apply bind_ok in H as (home & Hhome & H).
  apply bind_ok in H as (away & Haway & H).
  injection H as <-.
  pose proof (scoring_trend_sum _ _ _ _ Htrend) as Hsum.
  pose proof (scoring_trend_spread _ _ _ _ Htrend) as Hspread.
  cbn [fst snd] in Hsum, Hspread.
  unfold Py.fdiv in Hhome, Haway.
  destruct (Qeq_bool (fst m2 + snd m2) 0); [discriminate | ].
  injection Hhome as <-. injection Haway as <-.
  exists scores, m2, (fst m2 + snd m2)%Q.
  remember (inject_Z (Z.of_nat (List.length scores))) as n eqn:Hn.
  assert (Hiter : Py.iter (Py.get stats "recent_scores" (VList [])) = Ok scores)
    by exact Hscores.
  clear Hn Hscores Htrend.
  destruct (possession_bonus_cases _ _ _ Hbonus) as [-> | [-> | ->]];
    cbn [fst snd];
    repeat split; auto; try reflexivity; try lra.
Qed.

Lemma momentum_without_previous (self : GameAnalyzer) (stats : dict) :
  no_previous self = true ->
  _calculate_momentum self stats = Ok [("home", VFloat 0.5); ("away", VFloat 0.5)].
Proof.
  unfold _calculate_momentum. intros ->. reflexivity.
Qed.

Lemma normalised_shares (x y total : Q) :
  (total == 1)%Q \/ (total == 1.05)%Q ->
  (x + y == total)%Q ->
  (Qred (x / total) + Qred (y / total) == 1)%Q /\
  ((0 <= x)%Q -> (0 <= y)%Q ->
   (0 <= Qred (x / total) <= 1)%Q /\ (0 <= Qred (y / total) <= 1)%Q).
Proof.
  intros Htotal Hsum. rewrite !Qred_correct. unfold Qdiv.
  destruct Htotal as [Ht | Ht]; rewrite Ht in *.
  - setoid_replace (/ 1)%Q with 1%Q by reflexivity.
    split; [lra | intros; split; lra].
  - setoid_replace (/ 1.05)%Q with (20 # 21)%Q by reflexivity.
    split; [lra | intros; split; lra].
Qed.

(** X1.  Whenever [_calculate_momentum] returns, it returns a dictionary
    with exactly the keys [home] and [away], in that order, whose two values
    add up to 1 within the rounding to two decimals: the sum is between 0.99
    and 1.01. *)
Theorem momentum_sums_to_one (self : GameAnalyzer) (stats : dict) (m : dict) :
  _calculate_momentum self stats = Ok m ->
  exists h a : Q,
    m = [("home", VFloat h); ("away", VFloat a)] /\
    (0.99 <= h + a <= 1.01)%Q.
Proof.
  intros H. destruct (no_previous self) eqn:Hprev.
  - rewrite momentum_without_previous in H by exact Hprev.
    injection H as <-. exists 0.5%Q, 0.5%Q. split; [reflexivity | lra].
  - apply momentum_shape in H as
        (scores & raw & total & _ & Htotal & Hsum & _ & _ & ->);
      [ | exact Hprev].
    eexists _, _. split; [reflexivity | ].
    destruct (normalised_shares _ _ _ Htotal Hsum) as [Hone _].
    pose proof (round2_error (Qred (fst raw / total))) as Hh.
    pose proof (round2_error (Qred (snd raw / total))) as Ha.
    lra.
Qed.

(** X2.  With at most five recent scoring plays, both momentum values that
    [_calculate_momentum] returns lie between 0 and 1. *)
Theorem momentum_in_unit_interval_up_to_five_plays
  (self : GameAnalyzer) (stats : dict) (scores : list value) (h a : Q) :
  Py.iter (Py.get stats "recent_scores" (VList [])) = Ok scores ->
  (List.length scores <= 5)%nat ->
  _calculate_momentum self stats = Ok [("home", VFloat h); ("away", VFloat a)] ->
  (0 <= h <= 1)%Q /\ (0 <= a <= 1)%Q.
Proof.
  intros Hscores Hlen H. destruct (no_previous self) eqn:Hprev.
  - rewrite momentum_without_previous in H by exact Hprev.
    injection H as <- <-. split; split; discriminate.
  - apply momentum_shape in H as
        (scores' & raw & total & Hscores' & Htotal & Hsum & Hfst & Hsnd & Hm);
      [ | exact Hprev].
    rewrite Hscores in Hscores'. injection Hscores' as <-.
    injection Hm as -> ->.
    assert (Hn : (inject_Z (Z.of_nat (List.length scores)) <= 5)%Q).
    { change 5%Q with (inject_Z 5). rewrite <- Zle_Qle. lia. }
    destruct (normalised_shares _ _ _ Htotal Hsum) as [_ Hunit].
    destruct Hunit as [Hh Ha]; [lra | lra | ].
    split; apply round2_unit_interval; assumption.
Qed.

Lemma subscript_error (v : value) (k : string) (e : exn) :
  Py.subscript v k = Err e -> e = TypeError \/ e = KeyError k.
Proof.
  destruct v; simpl; intros H; try (injection H as <-; auto).
  unfold Py.item in H. destruct (Py.lookup k d); [discriminate | ].
  injection H as <-. auto.
Qed.

Lemma item_error (d : dict) (k : string) (e : exn) :
  Py.item d k = Err e -> e = KeyError k /\ Py.lookup k d = None.
Proof.
  unfold Py.item. destruct (Py.lookup k d); [discriminate | ].
  intros H. injection H as <-. auto.
Qed.

Lemma iter_error (v : value) (e : exn) : Py.iter v = Err e -> e = TypeError.
Proof.
  destruct v; simpl; intros H; try discriminate; injection H as <-; reflexivity.
Qed.

Lemma scoring_trend_error (stats : dict) (scores : list value) (e : exn) :
  forall m,
    scoring_trend stats scores m = Err e ->
    e = TypeError \/ e = KeyError "team" \/ e = KeyError "home_team".
Proof.
  induction scores as [ | score rest IH]; simpl; intros m H; [discriminate | ].
  apply bind_err in H as [H | (team & _ & H)].
  - apply subscript_error in H as [-> | ->]; auto.
  - apply bind_err in H as [H | (home_team & _ & H)].
    + apply item_error in H as [-> _]. auto.
    + eapply IH, H.
Qed.

(** X3.  [_calculate_momentum] never divides by zero.  The only exceptions
    it raises are [TypeError], when [recent_scores] cannot be iterated or a
    scoring play is not a dictionary, and [KeyError] for a scoring play
    without [team] or a snapshot without [home_team]. *)
Theorem momentum_raises_only_type_and_key_errors
  (self : GameAnalyzer) (stats : dict) (e : exn) :
  _calculate_momentum self stats = Err e ->
  e = TypeError \/ e = KeyError "team" \/ e = KeyError "home_team".
Proof.
  unfold _calculate_momentum.
  destruct (no_previous self); [discriminate | ]. intros H.
  apply bind_err in H as [H | (scores & _ & H)].
  { apply iter_error in H. auto. }
  apply bind_err in H as [H | (m1 & Htrend & H)].
  { eapply scoring_trend_error, H. }
  apply bind_err in H as [H | (m2 & Hbonus & H)].
  { unfold possession_bonus, Py.has_key in H.
    destruct (Py.lookup "possession" stats) as [p | ] eqn:Hp; [ | discriminate].
    unfold Py.item at 1 in H. rewrite Hp in H. simpl in H.
    apply bind_err in H as [H | (home_team & _ & H)].
    - apply item_error in H as [-> _]. auto.
    - destruct (Py.eq p home_team); discriminate. }
  exfalso.
  pose proof (scoring_trend_sum _ _ _ _ Htrend) as Hsum. cbn [fst snd] in Hsum.
  assert (Htotal : ~ (fst m2 + snd m2 == 0)%Q).
  { destruct (possession_bonus_cases _ _ _ Hbonus) as [-> | [-> | ->]];
      cbn [fst snd]; lra. }
  unfold Py.fdiv in H.
  destruct (Qeq_bool (fst m2 + snd m2) 0) eqn:E.
  - apply Qeq_bool_iff in E. contradiction.
  - simpl in H. discriminate.
Qed.

(** ** Performance metrics *)

Lemma truediv_numbers (a b : value) (x y : Q) :
  Py.as_num a = Some x -> Py.as_num b = Some y ->
  Py.truediv a b =
    if Py.unconvertible a b then Err OverflowError
    else if Qeq_bool y 0 then Err ZeroDivisionError
    else if Py.both_int a b && Py.too_large (x / y) then Err OverflowError
    else Ok (Qred (x / y)).
Proof.
  unfold Py.truediv. intros -> ->. reflexivity.
Qed.

Lemma truediv_not_numbers (a b : value) :
  Py.as_num a = None \/ Py.as_num b = None -> Py.truediv a b = Err TypeError.
Proof.
  unfold Py.truediv. intros [-> | ->]; [reflexivity | ].
  destruct (Py.as_num a); reflexivity.
Qed.

Lemma both_int_convertible (a b : value) :
  Py.both_int a b = true -> Py.unconvertible a b = false.
Proof.
  unfold Py.both_int, Py.is_int, Py.unconvertible.
  destruct (Py.as_int a), (Py.as_int b); simpl; congruence.
Qed.

Lemma hundred_is_no_overflow (v : value) :
  Py.unconvertible v (VInt 100) = false.
Proof.
  unfold Py.unconvertible. cbn [Py.as_int].
  destruct (Py.as_int v); [reflexivity | ]. vm_compute. reflexivity.
Qed.

Lemma percent_capped (c : Q) :
  let p := Py.fmin 1.0 (Qred (c / inject_Z 100)) in
  (p <= 1)%Q /\
  ((0 <= c)%Q -> (0 <= p)%Q) /\
  ((c <= 100)%Q -> (p == c / 100)%Q) /\
  ((100 <= c)%Q -> (p == 1)%Q).
Proof.
  intros p. subst p. unfold Py.fmin.
  assert (Hq : (Qred (c / inject_Z 100) == c * (1 # 100))%Q).
  { rewrite Qred_correct. unfold Qdiv.
    setoid_replace (/ inject_Z 100)%Q with (1 # 100)%Q by reflexivity.
    reflexivity. }
  assert (Hd : (c / 100 == c * (1 # 100))%Q).
  { unfold Qdiv. setoid_replace (/ 100)%Q with (1 # 100)%Q by reflexivity.
    reflexivity. }
  destruct (Py.Qltb (Qred (c / inject_Z 100)) 1.0) eqn:E.
  - apply Qltb_lt in E. rewrite Hd, Hq in *. repeat split; intros; lra.
  - apply Qltb_ge in E. rewrite Hd. rewrite Hq in E.
    repeat split; intros; lra.
Qed.

Lemma percentage_of_counter (v : value) (c : Q) :
  Py.as_num v = Some c ->
  capped_percentage v c
    (ratio <- Py.truediv v (VInt 100) ;; Ok (Py.fmin 1.0 ratio)).
Proof.
  intros Hc. unfold capped_percentage.
  rewrite (truediv_numbers v (VInt 100) c (inject_Z 100) Hc eq_refl).
  rewrite hundred_is_no_overflow.
  change (Qeq_bool (inject_Z 100) 0) with false. cbv iota.
  unfold Py.both_int. change (Py.is_int (VInt 100)) with true.
  rewrite andb_true_r. change (inject_Z 100) with 100%Q.
  destruct (Py.is_int v && Py.too_large (c / 100)); cbn [bind].
  - reflexivity.
  - eexists. split; [reflexivity | ]. apply percent_capped.
Qed.

(** X4.  When the pressure counter of a team is a number [c] (a missing
    counter counts as 0), [_calculate_pressure] returns [min(1.0, c / 100)]:
    never more than 1, [c / 100] up to a counter of 100 and 1 from there on,
    and a non-negative rating for a non-negative counter.  The one
    exception is an [int] counter so large that its hundredth is beyond the
    largest float: the division then raises [OverflowError].
    [_calculate_defense] does the same with the defense counter. *)
Theorem pressure_and_defense_are_capped_percentages
  (stats : dict) (team : string) (c d : Q) :
  Py.as_num (Py.get stats (team ++ "_pressure") (VInt 0)) = Some c ->
  Py.as_num (Py.get stats (team ++ "_defense") (VInt 0)) = Some d ->
  capped_percentage (Py.get stats (team ++ "_pressure") (VInt 0)) c
                    (_calculate_pressure stats team) /\
  capped_percentage (Py.get stats (team ++ "_defense") (VInt 0)) d
                    (_calculate_defense stats team).
Proof.
  intros Hc Hd. unfold _calculate_pressure, _calculate_defense.
  split; apply percentage_of_counter; assumption.
Qed.

(** X5.  [_calculate_efficiency] raises [TypeError] exactly when the
    successes or the attempts of the team are not a number.  For two
    numbers it raises [OverflowError] exactly when one is an [int] beyond
    the largest float beside a [float], or both are [int]s, the attempts
    are not zero and the quotient is beyond the largest float; and it
    raises [ZeroDivisionError] exactly when the attempts are zero and no
    such conversion fails first.  It raises nothing else. *)
Theorem efficiency_errors (stats : dict) (team : string) :
  let attempts := Py.get stats (team ++ "_attempts") (VInt 1) in
  let successes := Py.get stats (team ++ "_successes") (VInt 0) in
  (_calculate_efficiency stats team = Err TypeError <->
   Py.as_num successes = None \/ Py.as_num attempts = None) /\
  (_calculate_efficiency stats team = Err ZeroDivisionError <->
   exists s a, Py.as_num successes = Some s /\ Py.as_num attempts = Some a /\
               (a == 0)%Q /\ Py.unconvertible successes attempts = false) /\
  (_calculate_efficiency stats team = Err OverflowError <->
   exists s a, Py.as_num successes = Some s /\ Py.as_num attempts = Some a /\
               (Py.unconvertible successes attempts = true \/
                (Py.both_int successes attempts = true /\ ~ (a == 0)%Q /\
                 Py.too_large (s / a) = true))) /\
  (forall e, _calculate_efficiency stats team = Err e ->
             e = TypeError \/ e = ZeroDivisionError \/ e = OverflowError).
Proof.
  intros attempts successes. unfold _calculate_efficiency.
  fold attempts. fold successes.
  destruct (Py.as_num successes) as [s | ] eqn:Hs.
  - destruct (Py.as_num attempts) as [a | ] eqn:Ha.
    + rewrite (truediv_numbers successes attempts s a Hs Ha).
      destruct (Py.unconvertible successes attempts) eqn:Hu; cbn [bind].
      * repeat split; try discriminate.
        -- intros [H | H]; discriminate.
        -- intros (s' & a' & _ & _ & _ & H). discriminate.
        -- intros _. exists s, a. auto.
        -- intros e H. injection H as <-. auto.
      * destruct (Qeq_bool a 0) eqn:E; cbn [bind].
        -- apply Qeq_bool_iff in E. repeat split; try discriminate.
           ++ intros [H | H]; discriminate.
           ++ intros _. exists s, a. auto.
           ++ intros (s' & a' & _ & Ha' & [H | (_ & H & _)]);
                [discriminate | ].
              injection Ha' as <-. contradiction.
           ++ intros e H. injection H as <-. auto.
        -- assert (Hnz : ~ (a == 0)%Q).
           { intros H. apply Qeq_bool_iff in H. congruence. }
           destruct (Py.both_int successes attempts && Py.too_large (s / a))
             eqn:Eo; cbn [bind].
           ++ apply andb_true_iff in Eo as [Eb Et].
              repeat split; try discriminate.
              ** intros [H | H]; discriminate.
              ** intros (s' & a' & _ & Ha' & Hz & _).
                 injection Ha' as <-. contradiction.
              ** intros _. exists s, a. auto 6.
              ** intros e H. injection H as <-. auto.
           ++ split; [ | split; [ | split]].
              ** split; [discriminate | intros [H | H]; discriminate].
              ** split; [discriminate | ].
                 intros (s' & a' & _ & Ha' & Hz & _).
                 injection Ha' as <-. contradiction.
              ** split; [discriminate | ].
                 intros (s' & a' & Hs' & Ha' & [H | (Hb & _ & Ht)]);
                   [discriminate | ].
                 injection Hs' as <-. injection Ha' as <-.
                 rewrite Hb, Ht in Eo. discriminate.
              ** intros e H. discriminate.
    + rewrite (truediv_not_numbers successes attempts (or_intror Ha)).
      cbn [bind]. repeat split; try discriminate; auto.
      * intros (s' & a' & _ & H & _). discriminate.
      * intros (s' & a' & _ & H & _). discriminate.
      * intros e H. injection H as <-. auto.
  - rewrite (truediv_not_numbers successes attempts (or_introl Hs)).
    cbn [bind]. repeat split; try discriminate; auto.
    + intros (s' & a' & H & _). discriminate.
    + intros (s' & a' & H & _). discriminate.
    + intros e H. injection H as <-. auto.
Qed.

Lemma quotient_within_range (s a : Z) :
  a <> 0 -> Z.abs s <= 10 ^ 9 ->
  Py.too_large (inject_Z s / inject_Z a) = false.
Proof.
  intros Ha Hs. unfold Py.too_large.
  destruct (Qle_bool (inject_Z Py.float_limit) (Qabs (inject_Z s / inject_Z a)))
    eqn:E; [ | reflexivity].
  exfalso. apply Qle_bool_iff in E.
  assert (Hq : (Qabs (inject_Z s / inject_Z a) <= inject_Z (Z.abs s))%Q).
  { unfold Qdiv. rewrite Qabs_Qmult, Qabs_Qinv.
    change (Qabs (inject_Z s)) with (inject_Z (Z.abs s)).
    change (Qabs (inject_Z a)) with (inject_Z (Z.abs a)).
    apply Qle_shift_div_r.
    - change 0%Q with (inject_Z 0). rewrite <- Zlt_Qlt. lia.
    - rewrite <- inject_Z_mult, <- Zle_Qle. nia. }
  assert (Hb : (inject_Z (Z.abs s) <= inject_Z (10 ^ 9))%Q).
  { rewrite <- Zle_Qle. exact Hs. }
  assert (Hl : (inject_Z (10 ^ 9) < inject_Z Py.float_limit)%Q).
  { rewrite <- Zlt_Qlt. vm_compute. reflexivity. }
  lra.
Qed.

(** X6.  When the successes and the attempts of a team are [int]s of
    magnitude at most [10 ** 9] and the attempts are not zero,
    [_calculate_efficiency] returns the quotient rounded to three decimals:
    a value within 0.0006 of the quotient.  The rounding itself moves the
    quotient by at most 0.0005; the rest of the bound, and the limit on the
    attempts, cover the binary representation of the quotient, on which the
    code rounds, so that at a tie of the exact quotient, as for 1 / 80,
    either neighbour is within the bound. *)
Theorem efficiency_is_rounded_quotient
  (stats : dict) (team : string) (s a : Z) :
  Py.as_int (Py.get stats (team ++ "_successes") (VInt 0)) = Some s ->
  Py.as_int (Py.get stats (team ++ "_attempts") (VInt 1)) = Some a ->
  a <> 0 -> Z.abs s <= 10 ^ 9 -> Z.abs a <= 10 ^ 9 ->
  exists e : Q,
    _calculate_efficiency stats team = Ok e /\
    (inject_Z s / inject_Z a - 0.0006 <= e <= inject_Z s / inject_Z a + 0.0006)%Q.
Proof.
  intros Hs Ha Hnz Hsb _. unfold _calculate_efficiency.
  assert (Hsn : Py.as_num (Py.get stats (team ++ "_successes") (VInt 0))
                = Some (inject_Z s)).
  { destruct (Py.get stats (team ++ "_successes") (VInt 0));
      cbn [Py.as_int] in Hs; try discriminate; injection Hs as <-; reflexivity. }
  assert (Han : Py.as_num (Py.get stats (team ++ "_attempts") (VInt 1))
                = Some (inject_Z a)).
  { destruct (Py.get stats (team ++ "_attempts") (VInt 1));
      cbn [Py.as_int] in Ha; try discriminate; injection Ha as <-; reflexivity. }
  rewrite (truediv_numbers _ _ _ _ Hsn Han).
  assert (Hb : Py.both_int (Py.get stats (team ++ "_successes") (VInt 0))
                           (Py.get stats (team ++ "_attempts") (VInt 1)) = true).
  { unfold Py.both_int, Py.is_int. rewrite Hs, Ha. reflexivity. }
  rewrite (both_int_convertible _ _ Hb), Hb.
  rewrite (quotient_within_range s a Hnz Hsb).
  destruct (Qeq_bool (inject_Z a) 0) eqn:E.
  - apply Qeq_bool_iff in E. unfold Qeq, inject_Z in E. cbn [Qnum Qden] in E.
    clear - E Hnz. lia.
  - cbn [andb bind]. eexists. split; [reflexivity | ].
    pose proof (round3_error (Qred (inject_Z s / inject_Z a))) as Herr.
    rewrite Qred_correct in Herr at 2 4.
    remember (Py.round (Qred (inject_Z s / inject_Z a)) 3) as e eqn:He.
    clear He.
    remember (inject_Z s / inject_Z a)%Q as q eqn:Hq. clear Hq. lra.
Qed.

(** ** Digit strings *)

Lemma digit_is_digit_or_superscript (a : ascii) :
  Str.is_digit a = true -> Str.is_digit_or_superscript a = true.
Proof.
  unfold Str.is_digit_or_superscript. intros ->. reflexivity.
Qed.

Lemma all_digits_or_superscripts_of_digits (s : string) :
  Str.all_digits s = true -> Str.all_digits_or_superscripts s = true.
Proof.
  induction s as [ | a r IH]; [reflexivity | ].
  cbn [Str.all_digits Str.all_digits_or_superscripts]. intros H.
  apply andb_true_iff in H as [Ha Hr].
  rewrite (digit_is_digit_or_superscript a Ha), (IH Hr). reflexivity.
Qed.

(** No character of [str.isdigit()] is whitespace, a sign, an underscore
    or a colon. *)
Lemma digit_or_superscript_is_plain (a : ascii) :
  Str.is_digit_or_superscript a = true ->
  Str.is_int_space a = false /\ a <> "-"%char /\ a <> "+"%char /\
  a <> "_"%char /\ a <> ":"%char.
Proof.
  destruct a as [[] [] [] [] [] [] [] []]; intros H;
    try discriminate H; repeat split; try reflexivity; discriminate.
Qed.

Lemma lstrip_digits (s : string) :
  Str.all_digits_or_superscripts s = true -> Str.lstrip s = s.
Proof.
  destruct s as [ | a r]; cbn [Str.all_digits_or_superscripts Str.lstrip];
    [reflexivity | ].
  intros H. apply andb_true_iff in H as [H _].
  destruct (digit_or_superscript_is_plain a H) as [-> _]. reflexivity.
Qed.

Lemma rev_onto_rev_onto (s a b : string) :
  Str.rev_onto (Str.rev_onto s a) b = Str.rev_onto a (s ++ b).
Proof.
  revert a b. induction s as [ | c r IH]; simpl; intros a b; [reflexivity | ].
  rewrite IH. reflexivity.
Qed.

Lemma append_empty_r (s : string) : s ++ "" = s.
Proof.
  induction s as [ | c r IH]; simpl; [reflexivity | rewrite IH; reflexivity].
Qed.

Lemma rev_involutive (s : string) : Str.rev (Str.rev s) = s.
Proof.
  unfold Str.rev. rewrite rev_onto_rev_onto. simpl. apply append_empty_r.
Qed.

Lemma all_digits_rev_onto (s acc : string) :
  Str.all_digits_or_superscripts (Str.rev_onto s acc) =
  Str.all_digits_or_superscripts s && Str.all_digits_or_superscripts acc.
Proof.
  revert acc. induction s as [ | c r IH]; simpl; intros acc; [reflexivity | ].
  rewrite IH. simpl. rewrite !andb_assoc. f_equal. apply andb_comm.
Qed.

Lemma strip_digits (s : string) :
  Str.all_digits_or_superscripts s = true -> Str.strip s = s.
Proof.
  intros H. unfold Str.strip. rewrite (lstrip_digits s H).
  rewrite lstrip_digits.
  - apply rev_involutive.
  - unfold Str.rev. rewrite all_digits_rev_onto, H. reflexivity.
Qed.

Lemma digit_value_nonneg (a : ascii) : 0 <= Str.digit_value a.
Proof.
  unfold Str.digit_value. lia.
Qed.

Lemma digits_value_digits (s : string) :
  forall (after_digit : bool) (acc : Z),
    Str.all_digits s = true ->
    s <> "" \/ after_digit = true ->
    0 <= acc ->
    exists n, Str.digits_value s after_digit acc = Some n /\ 0 <= n.
Proof.
  induction s as [ | a r IH]; intros after_digit acc Hall Hne Hacc;
    cbn [Str.digits_value Str.all_digits] in *.
  - destruct Hne as [Hne | ->]; [contradiction | ]. eauto.
  - apply andb_true_iff in Hall as [Ha Hr]. rewrite Ha.
    apply IH; [exact Hr | right; reflexivity | ].
    pose proof (digit_value_nonneg a). lia.
Qed.

(** Where [int()] reads a string of [str.isdigit()] characters, they are
    all decimal digits. *)
Lemma digits_value_only_digits (s : string) :
  forall (after_digit : bool) (acc n : Z),
    Str.all_digits_or_superscripts s = true ->
    Str.digits_value s after_digit acc = Some n ->
    Str.all_digits s = true.
Proof.
  induction s as [ | a r IH]; intros after_digit acc n Hall Hn;
    cbn [Str.digits_value Str.all_digits Str.all_digits_or_superscripts] in *.
  - reflexivity.
  - apply andb_true_iff in Hall as [Ha Hr].
    destruct (Str.is_digit a) eqn:Ed.
    + cbn [andb]. exact (IH _ _ _ Hr Hn).
    + destruct (digit_or_superscript_is_plain a Ha) as (_ & _ & _ & Hu & _).
      destruct (Ascii.eqb_spec a "_"%char) as [-> | _]; [contradiction | ].
      discriminate Hn.
Qed.

Lemma count_digits_all_digits (s : string) :
  Str.all_digits s = true -> Str.count_digits s = String.length s.
Proof.
  induction s as [ | a r IH]; [reflexivity | ].
  cbn [Str.all_digits Str.count_digits String.length]. intros H.
  apply andb_true_iff in H as [-> Hr]. rewrite (IH Hr). reflexivity.
Qed.

(** On a string that satisfies [str.isdigit()], [int()] reads the
    characters as they stand. *)
Lemma to_int_isdigit (s : string) :
  Str.isdigit s = true ->
  Str.to_int s =
    if (Str.max_str_digits <? Str.count_digits s)%nat then Err ValueError
    else match Str.digits_value s false 0 with
         | Some z => Ok z
         | None => Err ValueError
         end.
Proof.
  unfold Str.isdigit. destruct s as [ | a r] eqn:Hs; [discriminate | ].
  rewrite <- Hs. intros Hall.
  unfold Str.to_int. rewrite (strip_digits s Hall).
  assert (Ha : Str.is_digit_or_superscript a = true).
  { rewrite Hs in Hall. cbn [Str.all_digits_or_superscripts] in Hall.
    apply andb_true_iff in Hall. exact (proj1 Hall). }
  destruct (digit_or_superscript_is_plain a Ha) as (_ & Hminus & Hplus & _).
  assert (Hparsed :
    match s with
    | String "-" r0 => option_map Z.opp (Str.digits_value r0 false 0)
    | String "+" r0 => Str.digits_value r0 false 0
    | _ => Str.digits_value s false 0
    end = Str.digits_value s false 0).
  { rewrite Hs.
    destruct a as [[] [] [] [] [] [] [] []]; try reflexivity;
      try (exfalso; apply Hminus; reflexivity);
      try (exfalso; apply Hplus; reflexivity). }
  rewrite Hparsed. reflexivity.
Qed.

(** [int()] reads a string that satisfies [str.isdigit()] exactly when its
    characters are decimal digits, no more than 4300 of them; the result is
    not negative, and every other such string is a [ValueError]. *)
Lemma to_int_of_isdigit (s : string) :
  Str.isdigit s = true ->
  if Str.all_digits s && (String.length s <=? Str.max_str_digits)%nat
  then exists n, Str.to_int s = Ok n /\ 0 <= n
  else Str.to_int s = Err ValueError.
Proof.
  intros Hd. rewrite (to_int_isdigit s Hd).
  assert (Hne : s <> "") by (intros ->; discriminate Hd).
  assert (Hall : Str.all_digits_or_superscripts s = true).
  { destruct s; [discriminate Hd | exact Hd]. }
  destruct (Str.all_digits s) eqn:Ed; cbn [andb].
  - rewrite (count_digits_all_digits s Ed).
    destruct (Nat.leb_spec (String.length s) Str.max_str_digits) as [Hle | Hgt].
    + rewrite (proj2 (Nat.ltb_ge _ _) Hle).
      destruct (digits_value_digits s false 0 Ed (or_introl Hne) (Z.le_refl 0))
        as (n & -> & Hn).
      exists n. split; [reflexivity | exact Hn].
    + rewrite (proj2 (Nat.ltb_lt _ _) Hgt). reflexivity.
  - destruct (Str.max_str_digits <? Str.count_digits s)%nat; [reflexivity | ].
    destruct (Str.digits_value s false 0) as [n | ] eqn:En; [ | reflexivity].
    rewrite (digits_value_only_digits s false 0 n Hall En) in Ed.
    discriminate Ed.
Qed.

(** ** What [validate_game_data] accepts *)

Lemma check_fields_forall (data : dict) (fields : list (string * list pytype)) :
  check_fields data fields = Ok tt <->
  Forall (fun field => field_problem data field = None) fields.
Proof.
  induction fields as [ | [field tys] rest IH]; cbn [check_fields].
  - split; [constructor | reflexivity].
  - rewrite Forall_cons_iff. unfold field_problem at 1. cbn [fst snd].
    destruct (Py.lookup field data) as [v | ].
    + destruct (isinstance v tys).
      * rewrite IH.
        split; [intros H; split; [reflexivity | exact H] | intros [_ H]; exact H].
      * split; [discriminate | intros [H _]; discriminate].
    + split; [discriminate | intros [H _]; discriminate].
Qed.

Lemma check_fields_first_problem (data : dict)
  (before after : list (string * list pytype)) (field : string * list pytype)
  (msg : string) :
  Forall (fun f => field_problem data f = None) before ->
  field_problem data field = Some msg ->
  check_fields data (before ++ field :: after) = Err (ValidationError msg).
Proof.
  intros Hbefore Hfield.
  induction Hbefore as [ | [f tys] rest Hf _ IH]; cbn [app check_fields].
  - destruct field as [f tys]. unfold field_problem in Hfield.
    cbn [fst snd] in Hfield.
    destruct (Py.lookup f data) as [v | ].
    + destruct (isinstance v tys); [discriminate | ].
      injection Hfield as <-. reflexivity.
    + injection Hfield as <-. reflexivity.
  - unfold field_problem in Hf. cbn [fst snd] in Hf.
    destruct (Py.lookup f data) as [v | ]; [ | discriminate].
    destruct (isinstance v tys); [exact IH | discriminate].
Qed.

Lemma contains_char_cons (c a : ascii) (r : string) :
  Str.contains (String c "") (String a r) =
  Ascii.eqb a c || Str.contains (String c "") r.
Proof.
  cbn [Str.contains prefix].
  destruct (ascii_dec c a) as [-> | Hne].
  - rewrite Ascii.eqb_refl.
    replace (prefix "" r) with true by (destruct r; reflexivity). reflexivity.
  - destruct (Ascii.eqb_spec a c) as [-> | _]; [contradiction | reflexivity].
Qed.

Lemma split_not_empty (c : ascii) (s : string) : Str.split c s <> [].
Proof.
  destruct s as [ | a r]; cbn [Str.split]; [discriminate | ].
  destruct (Ascii.eqb a c); [discriminate | ].
  destruct (Str.split c r); discriminate.
Qed.

Lemma split_single (c : ascii) (s p : string) :
  Str.split c s = [p] <-> p = s /\ Str.contains (String c "") s = false.
Proof.
  revert p. induction s as [ | a r IH]; intros p.
  - cbn [Str.split]. split.
    + intros H. injection H as <-. split; reflexivity.
    + intros [-> _]. reflexivity.
  - rewrite contains_char_cons. cbn [Str.split].
    destruct (Ascii.eqb a c).
    + split.
      * intros H. injection H as _ H. exfalso. exact (split_not_empty c r H).
      * intros [_ H]. discriminate.
    + cbn [orb]. destruct (Str.split c r) as [ | h t] eqn:E.
      * exfalso. exact (split_not_empty c r E).
      * split.
        -- intros H. injection H as <- ->.
           destruct (proj1 (IH h) eq_refl) as [-> Hc]. split; [reflexivity | exact Hc].
        -- intros [-> Hc].
           pose proof (proj2 (IH r) (conj eq_refl Hc)) as H.
           injection H as -> ->. reflexivity.
Qed.

Lemma split_two (c : ascii) (s p q : string) :
  Str.split c s = [p; q] <->
  s = p ++ String c q /\
  Str.contains (String c "") p = false /\
  Str.contains (String c "") q = false.
Proof.
  revert p. induction s as [ | a r IH]; intros p.
  - cbn [Str.split]. split; [discriminate | ].
    intros [H _]. destruct p; discriminate.
  - cbn [Str.split]. destruct (Ascii.eqb_spec a c) as [-> | Hne].
    + split.
      * intros H. injection H as <- H. apply split_single in H as [-> Hc].
        repeat split; exact Hc.
      * intros (H & Hp & Hq). destruct p as [ | b p'].
        -- cbn [append] in H. injection H as ->.
           f_equal. apply split_single. split; [reflexivity | exact Hq].
        -- cbn [append] in H. injection H as <- _.
           rewrite contains_char_cons, Ascii.eqb_refl in Hp. discriminate.
    + destruct (Str.split c r) as [ | h t] eqn:E.
      * exfalso. exact (split_not_empty c r E).
      * split.
        -- intros H. injection H as <- ->.
           destruct (proj1 (IH h) eq_refl) as (-> & Hh & Hq).
           repeat split; [ | exact Hq].
           rewrite contains_char_cons, Hh.
           destruct (Ascii.eqb_spec a c); [contradiction | reflexivity].
        -- intros (H & Hp & Hq). destruct p as [ | b p'].
           ++ cbn [append] in H. injection H as -> _. contradiction.
           ++ cbn [append] in H. injection H as <- ->.
              rewrite contains_char_cons in Hp.
              apply orb_false_iff in Hp as [_ Hp'].
              pose proof (proj2 (IH p') (conj eq_refl (conj Hp' Hq))) as H'.
              injection H' as -> ->. reflexivity.
Qed.

Lemma digits_have_no_colon (s : string) :
  Str.all_digits_or_superscripts s = true -> Str.contains ":" s = false.
Proof.
  induction s as [ | a r IH]; [reflexivity | ].
  cbn [Str.all_digits_or_superscripts]. intros H.
  apply andb_true_iff in H as [Ha Hr].
  rewrite contains_char_cons, (IH Hr).
  destruct (digit_or_superscript_is_plain a Ha) as (_ & _ & _ & _ & Hc).
  destruct (Ascii.eqb_spec a ":"%char) as [-> | _]; [contradiction | reflexivity].
Qed.

Lemma isdigit_all_digits (s : string) :
  Str.isdigit s = true -> Str.all_digits_or_superscripts s = true.
Proof.
  destruct s; [discriminate | exact (fun H => H)].
Qed.

Lemma contains_separator (c : ascii) (p q : string) :
  Str.contains (String c "") (p ++ String c q) = true.
Proof.
  induction p as [ | a r IH]; cbn [append]; rewrite contains_char_cons.
  - rewrite Ascii.eqb_refl. reflexivity.
  - rewrite IH. apply orb_true_r.
Qed.

Lemma require_ok (holds : bool) (msg : string) :
  require holds msg = Ok tt <-> holds = true.
Proof.
  unfold require. destruct holds; split; congruence.
Qed.

Lemma item_ok (d : dict) (k : string) (v : value) :
  Py.item d k = Ok v <-> Py.lookup k d = Some v.
Proof.
  unfold Py.item. destruct (Py.lookup k d); split; congruence.
Qed.

Lemma check_timestamp_ok (data : dict) :
  check_timestamp data = Ok tt <->
  exists ts, Py.lookup "timestamp" data = Some (VStr ts) /\
             strptime_accepts ts = true.
Proof.
  unfold check_timestamp. split.
  - intros H. apply bind_ok in H as (v & Hv & H). apply item_ok in Hv.
    destruct v; try discriminate. apply require_ok in H. eauto.
  - intros (ts & Hts & Hacc). apply item_ok in Hts. rewrite Hts.
    cbn [bind]. apply require_ok, Hacc.
Qed.

Lemma lt_zero (v : value) (b : bool) :
  Py.lt v (VInt 0) = Ok b <->
  exists x, Py.as_num v = Some x /\ b = Py.Qltb x 0.
Proof.
  assert (Hcmp : forall x : Q,
             match (x ?= inject_Z 0)%Q with Lt => true | _ => false end
             = Py.Qltb x 0).
  { intros x. change (inject_Z 0) with 0%Q.
    destruct (x ?= 0)%Q eqn:E; symmetry.
    - apply Qltb_ge. apply Qeq_alt in E. rewrite E. apply Qle_refl.
    - apply Qltb_lt. apply Qlt_alt. exact E.
    - apply Qltb_ge. apply Qlt_le_weak. apply Qgt_alt. exact E. }
  unfold Py.lt. split.
  - intros H. apply bind_ok in H as (c & Hc & H). injection H as <-.
    destruct v; simpl in Hc; try discriminate; injection Hc as <-;
      eexists; (split; [reflexivity | first [apply Hcmp | symmetry; apply Hcmp]]).
  - intros (x & Hx & ->).
    rewrite (cmp_numbers v (VInt 0) x (inject_Z 0) Hx eq_refl).
    cbn [bind]. rewrite Hcmp. reflexivity.
Qed.

Lemma check_scores_ok (data : dict) :
  check_scores data = Ok tt <->
  exists hv av h a,
    Py.lookup "home_score" data = Some hv /\ Py.as_num hv = Some h /\
    Py.lookup "away_score" data = Some av /\ Py.as_num av = Some a /\
    (0 <= h)%Q /\ (0 <= a)%Q.
Proof.
  unfold check_scores. split.
  - intros H. apply bind_ok in H as (hv & Hhv & H). apply item_ok in Hhv.
    apply bind_ok in H as (hneg & Hh & H).
    apply lt_zero in Hh as (h & Hnum & ->).
    apply bind_ok in H as (negative & Hneg & H).
    apply require_ok in H. apply negb_true_iff in H. subst negative.
    destruct (Py.Qltb h 0) eqn:Eh; [discriminate | ].
    apply bind_ok in Hneg as (av & Hav & Ha). apply item_ok in Hav.
    apply lt_zero in Ha as (a & Hanum & Ha).
    exists hv, av, h, a. repeat split; auto.
    + apply Qltb_ge, Eh.
    + apply Qltb_ge. symmetry. exact Ha.
  - intros (hv & av & h & a & Hhv & Hh & Hav & Ha & Hh0 & Ha0).
    apply item_ok in Hhv, Hav. rewrite Hhv. cbn [bind].
    rewrite (proj2 (lt_zero hv (Py.Qltb h 0)) (ex_intro _ h (conj Hh eq_refl))).
    cbn [bind]. rewrite (proj2 (Qltb_ge h 0) Hh0). rewrite Hav. cbn [bind].
    rewrite (proj2 (lt_zero av (Py.Qltb a 0)) (ex_intro _ a (conj Ha eq_refl))).
    cbn [bind]. rewrite (proj2 (Qltb_ge a 0) Ha0). reflexivity.
Qed.

Lemma check_game_time_ok (data : dict) :
  check_game_time data = Ok tt <->
  exists s, Py.lookup "game_time" data = Some (VStr s) /\ valid_clock s.
Proof.
  unfold check_game_time, valid_clock. split.
  - intros H. apply bind_ok in H as (v & Hv & H). apply item_ok in Hv.
    apply bind_ok in H as (has_colon & _ & H).
    apply bind_ok in H as ([] & _ & H).
    apply bind_ok in H as (parts & Hparts & H).
    destruct v; try discriminate. injection Hparts as <-.
    apply bind_ok in H as ([minutes seconds] & Hms & H).
    unfold unpack2 in Hms.
    destruct (Str.split ":" s) as [ | p [ | q [ | ]]] eqn:Hsplit;
      try discriminate.
    injection Hms as <- <-. cbn [fst snd] in H.
    apply bind_ok in H as ([] & Hdigits & H). apply require_ok in Hdigits.
    apply andb_true_iff in Hdigits as [Hp Hq].
    apply bind_ok in H as (k & Hk & H). apply require_ok in H.
    apply negb_true_iff, Z.leb_gt in H.
    apply split_two in Hsplit as (-> & _ & _).
    exists (p ++ String ":" q). split; [exact Hv | ].
    exists p, q, k. repeat split; auto.
  - intros (s & Hs & minutes & seconds & k & -> & Hm & Hsec & Hk & Hlt).
    apply item_ok in Hs. rewrite Hs. cbn [bind Py.contains].
    change (minutes ++ ":" ++ seconds) with (minutes ++ String ":" seconds).
    rewrite contains_separator. cbn [bind require Py.split_method].
    rewrite (proj2 (split_two ":" _ minutes seconds)).
    + cbn [bind unpack2 fst snd]. rewrite Hm, Hsec. cbn [andb require bind].
      rewrite Hk. cbn [bind]. apply require_ok, negb_true_iff, Z.leb_gt, Hlt.
    + repeat split; apply digits_have_no_colon, isdigit_all_digits; assumption.
Qed.

Lemma validate_ok (data : dict) :
  validate_game_data data = Ok true <->
  check_fields data required_fields = Ok tt /\
  check_timestamp data = Ok tt /\
  check_scores data = Ok tt /\
  check_game_time data = Ok tt.
Proof.
  unfold validate_game_data. split.
  - intros H.
    apply bind_ok in H as ([] & H1 & H). apply bind_ok in H as ([] & H2 & H).
    apply bind_ok in H as ([] & H3 & H). apply bind_ok in H as ([] & H4 & H).
    auto.
  - intros (-> & -> & -> & ->). reflexivity.
Qed.

Lemma validate_valid_snapshot (data : dict) :
  validate_game_data data = Ok true <-> valid_snapshot data.
Proof.
  rewrite validate_ok. unfold valid_snapshot.
  rewrite check_fields_forall, check_timestamp_ok, check_scores_ok,
    check_game_time_ok. reflexivity.
Qed.


Lemma parse_valid_clock (minutes seconds : string) (k : Z) :
  Str.isdigit minutes = true -> Str.isdigit seconds = true ->
  Str.to_int seconds = Ok k ->
  _parse_time_remaining (VStr (minutes ++ ":" ++ seconds)) =
    (m <- Str.to_int minutes ;; Ok (m * 60 + k)).
Proof.
  intros Hm Hs Hk.
  unfold _parse_time_remaining. cbn [Py.split_method bind].
  change (minutes ++ ":" ++ seconds) with (minutes ++ String ":" seconds).
  rewrite (proj2 (split_two ":" _ minutes seconds)).
  - cbn [nth_error]. destruct (Str.to_int minutes) as [m | e]; cbn [bind].
    + rewrite Hk. reflexivity.
    + reflexivity.
  - repeat split; apply digits_have_no_colon, isdigit_all_digits; assumption.
Qed.

Lemma seconds_not_negative (seconds : string) (k : Z) :
  Str.isdigit seconds = true -> Str.to_int seconds = Ok k -> 0 <= k.
Proof.
  intros Hs Hk. pose proof (to_int_of_isdigit seconds Hs) as H.
  destruct (Str.all_digits seconds &&
            (String.length seconds <=? Str.max_str_digits)%nat).
  - destruct H as (n & Hn & Hpos). congruence.
  - congruence.
Qed.

(** X8.  The clock of a snapshot that [validate_game_data] accepts is
    minutes, a colon and seconds that [int()] reads as a number from 0 to
    59.  [_parse_time_remaining] parses it, to [60 * minutes + seconds] and
    so to a number that is not negative, exactly when the minutes are
    decimal digits, no more than 4300 of them; on every other accepted
    clock, one with a superscript digit or with longer minutes, it raises
    [ValueError], since the validation tests the minutes with
    [str.isdigit()] and never converts them. *)
Theorem validated_clock_parses (data : dict) :
  validate_game_data data = Ok true ->
  exists (minutes seconds : string) (k : Z),
    Py.lookup "game_time" data = Some (VStr (minutes ++ ":" ++ seconds)) /\
    Str.to_int seconds = Ok k /\ 0 <= k < 60 /\
    if Str.all_digits minutes &&
       (String.length minutes <=? Str.max_str_digits)%nat
    then exists m,
           Str.to_int minutes = Ok m /\ 0 <= m /\
           _parse_time_remaining (VStr (minutes ++ ":" ++ seconds)) =
             Ok (m * 60 + k)
    else _parse_time_remaining (VStr (minutes ++ ":" ++ seconds)) =
           Err ValueError.
Proof.
  intros H.
  apply validate_valid_snapshot in H
    as (_ & _ & _ & s & Hs & minutes & seconds & k & -> & Hm & Hsec & Hk & Hlt).
  exists minutes, seconds, k.
  pose proof (seconds_not_negative seconds k Hsec Hk) as Hk0.
  split; [exact Hs | ]. split; [exact Hk | ]. split; [clear - Hk0 Hlt; lia | ].
  rewrite (parse_valid_clock minutes seconds k Hm Hsec Hk).
  pose proof (to_int_of_isdigit minutes Hm) as Hmin.
  destruct (Str.all_digits minutes &&
            (String.length minutes <=? Str.max_str_digits)%nat).
  - destruct Hmin as (m & Hmin & Hm0). exists m. rewrite Hmin.
    split; [reflexivity | split; [exact Hm0 | reflexivity]].
  - rewrite Hmin. reflexivity.
Qed.

Lemma score_difference_value (hv av : value) (h a : Q) :
  Py.as_num hv = Some h ->
  Py.as_num av = Some a ->
  if Py.unconvertible hv av
  then Py.sub hv av = Err OverflowError
  else exists d dq,
         (difference <- Py.sub hv av ;; Py.abs difference) = Ok d /\
         Py.as_num d = Some dq /\
         (dq == Qabs (h - a))%Q.
Proof.
  intros Hh Ha.
  assert (Hint : forall x y : Z,
             (inject_Z (Z.abs (x - y)) == Qabs (inject_Z x - inject_Z y))%Q).
  { intros x y. unfold Qminus. rewrite <- inject_Z_opp, <- inject_Z_plus.
    reflexivity. }
  assert (Hfloat : forall x y : Q, (Qabs (Qred (x - y)) == Qabs (x - y))%Q).
  { intros x y. rewrite Qred_correct. reflexivity. }
  destruct hv; simpl in Hh; try discriminate; injection Hh as <-;
    destruct av; simpl in Ha; try discriminate; injection Ha as <-;
    cbn [Py.sub Py.as_int Py.as_num bind];
    match goal with
    | |- context [Py.unconvertible ?x ?y] =>
        destruct (Py.unconvertible x y) eqn:Hu; try discriminate Hu
    end;
    try reflexivity;
    cbn [bind Py.abs];
    eexists _, _; (split; [reflexivity | ]);
    (split; [reflexivity | first [apply Hint | apply Hfloat]]).
Qed.

(** X9.  On a snapshot that [validate_game_data] accepts,
    [_assess_game_situation] raises [ValueError] when [int()] does not read
    the minutes of the clock, and otherwise [OverflowError] when one score
    is an [int] beyond the largest float and the other a [float].  In
    every other case it raises nothing of its own: it calls
    [_calculate_criticality] with the parsed clock, which is not negative,
    and with the absolute difference of the two scores, then
    [_determine_game_phase] with the clock and [_generate_situation_context]
    with the snapshot, and returns their three results under the keys
    [criticality], [phase] and [context]. *)
Theorem validated_snapshot_reaches_the_assessment (data : dict) :
  validate_game_data data = Ok true ->
  exists (minutes seconds : string) (k : Z) (hv av : value) (h a : Q),
    Py.lookup "game_time" data = Some (VStr (minutes ++ ":" ++ seconds)) /\
    Str.to_int seconds = Ok k /\
    Py.lookup "home_score" data = Some hv /\ Py.as_num hv = Some h /\
    Py.lookup "away_score" data = Some av /\ Py.as_num av = Some a /\
    match Str.to_int minutes with
    | Err _ => _assess_game_situation data = Err ValueError
    | Ok m =>
        if Py.unconvertible hv av
        then _assess_game_situation data = Err OverflowError
        else exists (d : value) (dq : Q),
               0 <= m * 60 + k /\
               Py.as_num d = Some dq /\
               (dq == Qabs (h - a))%Q /\
               _assess_game_situation data =
                 (criticality <- _calculate_criticality (m * 60 + k) d ;;
                  phase <- _determine_game_phase (m * 60 + k) ;;
                  context <- _generate_situation_context data ;;
                  Ok [("criticality", criticality); ("phase", phase);
                      ("context", context)])
    end.
Proof.
  intros H.
  apply validate_valid_snapshot in H
    as (_ & _ & (hv & av & h & a & Hhv & Hh & Hav & Ha & _ & _) &
        s & Hs & minutes & seconds & k & -> & Hm & Hsec & Hk & Hlt).
  exists minutes, seconds, k, hv, av, h, a.
  repeat (split; [assumption | ]).
  pose proof (seconds_not_negative seconds k Hsec Hk) as Hk0.
  pose proof (parse_valid_clock minutes seconds k Hm Hsec Hk) as Hparse.
  pose proof (to_int_of_isdigit minutes Hm) as Hmin.
  pose proof (score_difference_value hv av h a Hh Ha) as Hdiff.
  unfold _assess_game_situation, Py.item. rewrite Hs. cbn [bind].
  rewrite Hparse.
  destruct (Str.to_int minutes) as [m | e] eqn:Em; cbn [bind].
  - assert (Hm0 : 0 <= m).
    { destruct (Str.all_digits minutes &&
                (String.length minutes <=? Str.max_str_digits)%nat).
      - destruct Hmin as (n & Hn & Hpos). congruence.
      - discriminate Hmin. }
    rewrite Hhv, Hav. cbn [bind].
    destruct (Py.unconvertible hv av).
    + rewrite Hdiff. reflexivity.
    + destruct Hdiff as (d & dq & Hd & Hdq & Heq).
      exists d, dq. split; [clear - Hm0 Hk0; lia | ].
      split; [exact Hdq | ]. split; [exact Heq | ].
      apply bind_ok in Hd as (difference & Hsub & Habs).
      rewrite Hsub. cbn [bind]. rewrite Habs. reflexivity.
  - destruct (Str.all_digits minutes &&
              (String.length minutes <=? Str.max_str_digits)%nat).
    + destruct Hmin as (n & Hn & _). discriminate Hn.
    + injection Hmin as ->. reflexivity.
Qed.

(** X10.  [validate_game_data] reports the first required field, in the
    order [game_id], [timestamp], [home_team], [away_team], [home_score],
    [away_score], [period], [game_time], that is missing or has the wrong
    type: when the fields before it are in order, the call raises the
    validation error with the message of that field, whatever the later
    fields hold. *)
Theorem first_offending_field_is_reported
  (data : dict) (before after : list (string * list pytype))
  (field : string * list pytype) (msg : string) :
  required_fields = (before ++ field :: after)%list ->
  Forall (fun f => field_problem data f = None) before ->
  field_problem data field = Some msg ->
  validate_game_data data = Err (ValidationError msg).
Proof.
  intros Hfields Hbefore Hfield. unfold validate_game_data.
  rewrite Hfields, (check_fields_first_problem _ _ _ _ _ Hbefore Hfield).
  reflexivity.
Qed.

Lemma split_after_separator (c : ascii) (p q : string) :
  (S (List.length (Str.split c q)) <= List.length (Str.split c (p ++ String c q)))%nat.
Proof.
  induction p as [ | a r IH]; cbn [append Str.split].
  - rewrite Ascii.eqb_refl. cbn [List.length]. lia.
  - destruct (Ascii.eqb a c); cbn [List.length]; [lia | ].
    destruct (Str.split c (r ++ String c q)); cbn [List.length] in *; lia.
Qed.

(** X11.  In a snapshot that validates, a clock with two colons or more
    makes [validate_game_data] raise [ValueError], from unpacking the split
    clock, and not the validation error it raises for the other malformed
    clocks. *)
Theorem clock_with_two_colons_raises_value_error (data : dict) (p q r : string) :
  validate_game_data data = Ok true ->
  validate_game_data
    (set_item "game_time" (VStr (p ++ ":" ++ q ++ ":" ++ r)) data)
  = Err ValueError.
Proof.
  intros H. rewrite (validate_with_game_time _ _ H).
  unfold check_game_time, Py.item. cbn [Py.lookup].
  change (String.eqb "game_time" "game_time") with true.
  cbn [bind Py.contains].
  change (p ++ ":" ++ q ++ ":" ++ r) with (p ++ String ":" (q ++ String ":" r)).
  rewrite contains_separator. cbn [bind require Py.split_method].
  pose proof (split_after_separator ":" p (q ++ String ":" r)) as H1.
  pose proof (split_after_separator ":" q r) as H2.
  pose proof (split_not_empty ":" r) as H3.
  destruct (Str.split ":" (p ++ String ":" (q ++ String ":" r)))
    as [ | x [ | y [ | z rest]]]; cbn [List.length] in H1.
  - lia.
  - destruct (Str.split ":" (q ++ String ":" r)); cbn [List.length] in *; lia.
  - destruct (Str.split ":" (q ++ String ":" r)) as [ | ? [ | ]];
      cbn [List.length] in *; try lia.
    destruct (Str.split ":" r); [contradiction | cbn [List.length] in *; lia].
  - reflexivity.
Qed.

(** ** Key moments of events without a clock *)

(** X12.  For an event that has a string type, a timestamp, a description
    and teams but no [time_remaining], the loop of [_identify_key_moments]
    appends a moment exactly when the lower-cased type is [score_change],
    [injury] or [penalty], with importance 0.8, 0.7 and 0.6; of these only
    [score_change] is flagged as a score change and as a momentum shift. *)
Theorem untimed_key_moments_by_type
  (self : GameAnalyzer) (event : dict) (ty : string) (ts de te : value) :
  configured self ->
  Py.lookup "type" event = Some (VStr ty) ->
  Py.lookup "time_remaining" event = None ->
  Py.lookup "timestamp" event = Some ts ->
  Py.lookup "description" event = Some de ->
  Py.lookup "teams" event = Some te ->
  exists r : option GameMoment,
    key_moment_of self (VDict event) = Ok r /\
    match r with
    | Some m =>
        timestamp m = ts /\ event_type m = VStr ty /\
        description m = de /\ teams_involved m = te /\
        ((Str.lower ty = "score_change" /\ importance m = 0.8%Q /\
          score_change m = true /\ momentum_shift m = true) \/
         (Str.lower ty = "injury" /\ importance m = 0.7%Q /\
          score_change m = false /\ momentum_shift m = false) \/
         (Str.lower ty = "penalty" /\ importance m = 0.6%Q /\
          score_change m = false /\ momentum_shift m = false))
    | None =>
        Str.lower ty <> "score_change" /\ Str.lower ty <> "injury" /\
        Str.lower ty <> "penalty"
    end.
Proof.
  intros [Hth Hev] Hty Htime Hts Hde Hte.
  unfold key_moment_of, _calculate_event_importance.
  unfold Py.subscript, Py.item, Py.contains, Py.has_key.
  rewrite Hty, Htime, Hts, Hde, Hte, Hth, Hev. cbn [bind Py.lower_method].
  rewrite lookup_weight_init. unfold base_weight.
  destruct (String.eqb_spec (Str.lower ty) "score_change") as [E1 | N1].
  { rewrite E1. eexists. split; [reflexivity | ]. cbn.
    repeat split. left. repeat split. }
  destruct (String.eqb_spec (Str.lower ty) "possession_change") as [E2 | N2].
  { eexists. split; [reflexivity | ]. cbn.
    repeat split; try assumption; rewrite E2; discriminate. }
  destruct (String.eqb_spec (Str.lower ty) "timeout") as [E3 | N3].
  { eexists. split; [reflexivity | ]. cbn.
    repeat split; try assumption; rewrite E3; discriminate. }
  destruct (String.eqb_spec (Str.lower ty) "injury") as [E4 | N4].
  { rewrite E4. eexists. split; [reflexivity | ]. cbn.
    repeat split. right. left. repeat split. }
  destruct (String.eqb_spec (Str.lower ty) "penalty") as [E5 | N5].
  { rewrite E5. eexists. split; [reflexivity | ]. cbn.
    repeat split. right. right. repeat split. }
  eexists. split; [reflexivity | ]. cbn. repeat split; assumption.
Qed.

(** ** Selection among the candidates *)

Lemma heaviest_from (A : Type) (rest : list (A * Q)) :
  forall (done : list (A * Q)) (i : nat) (best : A * Q),
    first_heaviest done i best ->
    exists i', first_heaviest (done ++ rest) i'
                 (fold_left (fun b x => if Py.Qltb (snd b) (snd x) then x else b)
                            rest best).
Proof.
  induction rest as [ | x rest IH]; intros done i best Hbest.
  - exists i. rewrite app_nil_r. exact Hbest.
  - cbn [fold_left].
    replace (done ++ x :: rest)%list with ((done ++ [x]) ++ rest)%list
      by (rewrite <- app_assoc; reflexivity).
    destruct Hbest as [Hnth Hmax].
    assert (Hi : (i < List.length done)%nat)
      by (apply nth_error_Some; congruence).
    destruct (Py.Qltb (snd best) (snd x)) eqn:E.
    + apply Qltb_lt in E. apply (IH _ (List.length done)). split.
      * rewrite nth_error_app2 by lia. rewrite Nat.sub_diag. reflexivity.
      * intros j y Hy.
        destruct (Nat.lt_ge_cases j (List.length done)) as [Hj | Hj].
        -- rewrite nth_error_app1 in Hy by exact Hj.
           destruct (Hmax j y Hy) as [Hle _]. split; [ | intros _]; lra.
        -- rewrite nth_error_app2 in Hy by exact Hj.
           destruct (j - List.length done)%nat as [ | n] eqn:Ej;
             [ | destruct n; discriminate].
           injection Hy as <-. split; [apply Qle_refl | lia].
    + apply Qltb_ge in E. apply (IH _ i). split.
      * rewrite nth_error_app1 by exact Hi. exact Hnth.
      * intros j y Hy.
        destruct (Nat.lt_ge_cases j (List.length done)) as [Hj | Hj].
        -- rewrite nth_error_app1 in Hy by exact Hj. exact (Hmax j y Hy).
        -- rewrite nth_error_app2 in Hy by exact Hj.
           destruct (j - List.length done)%nat as [ | n] eqn:Ej;
             [ | destruct n; discriminate].
           injection Hy as <-. split; [exact E | lia].
Qed.

Lemma heaviest_first_heaviest (first : CommentaryTemplate * Q)
  (rest : list (CommentaryTemplate * Q)) :
  exists i, first_heaviest (first :: rest) i (heaviest first rest).
Proof.
  apply (heaviest_from _ rest [first] 0%nat first). split; [reflexivity | ].
  intros j x Hx. destruct j as [ | j]; [ | destruct j; discriminate].
  injection Hx as <-. split; [apply Qle_refl | lia].
Qed.

Lemma nth_error_weigh (ts : list CommentaryTemplate) (uniform : nat -> Q) :
  forall k j,
    nth_error (weigh ts uniform k) j =
    option_map (fun t => (t, weight_of uniform (k + j) t)) (nth_error ts j).
Proof.
  induction ts as [ | t rest IH]; intros k j; cbn [weigh].
  - destruct j; reflexivity.
  - destruct j as [ | j]; cbn [nth_error option_map].
    + rewrite Nat.add_0_r. reflexivity.
    + rewrite IH. rewrite Nat.add_succ_comm. reflexivity.
Qed.

Lemma select_template_spec (ts : list CommentaryTemplate) (uniform : nat -> Q)
  (t : CommentaryTemplate) :
  _select_template ts uniform = Some t ->
  exists i,
    nth_error ts i = Some t /\
    forall j t', nth_error ts j = Some t' ->
      (weight_of uniform j t' <= weight_of uniform i t)%Q /\
      ((j < i)%nat -> (weight_of uniform j t' < weight_of uniform i t)%Q).
Proof.
  unfold _select_template.
  destruct (weigh ts uniform 0) as [ | first rest] eqn:Hw; [discriminate | ].
  intros H. injection H as <-.
  destruct (heaviest_first_heaviest first rest) as (i & Hnth & Hmax).
  rewrite <- Hw in Hnth, Hmax. rewrite nth_error_weigh in Hnth.
  destruct (nth_error ts i) as [t | ] eqn:Hi; [ | discriminate].
  cbn [option_map] in Hnth. injection Hnth as Hbest.
  rewrite <- Hbest. cbn [fst]. exists i. split; [exact Hi | ].
  intros j t' Hj.
  specialize (Hmax j (t', weight_of uniform (0 + j) t')).
  rewrite nth_error_weigh, Hj in Hmax. specialize (Hmax eq_refl).
  rewrite <- Hbest in Hmax. exact Hmax.
Qed.

Lemma select_template_none (ts : list CommentaryTemplate) (uniform : nat -> Q) :
  _select_template ts uniform = None <-> ts = [].
Proof.
  unfold _select_template. destruct ts as [ | t rest]; cbn [weigh].
  - split; reflexivity.
  - split; discriminate.
Qed.

Lemma select_template_in (ts : list CommentaryTemplate) (uniform : nat -> Q)
  (t : CommentaryTemplate) :
  _select_template ts uniform = Some t -> In t ts.
Proof.
  intros H. apply select_template_spec in H as (i & Hi & _).
  eapply nth_error_In, Hi.
Qed.

(** X13.  [_select_template] returns [None] only for an empty list.
    Otherwise it returns a candidate whose weight, its priority times its
    random draw, is at least the weight of every candidate and strictly more
    than the weight of every candidate listed before it. *)
Theorem selected_template_is_first_heaviest
  (ts : list CommentaryTemplate) (uniform : nat -> Q) :
  (_select_template ts uniform = None <-> ts = []) /\
  forall t, _select_template ts uniform = Some t ->
    exists i,
      nth_error ts i = Some t /\
      forall j t', nth_error ts j = Some t' ->
        (weight_of uniform j t' <= weight_of uniform i t)%Q /\
        ((j < i)%nat -> (weight_of uniform j t' < weight_of uniform i t)%Q).
Proof.
  split; [apply select_template_none | apply select_template_spec].
Qed.

(** X14.  When every random draw lies between 0.8 and 1.2, as
    [random.uniform(0.8, 1.2)] returns it, and no candidate has a negative
    priority, the selected template has at least two thirds of the priority
    of every candidate: a candidate is never selected against one of more
    than one and a half times its priority. *)
Theorem selection_respects_priority
  (ts : list CommentaryTemplate) (uniform : nat -> Q) (t t' : CommentaryTemplate) :
  (forall i, (0.8 <= uniform i <= 1.2)%Q) ->
  (forall c, In c ts -> 0 <= priority c) ->
  _select_template ts uniform = Some t ->
  In t' ts ->
  2 * priority t' <= 3 * priority t.
Proof.
  intros Hdraw Hprio Hsel Hin.
  pose proof (Hprio t (select_template_in _ _ _ Hsel)) as Hp.
  pose proof (Hprio t' Hin) as Hp'.
  apply select_template_spec in Hsel as (i & _ & Hmax).
  apply In_nth_error in Hin as (j & Hj).
  destruct (Hmax j t' Hj) as [Hle _]. unfold weight_of in Hle.
  destruct (Hdraw i) as [_ Hi]. destruct (Hdraw j) as [Hj' _].
  rewrite Zle_Qle in Hp, Hp'. change (inject_Z 0) with 0%Q in Hp, Hp'.
  assert (H1 : (inject_Z (priority t') * 0.8 <= inject_Z (priority t') * uniform j)%Q).
  { rewrite !(Qmult_comm (inject_Z (priority t'))).
    apply Qmult_le_compat_r; assumption. }
  assert (H2 : (inject_Z (priority t) * uniform i <= inject_Z (priority t) * 1.2)%Q).
  { rewrite !(Qmult_comm (inject_Z (priority t))).
    apply Qmult_le_compat_r; assumption. }
  assert (H3 : (inject_Z (2 * priority t') <= inject_Z (3 * priority t))%Q).
  { rewrite !inject_Z_mult. change (inject_Z 2) with 2%Q.
    change (inject_Z 3) with 3%Q. lra. }
  rewrite <- Zle_Qle in H3. exact H3.
Qed.

(** ** The candidates *)

Lemma filter_loop_is_filter (self : CommentaryGenerator) (analysis : dict)
  (wanted : string) (ts : list CommentaryTemplate) :
  forall relevant,
    filter_loop self analysis wanted ts = Ok relevant ->
    relevant = filter (candidate self analysis wanted) ts.
Proof.
  induction ts as [ | t rest IH]; cbn [filter_loop filter]; intros relevant H.
  - injection H as <-. reflexivity.
  - unfold candidate at 1.
    destruct (String.eqb (style t) wanted); cbn [negb andb] in *.
    + apply bind_ok in H as (met & Hmet & H).
      apply bind_ok in H as (kept & Hkept & H).
      rewrite Hmet. rewrite <- (IH _ Hkept).
      destruct (met && negb (Py.str_in (pattern t) (last_used_patterns self)));
        injection H as <-; reflexivity.
    + apply IH, H.
Qed.


Lemma catalog_has_one_candidate (self : CommentaryGenerator) (analysis : dict)
  (wanted : string) (relevant : list CommentaryTemplate) :
  templates self = _load_templates ->
  _filter_templates self analysis wanted = Ok relevant ->
  (List.length relevant <= 1)%nat.
Proof.
  intros Hcat H. apply filter_loop_is_filter in H. subst relevant.
  rewrite Hcat. unfold _load_templates. cbn [filter].
  unfold candidate. cbn [style].
  destruct (String.eqb_spec "neutral" wanted) as [<- | _];
    [ | destruct (String.eqb_spec "excited" wanted) as [<- | _] ];
    cbn [String.eqb Ascii.eqb Bool.eqb andb];
    repeat match goal with
           | |- context [if ?b then _ else _] => destruct b
           end; cbn [List.length]; lia.
Qed.

Lemma select_template_single (t : CommentaryTemplate) (uniform : nat -> Q) :
  _select_template [t] uniform = Some t.
Proof.
  reflexivity.
Qed.

Lemma rendering_ignores_draws (self : CommentaryGenerator) (analysis : dict)
  (wanted : string) (u1 u2 : nat -> Q) :
  templates self = _load_templates ->
  rendering self analysis wanted u1 = rendering self analysis wanted u2.
Proof.
  intros Hcat. unfold rendering.
  destruct (_filter_templates self analysis wanted) as [relevant | ] eqn:H;
    [ | reflexivity].
  pose proof (catalog_has_one_candidate _ _ _ _ Hcat H) as Hlen.
  destruct relevant as [ | t [ | ]]; cbn [List.length] in Hlen; try lia;
    reflexivity.
Qed.

(** X16.  With the catalog that [_load_templates] returns, the random draws
    have no influence: after any calls on a fresh generator, a call of
    [generate_commentary] returns the same text and leaves the same
    generator whatever [random.uniform] returns, because no two templates of
    the catalog share a style and so at most one is a candidate. *)
Theorem catalog_selection_ignores_the_draws
  (before : list call) (analysis : dict) (wanted : string) (max_length : Z)
  (u1 u2 : nat -> Q) :
  let g := after_calls before CommentaryGenerator_init in
  generate_commentary analysis wanted max_length u1 g =
  generate_commentary analysis wanted max_length u2 g.
Proof.
  intros g. rewrite !generate_commentary_cases.
  rewrite (rendering_ignores_draws g analysis wanted u1 u2); [reflexivity | ].
  destruct (after_calls_invariant before _ init_bounded) as (_ & Ht & _).
  exact Ht.
Qed.

(** ** The pattern memory holds no duplicates *)

Lemma rendering_some (self : CommentaryGenerator) (analysis : dict)
  (wanted : string) (uniform : nat -> Q) (t : CommentaryTemplate) (text : string) :
  rendering self analysis wanted uniform = Some (t, text) ->
  In t (templates self) /\ ~ In (pattern t) (last_used_patterns self).
Proof.
  unfold rendering, _filter_templates.
  destruct (filter_loop self analysis wanted (templates self))
    as [relevant | ] eqn:Hfilter; [ | discriminate].
  destruct (_select_template relevant uniform) as [t0 | ] eqn:Hsel;
    [ | discriminate].
  destruct (_fill_template t0 analysis); [ | discriminate].
  intros H. injection H as <- _.
  eapply filter_loop_excludes_history; [exact Hfilter | ].
  eapply select_template_in, Hsel.
Qed.

Lemma nodup_snoc (p : string) (h : list string) :
  NoDup h -> ~ In p h -> NoDup (h ++ [p]).
Proof.
  intros Hh Hp. apply (Permutation_NoDup (l := p :: h)).
  - apply Permutation_cons_append.
  - constructor; assumption.
Qed.

Lemma nodup_tl (h : list string) : NoDup h -> NoDup (tl h).
Proof.
  intros H. destruct H; [constructor | assumption].
Qed.

Lemma incl_tl_l (h l : list string) : incl h l -> incl (tl h) l.
Proof.
  intros H x Hx. apply H. destruct h; [contradiction | right; exact Hx].
Qed.

Lemma generate_history_well_formed (c : call) (self : CommentaryGenerator) :
  NoDup (last_used_patterns self) ->
  incl (last_used_patterns self) (map pattern (templates self)) ->
  NoDup (last_used_patterns (snd (generate c self))) /\
  incl (last_used_patterns (snd (generate c self)))
       (map pattern (templates (snd (generate c self)))).
Proof.
  intros Hnd Hincl. destruct (generate_frame c self) as [-> _].
  rewrite generate_step. unfold rendering_of.
  destruct (rendering _ _ _ _) as [[t text] | ] eqn:Hr; [ | auto].
  apply rendering_some in Hr as [Hin Hnot].
  rewrite forget_remember_history.
  assert (Hnd' : NoDup (last_used_patterns self ++ [pattern t]))
    by (apply nodup_snoc; assumption).
  assert (Hincl' : incl (last_used_patterns self ++ [pattern t])
                        (map pattern (templates self))).
  { apply incl_app; [exact Hincl | ].
    intros x [<- | []]. apply in_map, Hin. }
  destruct (_ <? _)%nat; split; auto using nodup_tl, incl_tl_l.
Qed.

Lemma after_calls_history_well_formed (calls : list call) :
  forall self,
    NoDup (last_used_patterns self) ->
    incl (last_used_patterns self) (map pattern (templates self)) ->
    NoDup (last_used_patterns (after_calls calls self)) /\
    incl (last_used_patterns (after_calls calls self))
         (map pattern (templates (after_calls calls self))).
Proof.
  induction calls as [ | c rest IH]; cbn [after_calls]; intros self Hnd Hincl.
  - auto.
  - destruct (generate_history_well_formed c self Hnd Hincl). apply IH; assumption.
Qed.

(** X17.  After any calls on a fresh generator, the pattern memory holds no
    pattern twice, and holds only patterns of the generator's templates. *)
Theorem pattern_memory_has_no_duplicates (calls : list call) :
  let g := after_calls calls CommentaryGenerator_init in
  NoDup (last_used_patterns g) /\
  incl (last_used_patterns g) (map pattern (templates g)).
Proof.
  apply after_calls_history_well_formed.
  - constructor.
  - intros x [].
Qed.

Lemma catalog_history_short (calls : list call) :
  let g := after_calls calls CommentaryGenerator_init in
  templates g = _load_templates /\
  max_pattern_memory g = 5%nat /\
  (List.length (last_used_patterns g) <= 3)%nat.
Proof.
  intros g.
  destruct (after_calls_invariant calls _ init_bounded) as (_ & Ht & Hm).
  fold g in Ht, Hm.
  destruct (after_calls_history_well_formed calls CommentaryGenerator_init)
    as [Hnd Hincl]; [constructor | intros x [] | ].
  fold g in Hnd, Hincl. rewrite Ht in Hincl.
  repeat split; [exact Ht | exact Hm | ].
  apply (NoDup_incl_length Hnd) in Hincl. exact Hincl.
Qed.

Lemma catalog_history_grows (before : list call) (c : call) (p : string) :
  let g := after_calls before CommentaryGenerator_init in
  In p (last_used_patterns g) ->
  In p (last_used_patterns (snd (generate c g))).
Proof.
  intros g Hin.
  destruct (catalog_history_short before) as (_ & Hm & Hlen). fold g in Hm, Hlen.
  rewrite generate_step.
  destruct (rendering_of g c) as [[t text] | ]; [ | exact Hin].
  rewrite forget_remember_history, Hm.
  destruct (Nat.ltb_spec 5 (S (List.length (last_used_patterns g))));
    [lia | ].
  apply in_or_app. left. exact Hin.
Qed.

Lemma after_calls_app (xs ys : list call) (self : CommentaryGenerator) :
  after_calls (xs ++ ys) self = after_calls ys (after_calls xs self).
Proof.
  revert self. induction xs as [ | c rest IH]; cbn [app after_calls]; intros self.
  - reflexivity.
  - apply IH.
Qed.

Lemma catalog_history_keeps (before later : list call) (p : string) :
  In p (last_used_patterns (after_calls before CommentaryGenerator_init)) ->
  In p (last_used_patterns
          (after_calls (before ++ later) CommentaryGenerator_init)).
Proof.
  revert before. induction later as [ | c rest IH]; intros before Hin.
  - rewrite app_nil_r. exact Hin.
  - replace (before ++ c :: rest)%list with ((before ++ [c]) ++ rest)%list
      by (rewrite <- app_assoc; reflexivity).
    apply IH. rewrite after_calls_app. cbn [after_calls].
    apply catalog_history_grows, Hin.
Qed.

(** X18.  With the catalog of [_load_templates], a template is rendered at
    most once in the life of a generator.  After any calls on a fresh
    generator, if a call renders template [t], then after any number of
    further calls the pattern of [t] is still in the pattern memory, which
    never holds more than three patterns, and [t] is not among the
    candidates of any later call. *)
Theorem catalog_template_is_rendered_once
  (before : list call) (c : call) (later : list call) (next : call)
  (t : CommentaryTemplate) (text : string) (relevant : list CommentaryTemplate) :
  let g0 := after_calls before CommentaryGenerator_init in
  let g2 := after_calls later (snd (generate c g0)) in
  rendering_of g0 c = Some (t, text) ->
  _filter_templates g2 (call_analysis next) (call_style next) = Ok relevant ->
  In (pattern t) (last_used_patterns g2) /\
  (List.length (last_used_patterns g2) <= 3)%nat /\
  ~ In (pattern t) (map pattern relevant).
Proof.
  intros g0 g2 Hrender Hfilter.
  assert (Hg2 : g2 = after_calls ((before ++ [c]) ++ later) CommentaryGenerator_init).
  { unfold g2, g0. rewrite !after_calls_app. reflexivity. }
  assert (Hin : In (pattern t) (last_used_patterns g2)).
  { rewrite Hg2. apply catalog_history_keeps.
    rewrite after_calls_app. cbn [after_calls]. fold g0.
    rewrite generate_step, Hrender.
    destruct (catalog_history_short before) as (_ & Hm & Hlen).
    fold g0 in Hm, Hlen.
    rewrite forget_remember_history, Hm.
    destruct (Nat.ltb_spec 5 (S (List.length (last_used_patterns g0))));
      [lia | ].
    apply in_or_app. right. left. reflexivity. }
  split; [exact Hin | ]. split.
  - rewrite Hg2. apply catalog_history_short.
  - intros Hrel. apply in_map_iff in Hrel as (t' & Hpat & Hrel).
    destruct (filter_loop_excludes_history _ _ _ _ _ Hfilter t' Hrel) as [_ Hnot].
    apply Hnot. rewrite Hpat. exact Hin.
Qed.

(** ** The rendered text *)

Lemma substring_prefix (n : nat) (s : string) :
  exists rest,
    s = substring 0 n s ++ rest /\
    String.length (substring 0 n s) = Nat.min n (String.length s).
Proof.
  revert n. induction s as [ | a r IH]; intros n.
  - exists "". destruct n; split; reflexivity.
  - destruct n as [ | n]; cbn [substring].
    + exists (String a r). split; reflexivity.
    + destruct (IH n) as (rest & Hrest & Hlen). exists rest. split.
      * cbn [append]. rewrite <- Hrest. reflexivity.
      * cbn [String.length Nat.min]. rewrite Hlen. reflexivity.
Qed.

Lemma slice_to_prefix (s : string) (n : Z) :
  exists rest,
    s = Str.slice_to s n ++ rest /\
    String.length (Str.slice_to s n) =
      if n <? 0 then (String.length s - Z.to_nat (- n))%nat
      else Nat.min (Z.to_nat n) (String.length s).
Proof.
  unfold Str.slice_to. destruct (Z.ltb_spec n 0) as [Hneg | Hpos].
  - destruct (substring_prefix (Z.to_nat (Z.of_nat (String.length s) + n)) s)
      as (rest & Hrest & Hlen).
    exists rest. split; [exact Hrest | ]. rewrite Hlen. lia.
  - apply substring_prefix.
Qed.

(** X19.  When a call of [generate_commentary] renders a template, the text
    it returns is a prefix of the rendered text: its first [max_length]
    characters when [max_length] is not negative, so never longer than
    [max_length], and all but its last [-max_length] characters when
    [max_length] is negative. *)
Theorem rendered_text_is_truncated
  (self : CommentaryGenerator) (analysis : dict) (wanted : string)
  (max_length : Z) (uniform : nat -> Q) (t : CommentaryTemplate) (text : string) :
  rendering self analysis wanted uniform = Some (t, text) ->
  exists out rest : string,
    fst (generate_commentary analysis wanted max_length uniform self) = Ok out /\
    text = out ++ rest /\
    String.length out =
      if max_length <? 0
      then (String.length text - Z.to_nat (- max_length))%nat
      else Nat.min (Z.to_nat max_length) (String.length text).
Proof.
  intros H. rewrite generate_commentary_cases, H. cbn [fst].
  destruct (slice_to_prefix text max_length) as (rest & Hrest & Hlen).
  exists (Str.slice_to text max_length), rest. auto.
Qed.

(** ** Conditions on the analysis *)

Lemma gt_numbers (a b : value) (x y : Q) :
  Py.as_num a = Some x -> Py.as_num b = Some y ->
  Py.gt a b = Ok (Py.Qltb y x).
Proof.
  intros Ha Hb. unfold Py.gt. rewrite (cmp_numbers a b x y Ha Hb). cbn [bind].
  f_equal. destruct (x ?= y)%Q eqn:E; symmetry.
  - apply Qltb_ge. apply Qeq_alt in E. rewrite E. apply Qle_refl.
  - apply Qltb_ge, Qlt_le_weak, Qlt_alt, E.
  - apply Qltb_lt, Qgt_alt, E.
Qed.

Lemma ge_numbers (a b : value) (x y : Q) :
  Py.as_num a = Some x -> Py.as_num b = Some y ->
  Py.ge a b = Ok (Qle_bool y x).
Proof.
  intros Ha Hb. unfold Py.ge. rewrite (cmp_numbers a b x y Ha Hb). cbn [bind].
  f_equal. destruct (x ?= y)%Q eqn:E.
  - symmetry. apply Qle_bool_iff. apply Qeq_alt in E. rewrite E. apply Qle_refl.
  - apply Qlt_alt in E. destruct (Qle_bool y x) eqn:El; [ | reflexivity].
    apply Qle_bool_iff in El. lra.
  - symmetry. apply Qle_bool_iff, Qlt_le_weak, Qgt_alt, E.
Qed.

Lemma max_from_numbers {A : Type} (key : A -> value) (num : A -> Q)
  (rest : list A) :
  forall best,
    (forall x, In x (best :: rest) -> Py.as_num (key x) = Some (num x)) ->
    exists b,
      Py.max_from key best rest = Ok b /\
      In b (best :: rest) /\
      forall x, In x (best :: rest) -> (num x <= num b)%Q.
Proof.
  induction rest as [ | y rest IH]; intros best Hnum; cbn [Py.max_from].
  - exists best. split; [reflexivity | ]. split; [left; reflexivity | ].
    intros x [<- | []]. apply Qle_refl.
  - rewrite (gt_numbers (key y) (key best) (num y) (num best))
      by (apply Hnum; cbn [In]; auto).
    cbn [bind].
    destruct (Py.Qltb (num best) (num y)) eqn:E.
    + apply Qltb_lt in E.
      destruct (IH y) as (b & Hb & Hin & Hmax).
      { intros x Hx. apply Hnum. destruct Hx; cbn [In]; auto. }
      exists b. split; [exact Hb | ]. split.
      * destruct Hin; cbn [In]; auto.
      * intros x [<- | Hx]; [ | apply Hmax, Hx].
        specialize (Hmax y (or_introl eq_refl)). lra.
    + apply Qltb_ge in E.
      destruct (IH best) as (b & Hb & Hin & Hmax).
      { intros x Hx. apply Hnum. destruct Hx; cbn [In]; auto. }
      exists b. split; [exact Hb | ]. split.
      * destruct Hin; cbn [In]; auto.
      * intros x [<- | [<- | Hx]].
        -- apply Hmax. left. reflexivity.
        -- specialize (Hmax best (or_introl eq_refl)). lra.
        -- apply Hmax. right. exact Hx.
Qed.

Lemma number_of_number (v : value) :
  (exists q, Py.as_num v = Some q) -> Py.as_num v = Some (number_of v).
Proof.
  intros (q & Hq). unfold number_of. rewrite Hq. reflexivity.
Qed.

(** X20.  With a non-empty momentum dictionary of numbers,
    [_check_condition] finds the condition [momentum] met exactly when some
    value reaches the threshold. *)
Theorem momentum_condition_by_largest_value
  (analysis : dict) (momentum : dict) (threshold : Q) :
  Py.get analysis "momentum" (VDict []) = VDict momentum ->
  momentum <> [] ->
  (forall v, In v (Py.values momentum) -> exists q, Py.as_num v = Some q) ->
  exists met : bool,
    _check_condition analysis "momentum" threshold = Ok met /\
    (met = true <->
     exists v q, In v (Py.values momentum) /\ Py.as_num v = Some q /\
                 (threshold <= q)%Q).
Proof.
  intros Hget Hne Hnum. unfold _check_condition.
  change (String.eqb "momentum" "momentum") with true. cbv iota.
  rewrite Hget. cbn [Py.values_method bind].
  destruct (Py.values momentum) as [ | v0 vs] eqn:Hvs.
  { destruct momentum; [contradiction | discriminate]. }
  cbn [Py.max_by].
  destruct (max_from_numbers (fun v => v) number_of vs v0)
    as (b & Hb & Hin & Hmax).
  { intros x Hx. apply number_of_number, Hnum, Hx. }
  rewrite Hb. cbn [bind].
  rewrite (ge_numbers b (VFloat threshold) (number_of b) threshold)
    by (try reflexivity; apply number_of_number, Hnum, Hin).
  eexists. split; [reflexivity | ]. rewrite Qle_bool_iff. split.
  - intros Hle. exists b, (number_of b). split; [exact Hin | ].
    split; [apply number_of_number, Hnum, Hin | exact Hle].
  - intros (v & q & Hv & Hq & Hle).
    specialize (Hmax v Hv). unfold number_of at 1 in Hmax. rewrite Hq in Hmax.
    lra.
Qed.

Lemma lookup_in_nodup (k : string) (v : value) (d : dict) :
  NoDup (Py.keys d) -> In (k, v) d -> Py.lookup k d = Some v.
Proof.
  induction d as [ | [k' v'] rest IH]; cbn [Py.keys map fst Py.lookup In];
    intros Hnd Hin; [contradiction | ].
  inversion Hnd as [ | ? ? Hnot Hnd']; subst.
  destruct Hin as [Heq | Hin].
  - injection Heq as -> ->. rewrite String.eqb_refl. reflexivity.
  - destruct (String.eqb_spec k k') as [-> | _].
    + exfalso. apply Hnot. apply (in_map fst) in Hin. exact Hin.
    + apply IH; assumption.
Qed.

(** X21.  For a non-empty momentum dictionary of numbers with distinct keys,
    [_describe_momentum] words the largest value: ["dominate the game"]
    above 0.8, ["maintain control"] above 0.6 and up to 0.8, and
    ["push forward"] otherwise. *)
Theorem momentum_description_by_largest_value (momentum : dict) :
  momentum <> [] ->
  NoDup (Py.keys momentum) ->
  (forall kv, In kv momentum -> exists q, Py.as_num (snd kv) = Some q) ->
  exists (k : string) (v : value) (q : Q),
    In (k, v) momentum /\
    Py.as_num v = Some q /\
    (forall kv q', In kv momentum -> Py.as_num (snd kv) = Some q' -> (q' <= q)%Q) /\
    _describe_momentum (VDict momentum) =
      Ok (if Py.Qltb 0.8 q then "dominate the game"
          else if Py.Qltb 0.6 q then "maintain control"
          else "push forward").
Proof.
  intros Hne Hnd Hnum. unfold _describe_momentum.
  destruct momentum as [ | kv0 rest] eqn:Hm; [contradiction | ].
  cbn [Py.truthy negb Py.items_method bind Py.max_by].
  destruct (max_from_numbers snd (fun kv => number_of (snd kv)) rest kv0)
    as ([k v] & Hb & Hin & Hmax).
  { intros x Hx. apply number_of_number, Hnum, Hx. }
  rewrite Hb. cbn [bind fst Py.subscript]. unfold Py.item.
  rewrite (lookup_in_nodup k v _ Hnd Hin). cbn [bind].
  pose proof (number_of_number v (Hnum (k, v) Hin)) as Hv.
  rewrite (gt_numbers v (VFloat 0.8) (number_of v) 0.8 Hv eq_refl). cbn [bind].
  rewrite (gt_numbers v (VFloat 0.6) (number_of v) 0.6 Hv eq_refl). cbn [bind].
  exists k, v, (number_of v). repeat split; auto.
  - intros kv q' Hkv Hq'. specialize (Hmax kv Hkv). cbn beta in Hmax.
    unfold number_of at 1 in Hmax. rewrite Hq' in Hmax. exact Hmax.
  - destruct (Py.Qltb 0.8 (number_of v)); [reflexivity | ].
    destruct (Py.Qltb 0.6 (number_of v)); reflexivity.
Qed.

Lemma any_efficiency_numbers (threshold : Q) (performances : list value) :
  (forall p, In p performances ->
     exists d q, p = VDict d /\
                 Py.as_num (Py.get d "efficiency" (VInt 0)) = Some q) ->
  exists met : bool,
    any_efficiency threshold performances = Ok met /\
    (met = true <->
     exists d q, In (VDict d) performances /\
                 Py.as_num (Py.get d "efficiency" (VInt 0)) = Some q /\
                 (threshold <= q)%Q).
Proof.
  induction performances as [ | p rest IH]; intros Hnum; cbn [any_efficiency].
  - exists false. split; [reflexivity | ]. split; [discriminate | ].
    intros (d & q & [] & _).
  - destruct (Hnum p (or_introl eq_refl)) as (d & q & -> & Hq).
    cbn [Py.get_method bind].
    rewrite (ge_numbers _ (VFloat threshold) q threshold Hq eq_refl).
    cbn [bind]. destruct (Qle_bool threshold q) eqn:E.
    + exists true. split; [reflexivity | ]. split; [ | reflexivity].
      intros _. exists d, q. apply Qle_bool_iff in E. cbn [In]. auto.
    + destruct IH as (met & Hmet & Hiff).
      { intros p' Hp'. apply Hnum. right. exact Hp'. }
      exists met. split; [exact Hmet | ]. rewrite Hiff. split.
      * intros (d' & q' & Hin & Hq' & Hle). exists d', q'. cbn [In]. auto.
      * intros (d' & q' & [Heq | Hin] & Hq' & Hle).
        -- injection Heq as <-. assert (q' = q) by congruence. subst q'.
           apply Qle_bool_iff in Hle. congruence.
        -- exists d', q'. auto.
Qed.

(** X22.  The conditions [performance] and [efficiency] are the same test:
    when every entry of [performance_metrics] is a dictionary whose
    efficiency is a number (a missing efficiency counts as 0), each is met
    exactly when some team's efficiency reaches the threshold.  A condition
    of any other name than these two and [momentum] is never met. *)
Theorem efficiency_conditions_by_any_team
  (analysis : dict) (metrics : dict) (threshold : Q) :
  Py.get analysis "performance_metrics" (VDict []) = VDict metrics ->
  (forall p, In p (Py.values metrics) ->
     exists d q, p = VDict d /\
                 Py.as_num (Py.get d "efficiency" (VInt 0)) = Some q) ->
  (exists met : bool,
     _check_condition analysis "performance" threshold = Ok met /\
     _check_condition analysis "efficiency" threshold = Ok met /\
     (met = true <->
      exists d q, In (VDict d) (Py.values metrics) /\
                  Py.as_num (Py.get d "efficiency" (VInt 0)) = Some q /\
                  (threshold <= q)%Q)) /\
  (forall name,
     name <> "momentum" -> name <> "performance" -> name <> "efficiency" ->
     _check_condition analysis name threshold = Ok false).
Proof.
  intros Hget Hnum. split.
  - destruct (any_efficiency_numbers threshold _ Hnum) as (met & Hmet & Hiff).
    exists met. unfold _check_condition.
    cbn [String.eqb Ascii.eqb Bool.eqb andb]. cbv iota.
    rewrite Hget. cbn [Py.values_method bind]. auto.
  - intros name H1 H2 H3. unfold _check_condition.
    destruct (String.eqb_spec name "momentum"); [contradiction | ].
    destruct (String.eqb_spec name "performance"); [contradiction | ].
    destruct (String.eqb_spec name "efficiency"); [contradiction | ].
    reflexivity.
Qed.

(** X23.  With the catalog of [_load_templates], a call for the style
    [neutral] whose analysis has no momentum, or an empty one, falls back:
    [max()] of no values raises, and the call returns the fallback sentence
    and leaves the generator as it was. *)
Theorem neutral_call_without_momentum_falls_back
  (before : list call) (analysis : dict) (max_length : Z) (uniform : nat -> Q) :
  Py.get analysis "momentum" (VDict []) = VDict [] ->
  let g := after_calls before CommentaryGenerator_init in
  generate_commentary analysis "neutral" max_length uniform g =
  (Ok (_generate_fallback_commentary analysis), g).
Proof.
  intros Hget g. rewrite generate_commentary_cases.
  destruct (after_calls_invariant before _ init_bounded) as (_ & Ht & _).
  fold g in Ht.
  unfold rendering, _filter_templates. rewrite Ht.
  unfold CommentaryGenerator_init, _load_templates.
  cbn [templates filter_loop style negb String.eqb Ascii.eqb Bool.eqb andb conditions
       all_conditions].
  unfold _check_condition at 1.
  cbn [String.eqb Ascii.eqb Bool.eqb andb]. cbv iota.
  rewrite Hget. reflexivity.
Qed.

(** ** What [validate_config] accepts *)

Lemma check_settings_step (config : dict) (setting : string)
  (rest : list (string * list pytype)) :
  check_settings config ((setting, [Tstr]) :: rest) = Ok tt <->
  exists s, Py.lookup setting config = Some (VStr s) /\ s <> "" /\
            check_settings config rest = Ok tt.
Proof.
  cbn [check_settings]. destruct (Py.lookup setting config) as [v | ].
  - destruct v; cbn [isinstance existsb isinstance1 orb negb];
      try (split; [discriminate | intros (s' & Hs & _); discriminate]).
    cbn [Py.truthy]. destruct (String.eqb_spec s "") as [-> | Hne]; cbn [negb].
    + split; [discriminate | ]. intros (s' & Hs & Hne & _).
      injection Hs as <-. contradiction.
    + split.
      * intros H. exists s. auto.
      * intros (s' & Hs & _ & H). exact H.
  - split; [discriminate | intros (s & Hs & _); discriminate].
Qed.

Lemma valid_api_key_string (v : value) :
  _is_valid_api_key v = true <-> exists s, v = VStr s /\ valid_key s.
Proof.
  unfold _is_valid_api_key, valid_key. destruct v;
    try (split; [discriminate | intros (s' & Hs & _); discriminate]).
  rewrite andb_true_iff, Nat.leb_le, negb_true_iff. split.
  - intros [Hlen Hsp]. exists s. split; [reflexivity | ].
    split; [exact Hlen | ]. destruct s; [cbn in Hlen; lia | exact Hsp].
  - intros (s' & Hs & Hlen & Hsp). injection Hs as <-.
    split; [exact Hlen | ]. destruct s; [cbn in Hlen; lia | exact Hsp].
Qed.

Lemma check_api_keys_step (config : dict) (key : string) (rest : list string) :
  check_api_keys config (key :: rest) = Ok tt <->
  exists v, Py.lookup key config = Some v /\ _is_valid_api_key v = true /\
            check_api_keys config rest = Ok tt.
Proof.
  cbn [check_api_keys]. unfold Py.item.
  destruct (Py.lookup key config) as [v | ]; cbn [bind].
  - destruct (_is_valid_api_key v) eqn:E; cbn [require bind].
    + split; [intros H; exists v; auto | intros (v' & _ & _ & H); exact H].
    + split; [discriminate | ]. intros (v' & Hv & Hvalid & _).
      injection Hv as <-. congruence.
  - split; [discriminate | intros (v & Hv & _); discriminate].
Qed.

Lemma validate_config_valid (config : dict) :
  validate_config config = Ok true <-> valid_config config.
Proof.
  unfold validate_config, valid_config, required_settings. split.
  - intros H.
    apply bind_ok in H as ([] & Hsettings & H).
    apply bind_ok in H as ([] & Hkeys & H).
    apply bind_ok in H as (rv & Hregion & H).
    apply bind_ok in H as (valid & Hvalid & H).
    apply bind_ok in H as ([] & Hreq & _).
    apply check_settings_step in Hsettings as (groq & Hg & _ & Hsettings).
    apply check_settings_step in Hsettings as (azure & Ha & _ & Hsettings).
    apply check_settings_step in Hsettings as (region & Hr & _ & Hsettings).
    apply check_settings_step in Hsettings as (stats & Hs & _ & _).
    apply check_api_keys_step in Hkeys as (v1 & Hv1 & Hk1 & Hkeys).
    apply check_api_keys_step in Hkeys as (v2 & Hv2 & Hk2 & Hkeys).
    apply check_api_keys_step in Hkeys as (v3 & Hv3 & Hk3 & _).
    rewrite Hg in Hv1. injection Hv1 as <-.
    rewrite Ha in Hv2. injection Hv2 as <-.
    rewrite Hs in Hv3. injection Hv3 as <-.
    apply valid_api_key_string in Hk1 as (? & Heq1 & Hk1).
    injection Heq1 as <-.
    apply valid_api_key_string in Hk2 as (? & Heq2 & Hk2).
    injection Heq2 as <-.
    apply valid_api_key_string in Hk3 as (? & Heq3 & Hk3).
    injection Heq3 as <-.
    apply item_ok in Hregion. rewrite Hr in Hregion. injection Hregion as <-.
    cbn [_is_valid_azure_region Py.lower_method bind] in Hvalid.
    injection Hvalid as <-. apply require_ok in Hreq.
    apply (proj1 (str_in_In (Str.lower region) valid_regions)) in Hreq.
    exists groq, azure, region, stats. repeat split; try assumption;
      first [apply Hk1 | apply Hk2 | apply Hk3].
  - intros (groq & azure & region & stats & Hg & Ha & Hr & Hs & Hk1 & Hk2 & Hk3 & Hin).
    assert (Hne : forall s, valid_key s -> s <> "").
    { intros s [Hlen _] ->. cbn in Hlen. clear - Hlen. lia. }
    assert (Hsettings : check_settings config
              [("GROQ_API_KEY", [Tstr]); ("AZURE_SPEECH_KEY", [Tstr]);
               ("AZURE_SPEECH_REGION", [Tstr]); ("GAME_STATS_API_KEY", [Tstr])]
              = Ok tt).
    { apply check_settings_step. exists groq.
      split; [exact Hg | split; [auto | ]].
      apply check_settings_step. exists azure.
      split; [exact Ha | split; [auto | ]].
      apply check_settings_step. exists region.
      split; [exact Hr | split].
      { intros ->. cbn in Hin. clear - Hin. intuition discriminate. }
      apply check_settings_step. exists stats.
      split; [exact Hs | split; [auto | reflexivity]]. }
    assert (Hkeys : check_api_keys config
              ["GROQ_API_KEY"; "AZURE_SPEECH_KEY"; "GAME_STATS_API_KEY"] = Ok tt).
    { apply check_api_keys_step. exists (VStr groq).
      split; [exact Hg | split; [apply valid_api_key_string; eauto | ]].
      apply check_api_keys_step. exists (VStr azure).
      split; [exact Ha | split; [apply valid_api_key_string; eauto | ]].
      apply check_api_keys_step. exists (VStr stats).
      split; [exact Hs | split; [apply valid_api_key_string; eauto | reflexivity]]. }
    rewrite Hsettings, Hkeys. cbn [bind]. unfold Py.item. rewrite Hr.
    cbn [bind _is_valid_azure_region Py.lower_method].
    apply str_in_In in Hin. rewrite Hin. reflexivity.
Qed.

(** X24.  [validate_config] returns [True] exactly for the configurations
    in which the three API keys and the Azure region are strings, each key
    has at least 32 characters that are not all whitespace, and the region,
    in any letter case, is one of the eight listed regions.  It never
    returns [False]. *)
Theorem validate_config_accepts_exactly_valid_configs (config : dict) :
  (validate_config config = Ok true <-> valid_config config) /\
  validate_config config <> Ok false.
Proof.
  split; [apply validate_config_valid | ].
  unfold validate_config. intros H.
  repeat (apply bind_ok in H as (? & _ & H)). discriminate.
Qed.

(** ** The Groq prompt *)

Lemma field_problem_present (data : dict) (field : string * list pytype) :
  field_problem data field = None ->
  exists v, Py.item data (fst field) = Ok v.
Proof.
  unfold field_problem, Py.item.
  destruct (Py.lookup (fst field) data) as [v | ]; [ | discriminate].
  intros _. exists v. reflexivity.
Qed.

Lemma descriptions_of_dicts (plays : list value) :
  Forall (fun play => exists d text,
            play = VDict d /\ Py.lookup "description" d = Some (VStr text))
         plays ->
  exists texts,
    descriptions plays = Ok (map VStr texts) /\
    join_items (map VStr texts) = Ok texts.
Proof.
  induction 1 as [ | play rest (d & text & -> & Hd) _ (texts & IH1 & IH2)].
  - exists []. split; reflexivity.
  - exists (text :: texts). cbn [descriptions Py.subscript map join_items].
    unfold Py.item. rewrite Hd. cbn [bind]. rewrite IH1. cbn [bind].
    rewrite IH2. split; reflexivity.
Qed.

Lemma style_instruction_cases (style : string) :
  (In style ["excited"; "neutral"; "analytical"] ->
   exists text, Py.item style_instructions style = Ok (VStr text)) /\
  (~ In style ["excited"; "neutral"; "analytical"] ->
   Py.item style_instructions style = Err (KeyError style)).
Proof.
  split.
  - intros [<- | [<- | [<- | []]]]; eexists; reflexivity.
  - intros Hn. unfold Py.item, style_instructions. cbn [Py.lookup].
    destruct (String.eqb style "excited") eqn:E1;
      [apply String.eqb_eq in E1; subst; exfalso; apply Hn; cbn; auto | ].
    destruct (String.eqb style "neutral") eqn:E2;
      [apply String.eqb_eq in E2; subst; exfalso; apply Hn; cbn; auto | ].
    destruct (String.eqb style "analytical") eqn:E3;
      [apply String.eqb_eq in E3; subst; exfalso; apply Hn; cbn; auto | ].
    reflexivity.
Qed.

(** X29.  For a snapshot that [validate_game_data] accepts and whose first
    three recent plays are dictionaries with a string under ['description'],
    [_create_commentary_prompt] returns a prompt when the style is one of
    'excited', 'neutral' and 'analytical', and raises [KeyError(style)] for
    every other style.  The plays after the third are not looked at. *)
Theorem prompt_of_a_validated_snapshot (data : dict) (style : string)
  (plays : list value) :
  validate_game_data data = Ok true ->
  Py.get data "recent_plays" (VList []) = VList plays ->
  Forall (fun play => exists d text,
            play = VDict d /\ Py.lookup "description" d = Some (VStr text))
         (firstn 3 plays) ->
  (In style ["excited"; "neutral"; "analytical"] ->
   exists text, _create_commentary_prompt data style = Ok text) /\
  (~ In style ["excited"; "neutral"; "analytical"] ->
   _create_commentary_prompt data style = Err (KeyError style)).
Proof.
  intros Hv Hplays Hdicts.
  apply validate_valid_snapshot in Hv. destruct Hv as (Hfields & _).
  unfold required_fields in Hfields.
  repeat match goal with
  | H : Forall _ (_ :: _) |- _ => apply Forall_cons_iff in H; destruct H as [? H]
  end.
  repeat match goal with
  | H : field_problem data _ = None |- _ =>
      apply field_problem_present in H; cbn [fst] in H; destruct H as [? H]
  end.
  destruct (descriptions_of_dicts _ Hdicts) as (texts & Hd & Hj).
  destruct (style_instruction_cases style) as [Hin Hout].
  unfold _create_commentary_prompt.
  repeat match goal with
  | H : Py.item data _ = Ok _ |- _ => rewrite H; clear H
  end.
  cbn [bind]. rewrite Hplays. cbn [first_three bind Py.iter].
  rewrite Hd. cbn [bind]. unfold join. rewrite Hj. cbn [bind].
  split.
  - intros Hs. destruct (Hin Hs) as (text & ->). cbn [bind]. eexists.
    reflexivity.
  - intros Hs. rewrite (Hout Hs). reflexivity.
Qed.

(** X30.  [GroqClient.generate_commentary] raises exactly the exception that
    [_create_commentary_prompt] raises, since the prompt is built before the
    [try]; once the prompt is built it returns, and it returns [None] when
    the exchange with the service raises. *)
Theorem generate_commentary_raises_with_the_prompt (self : GroqClient)
  (game_stats : dict) (style : string) (max_tokens : Z) :
  (forall e,
     GroqClient_generate_commentary self game_stats style max_tokens = Err e <->
     _create_commentary_prompt game_stats style = Err e) /\
  (forall prompt,
     _create_commentary_prompt game_stats style = Ok prompt ->
     (exists v,
        GroqClient_generate_commentary self game_stats style max_tokens = Ok v) /\
     (forall e,
        session_post (base_url self ++ "/chat/completions") (headers self)
          (payload prompt max_tokens) = Err e ->
        GroqClient_generate_commentary self game_stats style max_tokens =
          Ok VNone)).
Proof.
  unfold GroqClient_generate_commentary.
  destruct (_create_commentary_prompt game_stats style) as [prompt | e0];
    cbn [bind].
  - split.
    + intros e. split; [ | discriminate].
      destruct (session_post _ _ _) as [body | ]; cbn [bind]; [ | discriminate].
      destruct (Py.subscript body "choices") as [choices | ]; cbn [bind];
        [ | discriminate].
      destruct (first_item choices) as [choice | ]; cbn [bind]; [ | discriminate].
      destruct (Py.subscript choice "message") as [message | ]; cbn [bind];
        [ | discriminate].
      destruct (Py.subscript message "content"); discriminate.
    + intros prompt' H. injection H as <-. split.
      * match goal with |- exists v, match ?m with _ => _ end = _ =>
          destruct m end; eexists; reflexivity.
      * intros e He. rewrite He. reflexivity.
  - split.
    + intros e. split; intros H; injection H as ->; reflexivity.
    + intros prompt H. discriminate.
Qed.

(** ** The voice profiles *)

Lemma fmax_ge_l (a b : Q) : (a <= Speech.fmax a b)%Q.
Proof.
  unfold Speech.fmax. destruct (Py.Qltb a b) eqn:E.
  - apply Qlt_le_weak, Qltb_lt, E.
  - apply Qle_refl.
Qed.

Lemma fmax_lub (a b c : Q) :
  (a <= c)%Q -> (b <= c)%Q -> (Speech.fmax a b <= c)%Q.
Proof.
  unfold Speech.fmax. destruct (Py.Qltb a b); auto.
Qed.

Lemma clamp_bounds (lo hi x : Q) :
  (lo <= hi)%Q ->
  (lo <= Speech.fmax lo (Py.fmin hi x) /\ Speech.fmax lo (Py.fmin hi x) <= hi)%Q.
Proof.
  intros H. split.
  - apply fmax_ge_l.
  - apply fmax_lub; [exact H | apply fmin_le_l].
Qed.

Lemma clamp_cases (lo hi x : Q) :
  (lo <= hi)%Q ->
  ((x < lo)%Q -> (Speech.fmax lo (Py.fmin hi x) == lo)%Q) /\
  ((lo <= x <= hi)%Q -> (Speech.fmax lo (Py.fmin hi x) == x)%Q) /\
  ((hi < x)%Q -> (Speech.fmax lo (Py.fmin hi x) == hi)%Q).
Proof.
  intros H. unfold Speech.fmax, Py.fmin.
  destruct (Py.Qltb x hi) eqn:E1.
  - apply Qltb_lt in E1.
    destruct (Py.Qltb lo x) eqn:E2.
    + apply Qltb_lt in E2. repeat split; intros; lra.
    + apply Qltb_ge in E2. repeat split; intros; lra.
  - apply Qltb_ge in E1.
    destruct (Py.Qltb lo hi) eqn:E2.
    + apply Qltb_lt in E2. repeat split; intros; lra.
    + apply Qltb_ge in E2. repeat split; intros; lra.
Qed.

Lemma lookup_store_same (k : string) (p q : Speech.VoiceProfile)
  (profiles : list (string * Speech.VoiceProfile)) :
  Speech.lookup_profile k profiles = Some p ->
  Speech.lookup_profile k (Speech.store_profile k q profiles) = Some q.
Proof.
  induction profiles as [ | [k' p'] rest IH]; cbn [Speech.lookup_profile Speech.store_profile].
  - discriminate.
  - destruct (String.eqb k k') eqn:E; cbn [Speech.lookup_profile]; rewrite E.
    + reflexivity.
    + exact IH.
Qed.

Lemma lookup_store_other (k k0 : string) (q : Speech.VoiceProfile)
  (profiles : list (string * Speech.VoiceProfile)) :
  k0 <> k ->
  Speech.lookup_profile k0 (Speech.store_profile k q profiles) =
  Speech.lookup_profile k0 profiles.
Proof.
  intros Hk.
  induction profiles as [ | [k' p'] rest IH]; cbn [Speech.lookup_profile Speech.store_profile].
  - reflexivity.
  - destruct (String.eqb k k') eqn:E; cbn [Speech.lookup_profile].
    + apply String.eqb_eq in E. subst k'.
      destruct (String.eqb k0 k) eqn:E0; [ | reflexivity].
      apply String.eqb_eq in E0. contradiction.
    + rewrite IH. reflexivity.
Qed.

Lemma store_keys (k : string) (q : Speech.VoiceProfile)
  (profiles : list (string * Speech.VoiceProfile)) :
  map fst (Speech.store_profile k q profiles) = map fst profiles.
Proof.
  induction profiles as [ | [k' p'] rest IH]; cbn [Speech.store_profile map].
  - reflexivity.
  - destruct (String.eqb k k'); cbn [map fst]; [reflexivity | ].
    rewrite IH. reflexivity.
Qed.

Lemma lookup_well_formed (k : string) (p : Speech.VoiceProfile)
  (profiles : list (string * Speech.VoiceProfile)) :
  Speech.well_formed profiles ->
  Speech.lookup_profile k profiles = Some p ->
  Speech.style p = k /\ Speech.within_bounds p.
Proof.
  unfold Speech.well_formed.
  induction 1 as [ | [k' p'] rest [Hs Hb] _ IH]; cbn [Speech.lookup_profile].
  - discriminate.
  - destruct (String.eqb k k') eqn:E.
    + apply String.eqb_eq in E. subst k'. intros H. injection H as <-.
      split; assumption.
    + exact IH.
Qed.

Lemma store_well_formed (k : string) (q : Speech.VoiceProfile)
  (profiles : list (string * Speech.VoiceProfile)) :
  Speech.well_formed profiles ->
  Speech.style q = k -> Speech.within_bounds q ->
  Speech.well_formed (Speech.store_profile k q profiles).
Proof.
  unfold Speech.well_formed. intros H Hs Hb.
  induction H as [ | [k' p'] rest Hp Hrest IH]; cbn [Speech.store_profile].
  - constructor.
  - destruct (String.eqb k k') eqn:E.
    + apply String.eqb_eq in E. subst k'. constructor; [ | exact Hrest].
      split; cbn [fst snd]; assumption.
    + constructor; assumption.
Qed.

Lemma after_update_well_formed (self : Speech.SpeechSynthesizer) (u : Speech.update) :
  Speech.well_formed (Speech.voice_profiles self) ->
  Speech.well_formed (Speech.voice_profiles (Speech.after_update self u)) /\
  map fst (Speech.voice_profiles (Speech.after_update self u)) =
  map fst (Speech.voice_profiles self) /\
  Speech.stats (Speech.after_update self u) = Speech.stats self.
Proof.
  intros Hwf. unfold Speech.after_update, Speech.update_voice_profile.
  destruct (Speech.lookup_profile (Speech.to_style u) (Speech.voice_profiles self))
    as [p | ] eqn:E; cbn [snd Speech.voice_profiles Speech.stats].
  - destruct (lookup_well_formed _ _ _ Hwf E) as [Hs (Hr1 & Hr2 & Hp1 & Hp2)].
    split; [ | split; [apply store_keys | reflexivity]].
    apply store_well_formed; [exact Hwf | | ].
    + destruct (Speech.new_voice_name u) as [name | ];
        [destruct (negb (String.eqb name "")) | ];
        destruct (Speech.new_rate u), (Speech.new_pitch u); exact Hs.
    + assert (Hrate : (0.5 <= 2.0)%Q) by lra.
      assert (Hpitch : (-12 <= 12)%Q) by lra.
      unfold Speech.within_bounds.
      destruct (Speech.new_voice_name u) as [name | ];
        [destruct (negb (String.eqb name "")) | ];
        destruct (Speech.new_rate u) as [r | ],
                 (Speech.new_pitch u) as [t | ];
        cbn [Speech.rate Speech.pitch];
        pose proof (clamp_bounds 0.5 2.0) as Cr;
        pose proof (clamp_bounds (-12) 12) as Cp;
        repeat split;
        first [assumption | apply Cr; exact Hrate | apply Cp; exact Hpitch].
  - split; [exact Hwf | split; reflexivity].
Qed.

Lemma init_well_formed :
  Speech.well_formed (Speech.voice_profiles Speech.SpeechSynthesizer_init).
Proof.
  unfold Speech.well_formed, Speech.within_bounds.
  cbn [Speech.voice_profiles Speech.SpeechSynthesizer_init].
  repeat constructor; cbn [snd fst Speech.rate Speech.pitch Speech.style];
    try reflexivity; lra.
Qed.

(** X25.  After any sequence of [update_voice_profile] calls on a new
    synthesizer the profiles are still the three of 'excited', 'neutral' and
    'analytical', each stored under its own style, with a rate between 0.5
    and 2.0 and a pitch between -12 and 12; the statistics are untouched. *)
Theorem voice_profiles_stay_in_range (us : list Speech.update) :
  let self := Speech.after_updates us Speech.SpeechSynthesizer_init in
  map fst (Speech.voice_profiles self) = ["excited"; "neutral"; "analytical"] /\
  (forall k p,
     Speech.lookup_profile k (Speech.voice_profiles self) = Some p ->
     Speech.style p = k /\ Speech.within_bounds p) /\
  Speech.stats self = Speech.stats Speech.SpeechSynthesizer_init.
Proof.
  cbv zeta. unfold Speech.after_updates.
  assert (G : forall self,
    Speech.well_formed (Speech.voice_profiles self) ->
    Speech.well_formed (Speech.voice_profiles (fold_left Speech.after_update us self)) /\
    map fst (Speech.voice_profiles (fold_left Speech.after_update us self)) =
    map fst (Speech.voice_profiles self) /\
    Speech.stats (fold_left Speech.after_update us self) = Speech.stats self).
  { induction us as [ | u us IH]; intros self Hwf; cbn [fold_left].
    - split; [exact Hwf | split; reflexivity].
    - destruct (after_update_well_formed self u Hwf) as (H1 & H2 & H3).
      destruct (IH _ H1) as (I1 & I2 & I3).
      split; [exact I1 | split; congruence]. }
  destruct (G _ init_well_formed) as (H1 & H2 & H3).
  split; [rewrite H2; reflexivity | split; [ | exact H3]].
  intros k p. apply lookup_well_formed. exact H1.
Qed.

(** X26.  [update_voice_profile] on a known style returns [True] and stores
    the rate clamped to [0.5, 2.0] and the pitch clamped to [-12, 12]: a
    value inside the range is stored as given, one below as the lower bound,
    one above as the upper bound.  The voice name is replaced unless the new
    one is [None] or empty, the style is kept, and the other profiles are
    left as they are. *)
Theorem update_voice_profile_clamps (self : Speech.SpeechSynthesizer)
  (style0 : string) (voice_name0 : option string) (r t : Q)
  (p : Speech.VoiceProfile) :
  Speech.lookup_profile style0 (Speech.voice_profiles self) = Some p ->
  exists self' p',
    Speech.update_voice_profile style0 voice_name0 (Some r) (Some t) self =
      (Ok true, self') /\
    Speech.lookup_profile style0 (Speech.voice_profiles self') = Some p' /\
    Speech.style p' = Speech.style p /\
    Speech.voice_name p' =
      match voice_name0 with
      | Some name => if String.eqb name "" then Speech.voice_name p else name
      | None => Speech.voice_name p
      end /\
    ((r < 0.5 -> Speech.rate p' == 0.5) /\
     (0.5 <= r <= 2.0 -> Speech.rate p' == r) /\
     (2.0 < r -> Speech.rate p' == 2.0))%Q /\
    ((t < -12 -> Speech.pitch p' == -12) /\
     (-12 <= t <= 12 -> Speech.pitch p' == t) /\
     (12 < t -> Speech.pitch p' == 12))%Q /\
    (forall k, k <> style0 ->
       Speech.lookup_profile k (Speech.voice_profiles self') =
       Speech.lookup_profile k (Speech.voice_profiles self)).
Proof.
  intros E. unfold Speech.update_voice_profile. rewrite E.
  eexists. eexists. split; [reflexivity | ].
  cbn [Speech.voice_profiles].
  split; [exact (lookup_store_same _ _ _ _ E) | ].
  cbn [Speech.style Speech.voice_name Speech.rate Speech.pitch].
  split; [destruct voice_name0 as [name | ];
          [destruct (String.eqb name ""); reflexivity | reflexivity] | ].
  split; [destruct voice_name0 as [name | ];
          [destruct (String.eqb name ""); reflexivity | reflexivity] | ].
  split; [apply clamp_cases; lra | ].
  split; [apply clamp_cases; lra | ].
  intros k Hk. apply lookup_store_other. exact Hk.
Qed.

(** An unknown style. *)
Lemma update_unknown_style (self : Speech.SpeechSynthesizer)
  (style0 : string) (voice_name0 : option string) (rate0 pitch0 : option Q) :
  Speech.lookup_profile style0 (Speech.voice_profiles self) = None ->
  Speech.update_voice_profile style0 voice_name0 rate0 pitch0 self =
    (Ok false, self).
Proof.
  intros E. unfold Speech.update_voice_profile. rewrite E. reflexivity.
Qed.

(** ** The synthesis statistics *)

Lemma update_stats_step (success : bool) (duration : Z)
  (self : Speech.SpeechSynthesizer) :
  (0 <= Speech.total_synthesized (Speech.stats self))%Z ->
  exists average,
    Speech._update_stats success duration self =
      (Ok tt,
       Speech.set_stats
         {| Speech.total_synthesized :=
              Speech.total_synthesized (Speech.stats self) + 1;
            Speech.errors :=
              (Speech.errors (Speech.stats self) + if success then 0 else 1)%Z;
            Speech.average_duration := average |} self) /\
    (if success && (0 <? duration)%Z
     then (average *
           inject_Z (Speech.total_synthesized (Speech.stats self) + 1) ==
           Speech.average_duration (Speech.stats self) *
           inject_Z (Speech.total_synthesized (Speech.stats self)) +
           inject_Z duration)%Q
     else average = Speech.average_duration (Speech.stats self)).
Proof.
  intros Hn. unfold Speech._update_stats, m_bind, m_write, m_ret.
  destruct success; cbn [negb andb].
  - destruct (0 <? duration)%Z eqn:Hd.
    + cbn [Speech.stats Speech.set_stats Speech.total_synthesized
           Speech.errors Speech.average_duration Speech.voice_profiles].
      remember (Speech.total_synthesized (Speech.stats self)) as n eqn:En.
      destruct (Py.fdiv
        (Speech.average_duration (Speech.stats self) * inject_Z (n + 1 - 1) +
         inject_Z duration) (inject_Z (n + 1))) as [q | e] eqn:F.
      * apply fdiv_ok in F. destruct F as [Hnz Hq].
        exists q. split.
        { unfold Speech.set_stats. cbn [Speech.voice_profiles].
          rewrite Z.add_0_r. reflexivity. }
        rewrite Hq. replace (n + 1 - 1)%Z with n by lia. field. exact Hnz.
      * exfalso. unfold Py.fdiv in F.
        destruct (Qeq_bool (inject_Z (n + 1)) 0) eqn:Z0; [ | discriminate].
        apply Qeq_bool_iff in Z0.
        unfold Qeq, inject_Z in Z0. cbn [Qnum Qden] in Z0. subst n. lia.
    + exists (Speech.average_duration (Speech.stats self)). split; [ | reflexivity].
      unfold Speech.set_stats.
      cbn [Speech.stats Speech.total_synthesized Speech.errors
           Speech.average_duration Speech.voice_profiles].
      rewrite Z.add_0_r. reflexivity.
  - exists (Speech.average_duration (Speech.stats self)). split; [ | reflexivity].
    unfold Speech.set_stats.
    cbn [Speech.stats Speech.total_synthesized Speech.errors
         Speech.average_duration Speech.voice_profiles].
    reflexivity.
Qed.

Lemma record_all_counts (calls : list (bool * Z)) :
  forall self : Speech.SpeechSynthesizer,
  (0 <= Speech.total_synthesized (Speech.stats self))%Z ->
  exists self',
    Speech.record_all calls self = (Ok tt, self') /\
    Speech.total_synthesized (Speech.stats self') =
      (Speech.total_synthesized (Speech.stats self) +
       Z.of_nat (List.length calls))%Z /\
    Speech.errors (Speech.stats self') =
      (Speech.errors (Speech.stats self) +
       Z.of_nat (Speech.failures calls))%Z /\
    Speech.voice_profiles self' = Speech.voice_profiles self.
Proof.
  induction calls as [ | [success duration] rest IH]; intros self Hn.
  - exists self. cbn [Speech.record_all List.length Speech.failures filter].
    unfold m_ret. repeat split; cbn [List.length Z.of_nat]; lia || reflexivity.
  - destruct (update_stats_step success duration self Hn) as (a & Hstep & _).
    cbn [Speech.record_all]. unfold m_bind. rewrite Hstep.
    match goal with |- context [Speech.record_all rest ?s] =>
      destruct (IH s) as (self' & Hrun & Ht & He & Hv) end.
    { cbn [Speech.set_stats Speech.stats Speech.total_synthesized]. lia. }
    exists self'. split; [exact Hrun | ].
    rewrite Ht, He, Hv.
    cbn [Speech.set_stats Speech.stats Speech.total_synthesized Speech.errors
         Speech.voice_profiles].
    unfold Speech.failures. cbn [filter fst List.length].
    destruct success; cbn [negb List.length]; repeat split; lia.
Qed.

(** X27.  From a new synthesizer, any sequence of [_update_stats] calls
    returns without a division by zero; [total_synthesized] is the number of
    calls, [errors] the number of calls with [success] false, so that
    0 <= errors <= total_synthesized, and the voice profiles are untouched. *)
Theorem stats_count_every_call (calls : list (bool * Z)) :
  exists self,
    Speech.record_all calls Speech.SpeechSynthesizer_init = (Ok tt, self) /\
    Speech.total_synthesized (Speech.stats self) =
      Z.of_nat (List.length calls) /\
    Speech.errors (Speech.stats self) = Z.of_nat (Speech.failures calls) /\
    (0 <= Speech.errors (Speech.stats self) <=
     Speech.total_synthesized (Speech.stats self))%Z /\
    Speech.voice_profiles self =
      Speech.voice_profiles Speech.SpeechSynthesizer_init.
Proof.
  destruct (record_all_counts calls Speech.SpeechSynthesizer_init)
    as (self & Hrun & Ht & He & Hv).
  { cbn. lia. }
  exists self. split; [exact Hrun | ].
  cbn [Speech.SpeechSynthesizer_init Speech.stats Speech.total_synthesized
       Speech.errors] in Ht, He.
  rewrite Ht, He. repeat split; try lia; try exact Hv.
  unfold Speech.failures. pose proof (filter_length_le (fun c : bool * Z => negb (fst c)) calls). lia.
Qed.

Lemma record_all_mean (calls : list (bool * Z)) :
  Forall (fun c => fst c = true /\ (0 < snd c)%Z) calls ->
  forall self : Speech.SpeechSynthesizer,
  (0 <= Speech.total_synthesized (Speech.stats self))%Z ->
  (Speech.average_duration (Speech.stats (snd (Speech.record_all calls self))) *
   inject_Z (Speech.total_synthesized (Speech.stats self) +
             Z.of_nat (List.length calls)) ==
   Speech.average_duration (Speech.stats self) *
   inject_Z (Speech.total_synthesized (Speech.stats self)) +
   inject_Z (Speech.total_duration calls))%Q.
Proof.
  induction 1 as [ | [success duration] rest [Hs Hd] _ IH]; intros self Hn.
  - cbn [Speech.record_all List.length Z.of_nat Speech.total_duration map
         fold_right]. unfold m_ret. cbn [snd].
    rewrite Z.add_0_r. change (inject_Z 0) with 0%Q. ring.
  - cbn [fst snd] in Hs, Hd. subst success.
    destruct (update_stats_step true duration self Hn) as (a & Hstep & Ha).
    apply Z.ltb_lt in Hd. rewrite Hd in Ha. cbn [andb] in Ha.
    cbn [Speech.record_all]. unfold m_bind. rewrite Hstep.
    match goal with |- context [Speech.record_all rest ?s] =>
      specialize (IH s) end.
    cbn [Speech.set_stats Speech.stats Speech.total_synthesized
         Speech.average_duration] in IH.
    replace (Speech.total_synthesized (Speech.stats self) +
             Z.of_nat (List.length ((true, duration) :: rest)))%Z
      with (Speech.total_synthesized (Speech.stats self) + 1 +
            Z.of_nat (List.length rest))%Z
      by (cbn [List.length]; lia).
    rewrite IH by lia. rewrite Ha.
    unfold Speech.total_duration. cbn [map fold_right snd].
    rewrite inject_Z_plus. ring.
Qed.

(** X28.  When every synthesis recorded since the synthesizer was created
    succeeded with a positive duration, [average_duration] is the mean of
    the durations. *)
Theorem average_duration_is_the_mean (calls : list (bool * Z)) :
  calls <> [] ->
  Forall (fun c => fst c = true /\ (0 < snd c)%Z) calls ->
  (Speech.average_duration
     (Speech.stats (snd (Speech.record_all calls Speech.SpeechSynthesizer_init))) ==
   inject_Z (Speech.total_duration calls) /
   inject_Z (Z.of_nat (List.length calls)))%Q.
Proof.
  intros Hne Hall.
  pose proof (record_all_mean calls Hall Speech.SpeechSynthesizer_init) as H.
  cbn [Speech.SpeechSynthesizer_init Speech.stats Speech.total_synthesized
       Speech.average_duration] in H.
  specialize (H ltac:(lia)). rewrite Z.add_0_l in H.
  assert (Hlen : ~ (inject_Z (Z.of_nat (List.length calls)) == 0)%Q).
  { intros Hz. unfold Qeq, inject_Z in Hz. cbn [Qnum Qden] in Hz.
    destruct calls; [congruence | ]. cbn [List.length] in Hz. lia. }
  apply (Qmult_inj_r _ _ _ Hlen). rewrite H. field. exact Hlen.
Qed.

End Commentary.

(** ** The statements at sample inputs *)

(** The importance claimed for every event fails for the early score. *)
Lemma early_score_importance_negative :
  exists v : Q,
    _calculate_event_importance sample_float_of_string GameAnalyzer_init
                                early_score_event = Ok v /\
    ~ ((0 <= v)%Q /\ (v <= 1)%Q).
Proof.
  eexists. split; [vm_compute; reflexivity | ].
  intros [H _]. vm_compute in H. apply H. reflexivity.
Qed.

Lemma init_configured : configured GameAnalyzer_init.
Proof.
  split; reflexivity.
Defined.

Lemma event_importance_formula_witness :
  exists v : Q,
    _calculate_event_importance sample_float_of_string GameAnalyzer_init possession_event
      = Ok v /\
    (v == 2 # 3)%Q /\
    exists ty : string,
      Py.subscript possession_event "type" = Ok (VStr ty) /\
      (v <= 1)%Q /\
      ((Py.contains "time_remaining" possession_event = Ok false /\
        v = Py.fmin 1.0 (base_weight (Str.lower ty)) /\
        (0 <= v)%Q)
       \/
       (exists (tr : value) (t : Q),
          Py.subscript possession_event "time_remaining" = Ok tr /\
          py_float sample_float_of_string tr = Ok t /\
          v = Py.fmin 1.0 (base_weight (Str.lower ty) * time_urgency t) /\
          ((t <= 9000)%Q -> (0 <= v)%Q))).
Proof.
  eexists. split; [vm_compute; reflexivity | ].
  split; [reflexivity | ].
  apply (event_importance_formula sample_float_of_string GameAnalyzer_init).
  - exact init_configured.
  - vm_compute. reflexivity.
Defined.


(** With the methods undefined, as in the source, every analysis of a valid
    snapshot fails at the game situation and commits nothing. *)
Lemma analyze_error_leaves_previous_witness :
  analyze_game_state sample_float_of_string (fun _ => undefined_method)
                     undefined_method undefined_method
                     base_snapshot GameAnalyzer_init
  = (Err AttributeError, GameAnalyzer_init).
Proof.
  apply analyze_error_leaves_previous.
  eapply raises_in_situation; vm_compute; reflexivity.
Defined.

Lemma fallback_after_analysis_witness :
  Py.keys base_snapshot_analysis =
    ["key_moments"; "momentum"; "performance_metrics"; "game_situation"] /\
  _generate_fallback_commentary sample_repr base_snapshot_analysis =
    "The game continues with a score of 0-0." /\
  forall g wanted max_length uniform,
    rendering sample_repr undefined_method undefined_method undefined_method
              undefined_method undefined_method
              g base_snapshot_analysis wanted uniform = None ->
    generate_commentary sample_repr undefined_method undefined_method
                        undefined_method undefined_method undefined_method
                        base_snapshot_analysis wanted max_length uniform g =
    (Ok "The game continues with a score of 0-0.", g).
Proof.
  apply (fallback_on_analyzer_output
           sample_float_of_string sample_repr
           sample_criticality (phrase "late") (phrase "one-score game")
           undefined_method undefined_method undefined_method
           undefined_method undefined_method
           base_snapshot GameAnalyzer_init (analyzer_after base_snapshot)).
  vm_compute. reflexivity.
Defined.

Lemma clock_7500_accepted_1075_rejected_witness :
  validate_game_data sample_strptime base_snapshot = Ok true /\
  validate_game_data sample_strptime
    (set_item "game_time" (VStr "75:00") base_snapshot) = Ok true /\
  _parse_time_remaining (VStr "75:00") = Ok 4500 /\
  validate_game_data sample_strptime
    (set_item "game_time" (VStr "10:75") base_snapshot) =
    Err (ValidationError "Seconds must be less than 60").
Proof.
  split; [reflexivity | ].
  apply clock_7500_accepted_1075_rejected. reflexivity.
Defined.

Lemma leading_team_has_higher_score_witness :
  _get_leading_team scores_21_14 = Ok (VStr "Lions").
Proof.
  apply (leading_team_has_higher_score scores_21_14 (inject_Z 21) (inject_Z 14));
    reflexivity.
Defined.

Lemma pattern_memory_witness :
  let generator_after calls :=
    after_calls sample_repr (phrase "score") (phrase "strong") (phrase "a lead")
                (phrase "efficiency") (phrase "control") calls
                six_template_generator in
  let full := generator_after (repeat neutral_call 5) in
  let next := generator_after (repeat neutral_call 6) in
  last_used_patterns full =
    ["{team} one"; "{team} two"; "{team} three"; "{team} four"; "{team} five"] /\
  rendering_of sample_repr (phrase "score") (phrase "strong") (phrase "a lead")
               (phrase "efficiency") (phrase "control") full neutral_call
    = Some (sixth_template, "Lions six") /\
  last_used_patterns next =
    ["{team} two"; "{team} three"; "{team} four"; "{team} five"; "{team} six"] /\
  (List.length (last_used_patterns next) <= 5)%nat /\
  last_used_patterns next =
    ((if (List.length (last_used_patterns full) <? 5)%nat
      then last_used_patterns full
      else tl (last_used_patterns full)) ++ [pattern sixth_template])%list /\
  (forall relevant,
     _filter_templates next (call_analysis neutral_call)
                       (call_style neutral_call) = Ok relevant ->
     ~ In (pattern sixth_template) (map pattern relevant)) /\
  (rendering_of sample_repr (phrase "score") (phrase "strong") (phrase "a lead")
                (phrase "efficiency") (phrase "control") next neutral_call
     = None ->
   snd (generate sample_repr (phrase "score") (phrase "strong") (phrase "a lead")
                 (phrase "efficiency") (phrase "control") neutral_call next)
   = next).
Proof.
  intros generator_after full next.
  split; [vm_compute; reflexivity | ].
  split; [vm_compute; reflexivity | ].
  split; [vm_compute; reflexivity | ].
  apply (pattern_memory_bounded_and_excluding
           sample_repr (phrase "score") (phrase "strong") (phrase "a lead")
           (phrase "efficiency") (phrase "control")
           six_template_generator (repeat neutral_call 5) neutral_call []
           neutral_call sixth_template "Lions six").
  - unfold bounded. simpl. lia.
  - reflexivity.
  - vm_compute. reflexivity.
  - simpl. lia.
Defined.

(** ** The source as it stands

    [analyzer.py] and [generator.py] call the missing methods without
    defining them.  With every such call raising [AttributeError], no
    analysis completes and every commentary is the fallback sentence. *)

Lemma analyze_with_undefined_methods
  (float_of_string : string -> result Q) (stats : dict) (self : GameAnalyzer) :
  exists e,
    analyze_game_state float_of_string (fun _ => undefined_method)
                       undefined_method undefined_method stats self
    = (Err e, self).
Proof.
  destruct (analyze_game_state float_of_string (fun _ => undefined_method)
              undefined_method undefined_method stats self)
    as [[analysis | e] self'] eqn:H.
  - apply analyze_ok_inv in H as (_ & km & mo & pm & gs & _ & _ & _ & Hgs & _).
    unfold _assess_game_situation in Hgs.
    repeat (apply bind_ok in Hgs as (? & ? & Hgs)).
    match goal with
    | Hc : undefined_method _ = Ok _ |- _ => discriminate Hc
    end.
  - apply analyze_error_inv in H as [-> _]. exists e. reflexivity.
Qed.

Lemma generate_with_undefined_methods
  (repr_value : value -> string) (analysis : dict) (wanted : string)
  (max_length : Z) (uniform : nat -> Q) (self : CommentaryGenerator) :
  generate_commentary repr_value undefined_method undefined_method
                      undefined_method undefined_method undefined_method
                      analysis wanted max_length uniform self
  = (Ok (_generate_fallback_commentary repr_value analysis), self).
Proof.
  rewrite generate_commentary_cases. unfold rendering.
  destruct (_filter_templates self analysis wanted) as [relevant | ];
    [ | reflexivity].
  destruct (_select_template relevant uniform) as [t | ]; [ | reflexivity].
  unfold _fill_template.
  destruct (_get_leading_team analysis); reflexivity.
Qed.


(** ** Further statements at sample inputs *)

Lemma momentum_sums_to_one_witness :
  exists h a : Q,
    [("home", VFloat 1.1); ("away", VFloat (-0.1))] =
      [("home", VFloat h); ("away", VFloat a)] /\
    (0.99 <= h + a <= 1.01)%Q.
Proof.
  apply (momentum_sums_to_one (analyzer_after base_snapshot) six_home_scores).
  vm_compute. reflexivity.
Defined.

Lemma momentum_in_unit_interval_witness :
  _calculate_momentum (analyzer_after base_snapshot) two_home_scores =
    Ok [("home", VFloat 0.7); ("away", VFloat 0.3)] /\
  (0 <= 0.7 <= 1)%Q /\ (0 <= 0.3 <= 1)%Q.
Proof.
  split; [vm_compute; reflexivity | ].
  apply (momentum_in_unit_interval_up_to_five_plays
           (analyzer_after base_snapshot) two_home_scores
           (repeat home_scoring_play 2)).
  - vm_compute. reflexivity.
  - simpl. lia.
  - vm_compute. reflexivity.
Defined.

Lemma momentum_raises_key_error_witness :
  KeyError "team" = TypeError \/ KeyError "team" = KeyError "team" \/
  KeyError "team" = KeyError "home_team".
Proof.
  apply (momentum_raises_only_type_and_key_errors
           (analyzer_after base_snapshot) play_without_team).
  vm_compute. reflexivity.
Defined.

Lemma pressure_and_defense_witness :
  _calculate_pressure home_counters "home" = Ok 1.0%Q /\
  _calculate_defense home_counters "home" = Ok (2 # 5) /\
  capped_percentage (Py.get home_counters ("home" ++ "_pressure") (VInt 0))
                    (inject_Z 250) (_calculate_pressure home_counters "home") /\
  capped_percentage (Py.get home_counters ("home" ++ "_defense") (VInt 0))
                    (inject_Z 40) (_calculate_defense home_counters "home").
Proof.
  split; [vm_compute; reflexivity | ]. split; [vm_compute; reflexivity | ].
  exact (pressure_and_defense_are_capped_percentages home_counters "home"
           (inject_Z 250) (inject_Z 40) eq_refl eq_refl).
Defined.

Lemma efficiency_is_rounded_quotient_witness :
  exists e : Q,
    _calculate_efficiency home_counters "home" = Ok e /\
    (inject_Z 2 / inject_Z 3 - 0.0006 <= e <=
     inject_Z 2 / inject_Z 3 + 0.0006)%Q.
Proof.
  apply (efficiency_is_rounded_quotient home_counters "home" 2 3).
  - reflexivity.
  - reflexivity.
  - discriminate.
  - vm_compute. discriminate.
  - vm_compute. discriminate.
Defined.

Lemma validated_clock_parses_witness :
  exists (minutes seconds : string) (k : Z),
    Py.lookup "game_time" base_snapshot =
      Some (VStr (minutes ++ ":" ++ seconds)) /\
    Str.to_int seconds = Ok k /\ 0 <= k < 60 /\
    if Str.all_digits minutes &&
       (String.length minutes <=? Str.max_str_digits)%nat
    then exists m,
           Str.to_int minutes = Ok m /\ 0 <= m /\
           _parse_time_remaining (VStr (minutes ++ ":" ++ seconds)) =
             Ok (m * 60 + k)
    else _parse_time_remaining (VStr (minutes ++ ":" ++ seconds)) =
           Err ValueError.
Proof.
  apply (validated_clock_parses sample_strptime base_snapshot).
  vm_compute. reflexivity.
Defined.

Lemma validated_snapshot_reaches_the_assessment_witness :
  exists (minutes seconds : string) (k : Z) (hv av : value) (h a : Q),
    Py.lookup "game_time" base_snapshot =
      Some (VStr (minutes ++ ":" ++ seconds)) /\
    Str.to_int seconds = Ok k /\
    Py.lookup "home_score" base_snapshot = Some hv /\ Py.as_num hv = Some h /\
    Py.lookup "away_score" base_snapshot = Some av /\ Py.as_num av = Some a /\
    match Str.to_int minutes with
    | Err _ =>
        _assess_game_situation sample_criticality (phrase "late")
          (phrase "one-score game") base_snapshot = Err ValueError
    | Ok m =>
        if Py.unconvertible hv av
        then _assess_game_situation sample_criticality (phrase "late")
               (phrase "one-score game") base_snapshot = Err OverflowError
        else exists (d : value) (dq : Q),
               0 <= m * 60 + k /\
               Py.as_num d = Some dq /\
               (dq == Qabs (h - a))%Q /\
               _assess_game_situation sample_criticality (phrase "late")
                 (phrase "one-score game") base_snapshot =
                 (criticality <- sample_criticality (m * 60 + k) d ;;
                  phase <- phrase "late" (m * 60 + k) ;;
                  context <- phrase "one-score game" base_snapshot ;;
                  Ok [("criticality", criticality); ("phase", phase);
                      ("context", context)])
    end.
Proof.
  apply (validated_snapshot_reaches_the_assessment
           sample_strptime sample_criticality (phrase "late")
           (phrase "one-score game") base_snapshot).
  vm_compute. reflexivity.
Defined.

(** The clock [²:05] validates, and its minutes are then a [ValueError]. *)
Example superscript_minutes_validate_and_fail :
  validate_game_data sample_strptime superscript_clock = Ok true /\
  _parse_time_remaining (VStr (String superscript_two ":05")) = Err ValueError.
Proof.
  split; vm_compute; reflexivity.
Qed.

(** An [int] counter beyond the largest float overflows the division. *)
Example counter_beyond_float_overflows :
  _calculate_pressure huge_counters "home" = Err OverflowError /\
  _calculate_efficiency huge_counters "home" = Err OverflowError.
Proof.
  split; vm_compute; reflexivity.
Qed.

(** A validated snapshot with an [int] score beyond the largest float
    beside a [float] score overflows the score difference. *)
Example score_beyond_float_overflows :
  validate_game_data sample_strptime huge_score = Ok true /\
  _assess_game_situation sample_criticality (phrase "late")
    (phrase "one-score game") huge_score = Err OverflowError.
Proof.
  split; vm_compute; reflexivity.
Qed.

(** A key of 32 no-break spaces is whitespace and is refused. *)
Example blank_key_is_refused :
  validate_config blank_key_config =
    Err (ValidationError "Invalid format for GROQ_API_KEY") /\
  validate_config
    (set_item "GROQ_API_KEY" (VStr "0123456789abcdef0123456789abcdef")
              blank_key_config) = Ok true.
Proof.
  split; vm_compute; reflexivity.
Qed.

Lemma first_offending_field_is_reported_witness :
  validate_game_data sample_strptime numeric_timestamp =
    Err (ValidationError
           "Invalid type for timestamp: expected <class 'str'>, got <class 'int'>").
Proof.
  apply (first_offending_field_is_reported sample_strptime numeric_timestamp
           [("game_id", [Tstr])]
           [("home_team", [Tstr]); ("away_team", [Tstr]);
            ("home_score", [Tint; Tfloat]); ("away_score", [Tint; Tfloat]);
            ("period", [Tint; Tstr]); ("game_time", [Tstr])]
           ("timestamp", [Tstr])).
  - reflexivity.
  - repeat constructor.
  - vm_compute. reflexivity.
Defined.

Lemma clock_with_two_colons_witness :
  validate_game_data sample_strptime
    (set_item "game_time" (VStr ("1" ++ ":" ++ "05" ++ ":" ++ "00")) base_snapshot)
  = Err ValueError.
Proof.
  apply (clock_with_two_colons_raises_value_error sample_strptime base_snapshot).
  vm_compute. reflexivity.
Defined.

Lemma untimed_key_moments_by_type_witness :
  exists r : option GameMoment,
    key_moment_of sample_float_of_string GameAnalyzer_init (VDict penalty_event)
      = Ok r /\
    match r with
    | Some m =>
        timestamp m = VStr "2024-01-01 19:58:00" /\
        event_type m = VStr "penalty" /\
        description m = VStr "Holding" /\
        teams_involved m = VList [VStr "Bears"] /\
        ((Str.lower "penalty" = "score_change" /\ importance m = 0.8%Q /\
          score_change m = true /\ momentum_shift m = true) \/
         (Str.lower "penalty" = "injury" /\ importance m = 0.7%Q /\
          score_change m = false /\ momentum_shift m = false) \/
         (Str.lower "penalty" = "penalty" /\ importance m = 0.6%Q /\
          score_change m = false /\ momentum_shift m = false))
    | None =>
        Str.lower "penalty" <> "score_change" /\ Str.lower "penalty" <> "injury" /\
        Str.lower "penalty" <> "penalty"
    end.
Proof.
  apply (untimed_key_moments_by_type sample_float_of_string GameAnalyzer_init
           penalty_event "penalty").
  - exact init_configured.
  - reflexivity.
  - reflexivity.
  - reflexivity.
  - reflexivity.
  - reflexivity.
Defined.

Lemma selection_respects_priority_witness :
  2 * priority neutral_template <= 3 * priority excited_template.
Proof.
  apply (selection_respects_priority (templates CommentaryGenerator_init)
           (fun _ => 1%Q)).
  - intros i. split; vm_compute; discriminate.
  - intros c [<- | [<- | [<- | []]]]; vm_compute; discriminate.
  - vm_compute. reflexivity.
  - left. reflexivity.
Defined.


Lemma catalog_template_is_rendered_once_witness :
  let g2 :=
    after_calls sample_repr (phrase "score") (phrase "strong") (phrase "a lead")
      (phrase "efficiency") (phrase "control") [neutral_call]
      (snd (generate sample_repr (phrase "score") (phrase "strong")
              (phrase "a lead") (phrase "efficiency") (phrase "control")
              neutral_call CommentaryGenerator_init)) in
  In (pattern neutral_template) (last_used_patterns g2) /\
  (List.length (last_used_patterns g2) <= 3)%nat /\
  ~ In (pattern neutral_template) (map pattern (@nil CommentaryTemplate)).
Proof.
  apply (catalog_template_is_rendered_once
           sample_repr (phrase "score") (phrase "strong") (phrase "a lead")
           (phrase "efficiency") (phrase "control")
           [] neutral_call [neutral_call] neutral_call neutral_template
           "Lions score as they dominate the game" []).
  - vm_compute. reflexivity.
  - vm_compute. reflexivity.
Defined.

Lemma rendered_text_is_truncated_witness :
  exists out rest : string,
    fst (generate_commentary sample_repr (phrase "score") (phrase "strong")
           (phrase "a lead") (phrase "efficiency") (phrase "control")
           home_in_control "neutral" 10 (fun _ => 1%Q)
           CommentaryGenerator_init) = Ok out /\
    "Lions score as they dominate the game" = out ++ rest /\
    String.length out =
      if 10 <? 0
      then (String.length "Lions score as they dominate the game" -
            Z.to_nat (- 10))%nat
      else Nat.min (Z.to_nat 10)
                   (String.length "Lions score as they dominate the game").
Proof.
  apply (rendered_text_is_truncated
           sample_repr (phrase "score") (phrase "strong") (phrase "a lead")
           (phrase "efficiency") (phrase "control")
           CommentaryGenerator_init home_in_control "neutral" 10 (fun _ => 1%Q)
           neutral_template).
  vm_compute. reflexivity.
Defined.

Lemma momentum_condition_by_largest_value_witness :
  exists met : bool,
    _check_condition home_in_control "momentum" 0.7 = Ok met /\
    (met = true <->
     exists v q,
       In v (Py.values [("home", VFloat 0.9); ("away", VFloat 0.1)]) /\
       Py.as_num v = Some q /\ (0.7 <= q)%Q).
Proof.
  apply (momentum_condition_by_largest_value home_in_control
           [("home", VFloat 0.9); ("away", VFloat 0.1)] 0.7).
  - reflexivity.
  - discriminate.
  - intros v [<- | [<- | []]]; eexists; reflexivity.
Defined.

Lemma momentum_description_by_largest_value_witness :
  let momentum := [("home", VFloat 0.9); ("away", VFloat 0.1)] in
  exists (k : string) (v : value) (q : Q),
    In (k, v) momentum /\
    Py.as_num v = Some q /\
    (forall kv q', In kv momentum -> Py.as_num (snd kv) = Some q' -> (q' <= q)%Q) /\
    _describe_momentum (VDict momentum) =
      Ok (if Py.Qltb 0.8 q then "dominate the game"
          else if Py.Qltb 0.6 q then "maintain control"
          else "push forward").
Proof.
  apply (momentum_description_by_largest_value
           [("home", VFloat 0.9); ("away", VFloat 0.1)]).
  - discriminate.
  - repeat constructor; simpl; intuition discriminate.
  - intros kv [<- | [<- | []]]; eexists; reflexivity.
Defined.

Lemma efficiency_conditions_by_any_team_witness :
  let metrics :=
    [("home", VDict [("efficiency", VFloat 0); ("pressure", VFloat 0);
                     ("defense", VFloat 0)]);
     ("away", VDict [("efficiency", VFloat 0); ("pressure", VFloat 0);
                     ("defense", VFloat 0)])] in
  (exists met : bool,
     _check_condition base_snapshot_analysis "performance" 0.5 = Ok met /\
     _check_condition base_snapshot_analysis "efficiency" 0.5 = Ok met /\
     (met = true <->
      exists d q, In (VDict d) (Py.values metrics) /\
                  Py.as_num (Py.get d "efficiency" (VInt 0)) = Some q /\
                  (0.5 <= q)%Q)) /\
  (forall name,
     name <> "momentum" -> name <> "performance" -> name <> "efficiency" ->
     _check_condition base_snapshot_analysis name 0.5 = Ok false).
Proof.
  intros metrics.
  apply (efficiency_conditions_by_any_team base_snapshot_analysis metrics 0.5).
  - reflexivity.
  - intros p [<- | [<- | []]]; eexists; eexists; split; reflexivity.
Defined.

Lemma neutral_call_without_momentum_witness :
  generate_commentary sample_repr (phrase "score") (phrase "strong")
    (phrase "a lead") (phrase "efficiency") (phrase "control")
    scores_21_14 "neutral" 150 (fun _ => 1%Q) CommentaryGenerator_init =
  (Ok (_generate_fallback_commentary sample_repr scores_21_14),
   CommentaryGenerator_init).
Proof.
  apply (neutral_call_without_momentum_falls_back
           sample_repr (phrase "score") (phrase "strong") (phrase "a lead")
           (phrase "efficiency") (phrase "control")
           [] scores_21_14 150 (fun _ => 1%Q)).
  reflexivity.
Defined.

Lemma update_voice_profile_clamps_witness :
  exists self' p',
    Speech.update_voice_profile "excited" None (Some 3%Q) (Some (-20)%Q)
      Speech.SpeechSynthesizer_init = (Ok true, self') /\
    Speech.lookup_profile "excited" (Speech.voice_profiles self') = Some p' /\
    (Speech.rate p' == 2.0)%Q /\ (Speech.pitch p' == -12)%Q.
Proof.
  destruct (update_voice_profile_clamps Speech.SpeechSynthesizer_init
              "excited" None 3%Q (-20)%Q
              {| Speech.voice_name := "en-US-ChristopherNeural";
                 Speech.style := "excited";
                 Speech.rate := 1.1; Speech.pitch := 2 |})
    as (self' & p' & Hrun & Hp & _ & _ & (_ & _ & Hrate) & (Hpitch & _) & _).
  - reflexivity.
  - exists self', p'. split; [exact Hrun | split; [exact Hp | split]].
    + apply Hrate. vm_compute. reflexivity.
    + apply Hpitch. vm_compute. reflexivity.
Defined.

Lemma average_duration_is_the_mean_witness :
  let calls := [(true, 10); (true, 20)] in
  (Speech.average_duration
     (Speech.stats (snd (Speech.record_all calls Speech.SpeechSynthesizer_init)))
   == inject_Z (Speech.total_duration calls) /
      inject_Z (Z.of_nat (List.length calls)))%Q.
Proof.
  apply (average_duration_is_the_mean [(true, 10); (true, 20)]).
  - discriminate.
  - repeat constructor.
Defined.

Lemma prompt_of_a_validated_snapshot_witness :
  (In "excited" ["excited"; "neutral"; "analytical"] ->
   exists text,
     _create_commentary_prompt sample_repr four_plays "excited" = Ok text) /\
  (~ In "excited" ["excited"; "neutral"; "analytical"] ->
   _create_commentary_prompt sample_repr four_plays "excited" =
     Err (KeyError "excited")).
Proof.
  apply (prompt_of_a_validated_snapshot sample_strptime sample_repr four_plays
           "excited"
           [VDict [("description", VStr "Kickoff.")];
            VDict [("description", VStr "First down.")];
            VDict [("description", VStr "Touchdown!")];
            VDict []]).
  - vm_compute. reflexivity.
  - reflexivity.
  - repeat constructor; eexists; eexists; split; reflexivity.
Defined.
